(** * Focus management: classifier, enumerator, focus keeper, trap key handler

    A shallow embedding of the TypeScript sources of the focus-management
    package (isFocusable.ts, getFocusableElements.ts, focusFirstElement.ts,
    returnFocus.ts, useFocusTrap.ts) and the properties its specification
    states about them.

    Conventions of the embedding
    - JavaScript strings are [string]s of ASCII code units.
    - [null]/[undefined] references are [None]; an optional option-bag field
      that may be absent *or* null is an [option (option _)].
    - Code that can throw returns a [Completion]; the mutable world (document,
      saved-focus slots, console) is threaded explicitly and survives a throw,
      as it does in JavaScript.
    - The DOM is an external collaborator: what [focus()] does to the document
      is left to an interface ([FocusModel]) and every theorem below holds for
      all of its implementations. *)

From Stdlib Require Import Bool Arith ZArith QArith Lia Lqa List String Ascii.
From Stdlib Require Import Permutation Sorted.
Import ListNotations.

Set Warnings "-register-all".
Local Close Scope Q_scope.

Local Open Scope string_scope.
Local Open Scope bool_scope.
Local Open Scope list_scope.

(* ===================================================================== *)
(** ** Strings and the runtime's conversions *)
(* ===================================================================== *)

Module Js.

(** [String.prototype.toLowerCase] on ASCII code units. *)
Definition lowerChar (c : ascii) : ascii :=
  let n := nat_of_ascii c in
  if ((65 <=? n)%nat && (n <=? 90)%nat) then ascii_of_nat (n + 32) else c.

Fixpoint toLowerCase (s : string) : string :=
  match s with
  | EmptyString => EmptyString
  | String c r => String (lowerChar c) (toLowerCase r)
  end.

(** StrWhiteSpaceChar restricted to ASCII: TAB, LF, VT, FF, CR, SP. *)
Definition isWhiteSpace (c : ascii) : bool :=
  let n := nat_of_ascii c in
  ((9 <=? n)%nat && (n <=? 13)%nat) || (n =? 32)%nat.

Fixpoint trimStart (s : string) : string :=
  match s with
  | String c r => if isWhiteSpace c then trimStart r else s
  | EmptyString => EmptyString
  end.

Definition digitOf (c : ascii) : option Z :=
  let n := nat_of_ascii c in
  if ((48 <=? n)%nat && (n <=? 57)%nat) then Some (Z.of_nat (n - 48)) else None.

(** Longest prefix of decimal digits: its value (if any digit was read)
    and the unread rest. *)
Fixpoint readDigits (s : string) (acc : option Z) : option Z * string :=
  match s with
  | String c r =>
      match digitOf c with
      | Some d =>
          readDigits r (Some (10 * match acc with Some a => a | None => 0 end + d)%Z)
      | None => (acc, s)
      end
  | EmptyString => (acc, s)
  end.

(** [parseInt(s, 10)]: leading white space, an optional sign, then the
    longest run of decimal digits; [None] is NaN.  (With an explicit radix
    of 10 no ["0x"] prefix is recognised.) *)
Definition parseInt10 (s : string) : option Z :=
  let t := trimStart s in
  let '(neg, body) :=
    match t with
    | String "-" r => (true, r)
    | String "+" r => (false, r)
    | _ => (false, t)
    end in
  match fst (readDigits body None) with
  | Some v => Some (if neg then (- v)%Z else v)
  | None => None
  end.

Fixpoint allWhiteSpace (s : string) : bool :=
  match s with
  | String c r => isWhiteSpace c && allWhiteSpace r
  | EmptyString => true
  end.

Fixpoint trimEnd (s : string) : string :=
  match s with
  | String c r => if allWhiteSpace s then EmptyString else String c (trimEnd r)
  | EmptyString => EmptyString
  end.

(** The Number type: NaN, the two infinities and the finite IEEE 754
    doubles, a finite double being written as the rational it denotes (the
    sign of a zero is not kept: no comparison in the sources tells [-0] from
    [+0]). *)
Inductive number :=
| NaN
| Infinity (negative : bool)
| Finite (q : Q).

(** [x > 0] *)
Definition gt0 (x : number) : bool :=
  match x with
  | NaN => false
  | Infinity negative => negb negative
  | Finite q => match Qcompare 0 q with Lt => true | _ => false end
  end.

(** [-x] *)
Definition neg (x : number) : number :=
  match x with
  | NaN => NaN
  | Infinity b => Infinity (negb b)
  | Finite q => Finite (Qopp q)
  end.

(** Is [n / d >= 2 ^ e]? *)
Definition atLeastPow2 (n d e : Z) : bool :=
  if (0 <=? e)%Z then (d * 2 ^ e <=? n)%Z else (d <=? n * 2 ^ (- e))%Z.

(** The double nearest to the positive rational [n / d], ties to even:
    53 significant bits from exponent -1022 up, multiples of [2 ^ -1074]
    below (subnormals, down to zero), [Infinity] from [2 ^ 1024] on. *)
Definition roundMagnitude (n d : Z) : number :=
  let e0 := (Z.log2 n - Z.log2 d)%Z in
  let e := if atLeastPow2 n d e0 then e0 else (e0 - 1)%Z in
  let quantum := (Z.max e (-1022) - 52)%Z in
  let num := if (0 <=? quantum)%Z then n else (n * 2 ^ (- quantum))%Z in
  let den := if (0 <=? quantum)%Z then (d * 2 ^ quantum)%Z else d in
  let m0 := (num / den)%Z in
  let r := (num mod den)%Z in
  let m :=
    match (2 * r ?= den)%Z with
    | Lt => m0
    | Gt => (m0 + 1)%Z
    | Eq => if Z.even m0 then m0 else (m0 + 1)%Z
    end in
  if (0 <=? quantum)%Z then
    if (2 ^ 1024 <=? m * 2 ^ quantum)%Z then Infinity false
    else Finite (inject_Z (m * 2 ^ quantum))
  else Finite (Qred (Qmake m (Z.to_pos (2 ^ (- quantum))))).

(** The Number value of a real: round to nearest, ties to even. *)
Definition roundToDouble (q : Q) : number :=
  match Qnum q with
  | Z0 => Finite 0
  | Zpos n => roundMagnitude (Zpos n) (Zpos (Qden q))
  | Zneg n => neg (roundMagnitude (Zpos n) (Zpos (Qden q)))
  end.

(** [x - y] *)
Definition sub (x y : number) : number :=
  match x, y with
  | NaN, _ | _, NaN => NaN
  | Infinity a, Infinity b => if Bool.eqb a b then NaN else Infinity a
  | Infinity a, Finite _ => Infinity a
  | Finite _, Infinity b => Infinity (negb b)
  | Finite p, Finite q => roundToDouble (Qminus p q)
  end.

(** A small integer constant (exactly representable). *)
Definition ofZ (z : Z) : number := Finite (inject_Z z).

(** Digits of a radix-prefixed literal (["0x"], ["0o"], ["0b"]). *)
Definition radixDigitOf (radix : Z) (c : ascii) : option Z :=
  let n := nat_of_ascii c in
  let v :=
    if ((48 <=? n)%nat && (n <=? 57)%nat) then Some (Z.of_nat (n - 48))
    else if ((97 <=? n)%nat && (n <=? 102)%nat) then Some (Z.of_nat (n - 87))
    else if ((65 <=? n)%nat && (n <=? 70)%nat) then Some (Z.of_nat (n - 55))
    else None in
  match v with
  | Some d => if (d <? radix)%Z then Some d else None
  | None => None
  end.

(** A non-empty run of radix digits up to the end of the string. *)
Fixpoint readRadix (radix : Z) (s : string) (acc : option Z) : option Z :=
  match s with
  | EmptyString => acc
  | String c r =>
      match radixDigitOf radix c with
      | Some d =>
          readRadix radix r
            (Some (radix * match acc with Some a => a | None => 0 end + d)%Z)
      | None => None
      end
  end.

(** Fraction digits appended to the mantissa [m], counting them. *)
Fixpoint readFraction (s : string) (m : Z) (count : nat) : Z * nat * string :=
  match s with
  | String c r =>
      match digitOf c with
      | Some d => readFraction r (10 * m + d)%Z (S count)
      | None => (m, count, s)
      end
  | EmptyString => (m, count, s)
  end.

(** ExponentPart, or nothing; [None] when the rest is not a well-formed
    exponent running to the end of the string. *)
Definition readExponent (s : string) : option Z :=
  match s with
  | EmptyString => Some 0%Z
  | String c r =>
      if Ascii.eqb c "e" || Ascii.eqb c "E" then
        let '(neg, body) :=
          match r with
          | String "-" r' => (true, r')
          | String "+" r' => (false, r')
          | _ => (false, r)
          end in
        match readDigits body None with
        | (Some v, EmptyString) => Some (if neg then (- v)%Z else v)
        | _ => None
        end
      else None
  end.

(** [mantissa * 10 ^ exponent] as an exact rational. *)
Definition scale10 (mantissa exponent : Z) : Q :=
  if (0 <=? exponent)%Z
  then inject_Z (mantissa * 10 ^ exponent)
  else Qmake mantissa (Z.to_pos (10 ^ (- exponent))).

(** StrUnsignedDecimalLiteral *)
Definition unsignedDecimal (s : string) : number :=
  if String.eqb s "Infinity" then Infinity false
  else
    let '(int, afterInt) := readDigits s None in
    let '(mant, fracCount, afterFrac) :=
      match afterInt with
      | String "." r =>
          readFraction r (match int with Some a => a | None => 0%Z end) 0
      | _ => (match int with Some a => a | None => 0%Z end, 0%nat, afterInt)
      end in
    let anyDigit :=
      match int with Some _ => true | None => (0 <? fracCount)%nat end in
    if anyDigit then
      match readExponent afterFrac with
      | Some e => roundToDouble (scale10 mant (e - Z.of_nat fracCount))
      | None => NaN
      end
    else NaN.

(** [Number(s)] for a string [s] (StringToNumber): the mathematical value
    of the literal, rounded to the nearest double. *)
Definition Number (s : string) : number :=
  let t := trimEnd (trimStart s) in
  match t with
  | EmptyString => ofZ 0
  | String "0" (String p r) =>
      let radix :=
        if Ascii.eqb p "x" || Ascii.eqb p "X" then Some 16%Z
        else if Ascii.eqb p "o" || Ascii.eqb p "O" then Some 8%Z
        else if Ascii.eqb p "b" || Ascii.eqb p "B" then Some 2%Z
        else None in
      match radix with
      | Some rx =>
          match readRadix rx r None with
          | Some v => roundToDouble (inject_Z v)
          | None => NaN
          end
      | None => unsignedDecimal t
      end
  | String "-" r => neg (unsignedDecimal r)
  | String "+" r => unsignedDecimal r
  | _ => unsignedDecimal t
  end.

End Js.

(* ===================================================================== *)
(** ** The DOM as the code observes it *)
(* ===================================================================== *)

(** Inline style, as read through [element.style.display] and
    [element.style.visibility]. *)
Record Style := mkStyle { display : string; visibility : string }.

(** What the sources read from a single node.  [eid] is the node's identity:
    [===] on elements is equality of [eid]. *)
Record NodeData := mkNodeData {
  eid : nat;
  tagName : string;                      (* [element.tagName] *)
  attributes : list (string * string);   (* name/value pairs *)
  style : option Style;                  (* [None]: no [style] property *)
  disabled : bool;                       (* truthiness of [.disabled] *)
  type : string;                         (* [.type] of an input *)
  isConnected : bool
}.

(** An element handle: the node together with its [parentElement] chain. *)
Inductive Element := mkElement {
  node : NodeData;
  parentElement : option Element
}.

Definition same_node (a b : Element) : bool :=
  Nat.eqb (eid (node a)) (eid (node b)).

Fixpoint lookupAttr (name : string) (l : list (string * string)) : option string :=
  match l with
  | [] => None
  | (k, v) :: r => if String.eqb k name then Some v else lookupAttr name r
  end.

Definition getAttribute (e : Element) (name : string) : option string :=
  lookupAttr name (attributes (node e)).

Definition hasAttribute (e : Element) (name : string) : bool :=
  match getAttribute e name with Some _ => true | None => false end.

(** [x === 'lit'] for a possibly-null string. *)
Definition isStr (x : option string) (lit : string) : bool :=
  match x with Some v => String.eqb v lit | None => false end.

(** [(element as HTMLElement).style?.display === lit] and the like. *)
Definition styleDisplayIs (e : Element) (lit : string) : bool :=
  isStr (option_map display (style (node e))) lit.

Definition styleVisibilityIs (e : Element) (lit : string) : bool :=
  isStr (option_map visibility (style (node e))) lit.

(* ===================================================================== *)
(** ** Focusability classifier (isFocusable.ts) *)
(* ===================================================================== *)

(** The condition tested on each ancestor inside the [while (parent)] loop. *)
Definition parentIsHidden (parent : Element) : bool :=
  isStr (getAttribute parent "aria-hidden") "true"
  || hasAttribute parent "hidden"
  || styleDisplayIs parent "none"
  || styleVisibilityIs parent "hidden".

(** The loop [while (parent) { if (...) return false; parent = parent.parentElement }]
    started at [parent]; [true] when the loop hits its [return false]. *)
Fixpoint ancestorLoopRejects (parent : Element) : bool :=
  if parentIsHidden parent then true
  else match parentElement parent with
       | Some p => ancestorLoopRejects p
       | None => false
       end.

(** The [switch (tagName)] at the end of [isFocusable]. *)
Definition focusableByTag (element : Element) (tag : string) : bool :=
  if String.eqb tag "a" || String.eqb tag "area" then hasAttribute element "href"
  else if String.eqb tag "input" then negb (String.eqb (type (node element)) "hidden")
  else if String.eqb tag "textarea" || String.eqb tag "select"
          || String.eqb tag "summary" || String.eqb tag "button" then true
  else if String.eqb tag "audio" || String.eqb tag "video" then hasAttribute element "controls"
  else if String.eqb tag "details" then hasAttribute element "open"
  else isStr (getAttribute element "contenteditable") "true".

Definition isFocusable (element : option Element) : bool :=
  match element with
  | None => false
  | Some element =>
      if negb (isConnected (node element)) then false
      else if isStr (getAttribute element "tabindex") "-1" then false
      else if hasAttribute element "hidden"
              || styleDisplayIs element "none"
              || styleVisibilityIs element "hidden" then false
      else if isStr (getAttribute element "aria-hidden") "true" then false
      else if disabled (node element) then false
      else if match parentElement element with
              | Some parent => ancestorLoopRejects parent
              | None => false
              end then false
      else
        let tagName := Js.toLowerCase (tagName (node element)) in
        let tabIndex := getAttribute element "tabindex" in
        if match tabIndex with
           | Some t =>
               negb (String.eqb t "-1")
               && match Js.parseInt10 t with
                  | Some parsed => (0 <=? parsed)%Z
                  | None => false
                  end
           | None => false
           end
        then true
        else focusableByTag element tagName
  end.

Definition isTabbable (element : option Element) : bool :=
  if negb (isFocusable element) then false
  else
    match element with
    | None => true   (* not reached: [isFocusable None] is [false] *)
    | Some e =>
        let tabIndex := getAttribute e "tabindex" in
        if isStr tabIndex "-1" then false
        else
          let tagName := Js.toLowerCase (tagName (node e)) in
          if String.eqb tagName "a" || String.eqb tagName "area"
          then hasAttribute e "href"
          else if String.eqb tagName "input"
          then negb (disabled (node e)) && negb (String.eqb (type (node e)) "hidden")
          else if String.eqb tagName "button" || String.eqb tagName "select"
                  || String.eqb tagName "textarea"
          then negb (disabled (node e))
          else true
    end.

(* ===================================================================== *)
(** ** Exceptions, console, completions *)
(* ===================================================================== *)

(** A thrown value; only its being thrown matters to the sources. *)
Definition Exn := string.

Inductive LogEntry :=
| ConsoleError (message : string) (error : Exn)
| ConsoleWarn (message : string).

Definition Console := list LogEntry.

(* ===================================================================== *)
(** ** Subtrees, shadow roots and selector queries *)
(* ===================================================================== *)

(** What reading [el.shadowRoot] gives: [null] (no root, or a closed one),
    a root object with its [mode] and content, or an exception from a
    hostile getter. *)
Inductive ShadowRootProp (N : Type) :=
| ShadowNull
| ShadowRoot (mode : string) (content : list N)
| ShadowThrows (error : Exn).

Arguments ShadowNull {N}.
Arguments ShadowRoot {N} mode content.
Arguments ShadowThrows {N} error.

(** The downward view of the tree: a node, its shadow root, its element
    children in document order. *)
Inductive Node := mkNode {
  here : NodeData;
  shadowRoot : ShadowRootProp Node;
  children : list Node
}.

(** [querySelectorAll('*')] below a parent: every descendant in document
    order (pre-order), as an element handle carrying its [parentElement]
    chain, paired with its subtree. *)
Fixpoint descendantsOf (parent : option Element) (n : Node) : list (Element * Node) :=
  let e := mkElement (here n) parent in
  (e, n) :: flat_map (descendantsOf (Some e)) (children n).

(** The receiver of [querySelectorAll]: an Element, Document or ShadowRoot
    with its content, or an object whose [querySelectorAll] throws.  [self]
    is the container element ([None] for a Document or ShadowRoot, whose
    children have no [parentElement]). *)
Inductive Container :=
| DomContainer (self : option Element) (content : list Node)
| ThrowingContainer (error : Exn).

Definition allDescendants (self : option Element) (content : list Node)
  : list (Element * Node) :=
  flat_map (descendantsOf self) content.

(** The selector forms that occur in the allow-list. *)
Inductive Selector :=
| TypeSelector (tag : string)                     (* [button] *)
| AttributeSelector (name : string)               (* [[tabindex]] *)
| AttributeEquals (name value : string)           (* [[contenteditable="true"]] *)
| TypeWithAttribute (tag name : string).          (* [a[href]] *)

(** [element.matches(selector)] in an HTML document: a type selector
    compares against the lower-cased tag name, an attribute value is
    compared exactly. *)
Definition matchesSelector (e : Element) (s : Selector) : bool :=
  let tag := Js.toLowerCase (tagName (node e)) in
  match s with
  | TypeSelector t => String.eqb tag t
  | AttributeSelector name => hasAttribute e name
  | AttributeEquals name value => isStr (getAttribute e name) value
  | TypeWithAttribute t name => String.eqb tag t && hasAttribute e name
  end.

Definition POTENTIALLY_FOCUSABLE_SELECTORS : list Selector :=
  [ TypeWithAttribute "a" "href";
    TypeWithAttribute "area" "href";
    TypeSelector "button";
    TypeSelector "input";
    TypeSelector "select";
    TypeSelector "textarea";
    TypeSelector "summary";
    AttributeSelector "tabindex";
    AttributeEquals "contenteditable" "true";
    TypeWithAttribute "audio" "controls";
    TypeWithAttribute "video" "controls";
    TypeWithAttribute "details" "open" ].

(** Is the element selected by the comma-joined list? *)
Definition matchesPotentiallyFocusable (e : Element) : bool :=
  existsb (matchesSelector e) POTENTIALLY_FOCUSABLE_SELECTORS.

(* ===================================================================== *)
(** ** Array.prototype.sort *)
(* ===================================================================== *)

(** ECMAScript requires [sort] to be stable and, for a consistent comparator,
    to return the sorted permutation; that list is unique, and it is the one
    insertion from the right computes.  A comparator result that is NaN
    counts as +0.  [x] moves behind [y] only when [compare x y > 0]. *)
Section ArraySort.
Context {A : Type} (compareFn : A -> A -> Js.number).

Fixpoint sortInsert (x : A) (l : list A) : list A :=
  match l with
  | [] => [x]
  | y :: r => if Js.gt0 (compareFn x y) then y :: sortInsert x r else x :: l
  end.

Fixpoint arraySort (l : list A) : list A :=
  match l with
  | [] => []
  | x :: r => sortInsert x (arraySort r)
  end.
End ArraySort.

(* ===================================================================== *)
(** ** Focusable enumerator (getFocusableElements.ts) *)
(* ===================================================================== *)

Record GetFocusableElementsOptions := mkGetOptions {
  onlyTabbable : option bool;       (* default false *)
  includeShadowDOM : option bool    (* default true *)
}.

Definition withDefault {A} (d : A) (o : option A) : A :=
  match o with Some v => v | None => d end.

(** [a.getAttribute('tabindex') || '0'] *)
Definition tabindexOrZero (e : Element) : string :=
  match getAttribute e "tabindex" with
  | Some EmptyString | None => "0"
  | Some v => v
  end.

(** The comparator handed to [sort]. *)
Definition compareTabIndex (a b : Element) : Js.number :=
  let aTabIndex := Js.Number (tabindexOrZero a) in
  let bTabIndex := Js.Number (tabindexOrZero b) in
  if Js.gt0 aTabIndex && Js.gt0 bTabIndex then Js.sub aTabIndex bTabIndex
  else if Js.gt0 aTabIndex then Js.ofZ (-1)
  else if Js.gt0 bTabIndex then Js.ofZ 1
  else Js.ofZ 0.

(** [el.shadowRoot?.mode === 'open'], which throws when the getter does. *)
Definition hasOpenShadowRoot (n : Node) : Exn + bool :=
  match shadowRoot n with
  | ShadowNull => inr false
  | ShadowRoot mode _ => inr (String.eqb mode "open")
  | ShadowThrows err => inl err
  end.

(** [Array.from(container.querySelectorAll('*')).filter(el => ...)]: the
    first throwing probe aborts the filter. *)
Fixpoint filterShadowHosts (l : list (Element * Node)) : Exn + list (Element * Node) :=
  match l with
  | [] => inr []
  | (e, n) :: r =>
      match hasOpenShadowRoot n with
      | inl err => inl err
      | inr keep =>
          match filterShadowHosts r with
          | inl err => inl err
          | inr hosts => inr (if keep then (e, n) :: hosts else hosts)
          end
      end
  end.

Definition errorInGetFocusableElements (err : Exn) : LogEntry :=
  ConsoleError "Error in getFocusableElements:" err.

Section Enumerator.
Variable options : GetFocusableElementsOptions.

Definition isElementFocusable : Element -> bool :=
  if withDefault false (onlyTabbable options)
  then fun e => isTabbable (Some e)
  else fun e => isFocusable (Some e).

(** The [try] block for a receiver whose [querySelectorAll] works.
    [shadowFocusable] is what the loop over [elementsWithShadowRoots]
    pushes in total: the concatenated results of the recursive calls, and
    what those calls wrote to the console.  [inl] is a throw. *)
Definition tryEnumerate (self : option Element) (content : list Node)
    (shadowFocusable : list Element * Console) : Exn + list Element * Console :=
  let everything := allDescendants self content in
  let potentiallyFocusableElements :=
    filter matchesPotentiallyFocusable (map fst everything) in
  if withDefault true (includeShadowDOM options) then
    match filterShadowHosts everything with
    | inl error => inl error
    | inr _ =>
        let focusableElements :=
          filter isElementFocusable
            (potentiallyFocusableElements ++ fst shadowFocusable) in
        inr (arraySort compareTabIndex focusableElements, snd shadowFocusable)
    end
  else
    let focusableElements :=
      filter isElementFocusable potentiallyFocusableElements in
    inr (arraySort compareTabIndex focusableElements, []).

(** [catch (error) { console.error(...); return []; }] *)
Definition catchEnumerate (attempt : Exn + list Element * Console)
  : list Element * Console :=
  match attempt with
  | inr result => result
  | inl error => ([], [errorInGetFocusableElements error])
  end.

Definition appendResults (a b : list Element * Console) : list Element * Console :=
  (fst a ++ fst b, snd a ++ snd b).

(** The recursive calls [getFocusableElements(elementWithShadow.shadowRoot,
    options)] made for the hosts in the subtree of [n] ([n] first, then its
    descendants, in document order), concatenated.  A shadow root is only
    entered when its mode is ['open']; its elements have no
    [parentElement] above the root. *)
Fixpoint recurseIntoShadowRoots (n : Node) : list Element * Console :=
  let under (l : list Node) : list Element * Console :=
    fold_right (fun k acc => appendResults (recurseIntoShadowRoots k) acc) ([], []) l in
  let own :=
    match shadowRoot n with
    | ShadowRoot mode content =>
        if String.eqb mode "open"
        then catchEnumerate (tryEnumerate None content (under content))
        else ([], [])
    | _ => ([], [])
    end in
  appendResults own (under (children n)).

Definition recurseIntoAll (l : list Node) : list Element * Console :=
  fold_right (fun k acc => appendResults (recurseIntoShadowRoots k) acc) ([], []) l.

(** The [try] block of a call on [c]. *)
Definition tryBlock (c : Container) : Exn + list Element * Console :=
  match c with
  | ThrowingContainer error => inl error
  | DomContainer self content => tryEnumerate self content (recurseIntoAll content)
  end.

(** [getFocusableElements(container, options)]: the elements returned and
    the console lines written.  [hasDocument] is
    [typeof document !== 'undefined']. *)
Definition getFocusableElements (hasDocument : bool) (container : option Container)
  : list Element * Console :=
  match container with
  | None => ([], [])
  | Some c =>
      if negb hasDocument then ([], [])
      else catchEnumerate (tryBlock c)
  end.
End Enumerator.

(* ===================================================================== *)
(** ** The mutable world *)
(* ===================================================================== *)

(** How a statement or call ends. *)
Inductive Completion (A : Type) :=
| Normal (value : A)
| Throw (error : Exn).

Arguments Normal {A} value.
Arguments Throw {A} error.

(** The document as the sources use it.  [focus e opts d] is the call
    [e.focus(opts)] ([opts] is the [preventScroll] member, [None] for a call
    without arguments): it may throw, may leave the active element alone
    (a silently failed attempt) or may change it. *)
Class FocusModel (Doc : Type) := {
  activeElement : Doc -> option Element;
  body : Doc -> option Element;
  focus : Element -> option bool -> Doc -> Completion unit * Doc
}.

(** [document.activeElement === e] *)
Definition activeIs {Doc} `{FocusModel Doc} (d : Doc) (e : Element) : bool :=
  match activeElement d with
  | Some a => same_node a e
  | None => false
  end.

(** Everything the sources can read or write: the global [document]
    ([None] where [typeof document === 'undefined']), the module-level
    [savedFocusElement], the [savedElement] variable of every focus manager
    created so far, and the console. *)
Record World (Doc : Type) := mkWorld {
  document : option Doc;
  savedFocusElement : option Element;
  managers : list (option Element);
  console : Console
}.

Arguments mkWorld {Doc}.
Arguments document {Doc}.
Arguments savedFocusElement {Doc}.
Arguments managers {Doc}.
Arguments console {Doc}.

Section WorldUpdates.
Context {Doc : Type}.

Definition setDocument (d : Doc) (w : World Doc) : World Doc :=
  mkWorld (Some d) (savedFocusElement w) (managers w) (console w).

Definition setSavedFocusElement (v : option Element) (w : World Doc) : World Doc :=
  mkWorld (document w) v (managers w) (console w).

Definition setManagers (m : list (option Element)) (w : World Doc) : World Doc :=
  mkWorld (document w) (savedFocusElement w) m (console w).

Definition consoleLog (entries : Console) (w : World Doc) : World Doc :=
  mkWorld (document w) (savedFocusElement w) (managers w) (console w ++ entries).
End WorldUpdates.

(* ===================================================================== *)
(** ** Focus-state keeper (returnFocus.ts) *)
(* ===================================================================== *)

Record ReturnFocusOptions := mkReturnOptions {
  preventScroll : option bool;                 (* default true *)
  fallbackElement : option (option Element)    (* absent / null / element *)
}.

Definition noOptions : ReturnFocusOptions := mkReturnOptions None None.

Section Keeper.
Context {Doc : Type} `{FocusModel Doc}.

Definition M (A : Type) : Type := World Doc -> Completion A * World Doc.

(** [e.focus(opts)].  Every call site below follows a
    [typeof document === 'undefined'] check, so the document exists. *)
Definition focusElement (e : Element) (opts : option bool) : M unit := fun w =>
  match document w with
  | Some d => let '(c, d') := focus e opts d in (c, setDocument d' w)
  | None => (Normal tt, w)
  end.

(** [document.activeElement === e] *)
Definition documentActiveIs (e : Element) (w : World Doc) : bool :=
  match document w with
  | Some d => activeIs d e
  | None => false
  end.

(** [fallbackElement = document.body] applies to an absent member only. *)
Definition resolveFallback (options : ReturnFocusOptions) (d : Doc) : option Element :=
  match fallbackElement options with
  | None => body d
  | Some given => given
  end.

(** *** The default instance *)

Definition saveFocus : M (option Element) := fun w =>
  match document w with
  | None => (Normal None, w)
  | Some d =>
      let w := setSavedFocusElement (activeElement d) w in
      (Normal (savedFocusElement w), w)
  end.

(** The statements after the [try]/[catch]:
    [savedFocusElement = null; return null]. *)
Definition returnFocus_tail : M (option Element) := fun w =>
  (Normal None, setSavedFocusElement None w).

(** The [catch (error)] block. *)
Definition returnFocus_catch (error : Exn) (preventScroll : bool)
    (fallbackElement : option Element) : M (option Element) := fun w =>
  let w := consoleLog [ConsoleError "Error returning focus:" error] w in
  match fallbackElement with
  | Some fb =>
      match focusElement fb (Some preventScroll) w with
      | (Normal _, w) => (Normal (Some fb), w)
      | (Throw fallbackError, w) =>
          returnFocus_tail
            (consoleLog [ConsoleError "Error focusing fallback element:" fallbackError] w)
      end
  | None => returnFocus_tail w
  end.

Definition returnFocus (options : ReturnFocusOptions) : M (option Element) := fun w =>
  match document w with
  | None => (Normal None, w)
  | Some d =>
      let preventScroll := withDefault true (preventScroll options) in
      let fallbackElement := resolveFallback options d in
      match savedFocusElement w with
      | None =>
          (* if (!savedFocusElement): not inside the try *)
          match fallbackElement with
          | Some fb =>
              match focusElement fb (Some preventScroll) w with
              | (Normal _, w) => (Normal (Some fb), w)
              | (Throw e, w) => (Throw e, w)
              end
          | None => (Normal None, w)
          end
      | Some saved =>
          (* try *)
          match focusElement saved (Some preventScroll) w with
          | (Normal _, w) =>
              if documentActiveIs saved w then
                let returnedElement := saved in
                (Normal (Some returnedElement), setSavedFocusElement None w)
              else
                match fallbackElement with
                | Some fb =>
                    match focusElement fb (Some preventScroll) w with
                    | (Normal _, w) => (Normal (Some fb), w)
                    | (Throw error, w) =>
                        returnFocus_catch error preventScroll fallbackElement w
                    end
                | None => returnFocus_tail w
                end
          | (Throw error, w) =>
              returnFocus_catch error preventScroll fallbackElement w
          end
      end
  end.

(** *** Scoped instances: [createFocusManager()] *)

(** The pair of closures returned by [createFocusManager()] is identified
    by the position of its [savedElement] variable in [managers]. *)
Definition FocusManager := nat.

Definition savedElement (m : FocusManager) (w : World Doc) : option Element :=
  match nth_error (managers w) m with
  | Some slot => slot
  | None => None
  end.

Fixpoint assignNth (m : nat) (v : option Element) (l : list (option Element))
  : list (option Element) :=
  match l, m with
  | [], _ => []
  | _ :: r, O => v :: r
  | x :: r, S m' => x :: assignNth m' v r
  end.

Definition setSavedElement (m : FocusManager) (v : option Element) (w : World Doc)
  : World Doc :=
  setManagers (assignNth m v (managers w)) w.

(** [let savedElement = null; return { saveFocus, returnFocus }] *)
Definition createFocusManager : World Doc -> FocusManager * World Doc := fun w =>
  (List.length (managers w), setManagers (managers w ++ [None]) w).

Definition manager_saveFocus (m : FocusManager) : M (option Element) := fun w =>
  match document w with
  | None => (Normal None, w)
  | Some d =>
      let w := setSavedElement m (activeElement d) w in
      (Normal (savedElement m w), w)
  end.

Definition manager_tail (m : FocusManager) : M (option Element) := fun w =>
  (Normal None, setSavedElement m None w).

Definition manager_catch (m : FocusManager) (error : Exn) (preventScroll : bool)
    (fallbackElement : option Element) : M (option Element) := fun w =>
  let w := consoleLog [ConsoleError "Error returning focus in focus manager:" error] w in
  match fallbackElement with
  | Some fb =>
      match focusElement fb (Some preventScroll) w with
      | (Normal _, w) => (Normal (Some fb), w)
      | (Throw fallbackError, w) =>
          manager_tail m
            (consoleLog [ConsoleError "Error focusing fallback element:" fallbackError] w)
      end
  | None => manager_tail m w
  end.

Definition manager_returnFocus (m : FocusManager) (options : ReturnFocusOptions)
  : M (option Element) := fun w =>
  match document w with
  | None => (Normal None, w)
  | Some d =>
      let preventScroll := withDefault true (preventScroll options) in
      let fallbackElement := resolveFallback options d in
      match savedElement m w with
      | None =>
          match fallbackElement with
          | Some fb =>
              match focusElement fb (Some preventScroll) w with
              | (Normal _, w) => (Normal (Some fb), w)
              | (Throw e, w) => (Throw e, w)
              end
          | None => (Normal None, w)
          end
      | Some saved =>
          match focusElement saved (Some preventScroll) w with
          | (Normal _, w) =>
              if documentActiveIs saved w then
                let returnedElement := saved in
                (Normal (Some returnedElement), setSavedElement m None w)
              else
                match fallbackElement with
                | Some fb =>
                    match focusElement fb (Some preventScroll) w with
                    | (Normal _, w) => (Normal (Some fb), w)
                    | (Throw error, w) =>
                        manager_catch m error preventScroll fallbackElement w
                    end
                | None => manager_tail m w
                end
          | (Throw error, w) =>
              manager_catch m error preventScroll fallbackElement w
          end
      end
  end.
End Keeper.

(* ===================================================================== *)
(** ** First-focus director (focusFirstElement.ts) *)
(* ===================================================================== *)

Record FocusFirstElementOptions := mkFirstOptions {
  ffOnlyTabbable : option bool;       (* [onlyTabbable], default true *)
  ffIncludeShadowDOM : option bool;   (* [includeShadowDOM], default true *)
  ffPreventScroll : option bool       (* [preventScroll], default true *)
}.

Definition noFirstOptions : FocusFirstElementOptions := mkFirstOptions None None None.

(** [container.querySelectorAll(selector)] for a caller-supplied selector:
    the selector engine belongs to the DOM.  It throws on a selector it
    cannot parse and on a receiver that is no DOM node. *)
Class SelectorModel := {
  querySelectorAll : Container -> string -> Exn + list Element
}.

Section Director.
Context {Doc : Type} `{FocusModel Doc} `{SelectorModel}.

(** [typeof document !== 'undefined'] *)
Definition hasDocument (w : World Doc) : bool :=
  match document w with Some _ => true | None => false end.

(** A call of [getFocusableElements] in world [w]: its console lines are
    appended to the console. *)
Definition callGetFocusableElements (container : option Container)
    (options : GetFocusableElementsOptions) (w : World Doc)
  : list Element * World Doc :=
  let '(elements, lines) := getFocusableElements options (hasDocument w) container in
  (elements, consoleLog lines w).

Definition focusFirstElement (container : option Container)
    (options : FocusFirstElementOptions) : M (option Element) := fun w =>
  match container with
  | None => (Normal None, w)
  | Some _ =>
      let onlyTabbable := withDefault true (ffOnlyTabbable options) in
      let includeShadowDOM := withDefault true (ffIncludeShadowDOM options) in
      let preventScroll := withDefault true (ffPreventScroll options) in
      match document w with
      | None => (Normal None, w)
      | Some _ =>
          let '(elements, w) :=
            callGetFocusableElements container
              (mkGetOptions (Some onlyTabbable) (Some includeShadowDOM)) w in
          match elements with
          | first :: _ =>
              match focusElement first (Some preventScroll) w with
              | (Normal _, w) => (Normal (Some first), w)
              | (Throw error, w) =>
                  (Normal None, consoleLog [ConsoleError "Error focusing element:" error] w)
              end
          | [] => (Normal None, w)
          end
      end
  end.

(** The [for (const element of elements)] loop of
    [focusFirstElementBySelector]; [None] when the loop runs to its end. *)
Fixpoint focusEachUntilActive (elements : list Element) (preventScroll : bool)
    (w : World Doc) : option Element * World Doc :=
  match elements with
  | [] => (None, w)
  | element :: rest =>
      match focusElement element (Some preventScroll) w with
      | (Normal _, w) =>
          if documentActiveIs element w then (Some element, w)
          else focusEachUntilActive rest preventScroll w
      | (Throw _, w) => focusEachUntilActive rest preventScroll w
      end
  end.

Definition focusFirstElementBySelector (container : option Container)
    (selector : string) (options : FocusFirstElementOptions)
  : M (option Element) := fun w =>
  match container with
  | None => (Normal None, w)
  | Some c =>
      if String.eqb selector "" then (Normal None, w)
      else
        let preventScroll := withDefault true (ffPreventScroll options) in
        match document w with
        | None => (Normal None, w)
        | Some _ =>
            match querySelectorAll c selector with
            | inr elements =>
                let '(found, w) := focusEachUntilActive elements preventScroll w in
                (Normal found, w)
            | inl error =>
                (Normal None,
                 consoleLog [ConsoleError "Error in focusFirstElementBySelector:" error] w)
            end
        end
  end.
End Director.

(* ===================================================================== *)
(** ** Trap controller: the keydown handler (useFocusTrap.ts) *)
(* ===================================================================== *)

Record KeyboardEvent := mkKeyboardEvent {
  key : string;
  shiftKey : bool;
  defaultPrevented : bool
}.

(** [event.preventDefault()] *)
Definition preventDefault (event : KeyboardEvent) : KeyboardEvent :=
  mkKeyboardEvent (key event) (shiftKey event) true.

Section TrapController.
Context {Doc : Type} `{FocusModel Doc}.

(** A caller-supplied [onEscapeKey]: arbitrary code run on the event. *)
Definition EscapeCallback : Type :=
  KeyboardEvent -> World Doc -> Completion unit * (KeyboardEvent * World Doc).

(** [containerRef.current], an HTMLElement with its subtree. *)
Definition ContainerRef : Type := option (Element * list Node).

Definition containerOf (current : Element * list Node) : Container :=
  DomContainer (Some (fst current)) (snd current).

Definition handleKeyDown (active : bool) (containerRef : ContainerRef)
    (onEscapeKey : option EscapeCallback) (event : KeyboardEvent) (w : World Doc)
  : Completion unit * (KeyboardEvent * World Doc) :=
  match (if negb active then None else containerRef) with
  | None => (Normal tt, (event, w))      (* [!active || !containerRef.current] *)
  | Some current =>
        match (if String.eqb (key event) "Escape" then onEscapeKey else None) with
        | Some callback => callback event w
        | None =>
            if negb (String.eqb (key event) "Tab") then (Normal tt, (event, w))
            else
              let '(tabbableElements, w) :=
                callGetFocusableElements (Some (containerOf current))
                  (mkGetOptions (Some true) None) w in
              match tabbableElements with
              | [] =>
                  let event := preventDefault event in
                  let '(c, w) := focusElement (fst current) None w in
                  (c, (event, w))
              | firstElement :: _ =>
                  let lastElement := last tabbableElements firstElement in
                  if shiftKey event then
                    if documentActiveIs firstElement w then
                      let event := preventDefault event in
                      let '(c, w) := focusElement lastElement None w in
                      (c, (event, w))
                    else (Normal tt, (event, w))
                  else
                    if documentActiveIs lastElement w then
                      let event := preventDefault event in
                      let '(c, w) := focusElement firstElement None w in
                      (c, (event, w))
                    else (Normal tt, (event, w))
              end
        end
  end.
End TrapController.

(* ===================================================================== *)
(** ** Trap controller: the other callbacks of useFocusTrap.ts *)
(* ===================================================================== *)

(** [element.setAttribute(name, value)]: the value of an existing attribute
    is replaced, a new attribute is appended. *)
Fixpoint assignAttr (name value : string) (l : list (string * string))
  : list (string * string) :=
  match l with
  | [] => [(name, value)]
  | (k, v) :: r =>
      if String.eqb k name then (k, value) :: r else (k, v) :: assignAttr name value r
  end.

Definition setAttribute (e : Element) (name value : string) : Element :=
  let d := node e in
  mkElement
    (mkNodeData (eid d) (tagName d) (assignAttr name value (attributes d))
       (style d) (disabled d) (type d) (isConnected d))
    (parentElement e).

(** [container.contains(target)]: the target is the container or one of its
    descendants. *)
Definition contains (current : Element * list Node) (target : Element) : bool :=
  same_node (fst current) target
  || existsb (same_node target) (map fst (allDescendants (Some (fst current)) (snd current))).

(** A [focusin] event: its target (an element, or [None] for no target)
    and whether [preventDefault()] was called on it. *)
Record FocusEvent := mkFocusEvent {
  target : option Element;
  focusDefaultPrevented : bool
}.

Section TrapCallbacks.
Context {Doc : Type} `{FocusModel Doc}.

(** [handleFocusOut], the [focusin] listener installed while [active] and
    [lockFocus] hold. *)
Definition handleFocusOut (active : bool) (containerRef : ContainerRef)
    (event : FocusEvent) (w : World Doc)
  : Completion unit * (FocusEvent * World Doc) :=
  match (if active then containerRef else None), target event with
  | Some current, Some tgt =>
      if negb (contains current tgt) then
        (* Focus moved outside container, pull it back in *)
        let event := mkFocusEvent (target event) true in
        match focusFirstElement (Some (containerOf current)) noFirstOptions w with
        | (Normal _, w) => (Normal tt, (event, w))
        | (Throw error, w) => (Throw error, (event, w))
        end
      else (Normal tt, (event, w))
  | _, _ => (Normal tt, (event, w))
  end.

(** The synchronous part of the auto-focus effect.  [hasWindow] is
    [typeof window !== 'undefined'], [hasSavedFocus] the current value of the
    [hasSavedFocus] ref.  Returns the ref's new value and whether the
    auto-focus timer was scheduled. *)
Definition autoFocusEffect (hasWindow active : bool) (containerRef : ContainerRef)
    (restoreFocus autoFocus : bool) (hasSavedFocus : bool) (w : World Doc)
  : (bool * bool) * World Doc :=
  if negb hasWindow then ((hasSavedFocus, false), w)
  else
    match (if active then containerRef else None) with
    | None => ((hasSavedFocus, false), w)
    | Some _ =>
        let '(hasSavedFocus, w) :=
          if restoreFocus && negb hasSavedFocus
          then (true, snd (saveFocus w))
          else (hasSavedFocus, w) in
        ((hasSavedFocus, autoFocus), w)
    end.

(** The callback handed to [setTimeout(..., 20)] by the auto-focus effect.
    It may give the container a [tabindex]; the container as it is
    afterwards is returned with the world. *)
Definition autoFocusTimeout (containerRef : ContainerRef) (w : World Doc)
  : Completion unit * (ContainerRef * World Doc) :=
  match containerRef with
  | None => (Normal tt, (containerRef, w))
  | Some current =>
      match focusFirstElement (Some (containerOf current)) noFirstOptions w with
      | (Throw error, w) => (Throw error, (containerRef, w))
      | (Normal (Some focused), w) => (Normal tt, (containerRef, w))
      | (Normal None, w) =>
          let w := consoleLog [ConsoleWarn "[a11ytools] No tabbable elements found inside container."] w in
          let container :=
            if negb (hasAttribute (fst current) "tabindex")
            then setAttribute (fst current) "tabindex" "-1"
            else fst current in
          let '(c, w) := focusElement container (Some true) w in
          (c, (Some (container, snd current), w))
      end
  end.

(** A caller-supplied [onFocusRestore]. *)
Definition RestoreCallback : Type := World Doc -> Completion unit * World Doc.

(** The return-focus effect and its cleanup: is the restore microtask
    queued when the effect is torn down?  The effect installs a cleanup only
    with a [window] and [returnFocusOnDeactivate]; the cleanup queues the
    task only if [hasSavedFocus.current] holds. *)
Definition restoreCleanup (hasWindow returnFocusOnDeactivate hasSavedFocus : bool) : bool :=
  if negb hasWindow then false
  else if negb returnFocusOnDeactivate then false
  else hasSavedFocus.

(** The microtask queued by that cleanup:
    [returnFocus(); hasSavedFocus.current = false; onFocusRestore?.()].
    Returns the new value of the [hasSavedFocus] ref. *)
Definition restoreTask (onFocusRestore : option RestoreCallback)
    (hasSavedFocus : bool) (w : World Doc)
  : Completion unit * (bool * World Doc) :=
  match returnFocus noOptions w with
  | (Throw error, w) => (Throw error, (hasSavedFocus, w))
  | (Normal _, w) =>
      let hasSavedFocus := false in
      match onFocusRestore with
      | Some callback =>
          let '(c, w) := callback w in (c, (hasSavedFocus, w))
      | None => (Normal tt, (hasSavedFocus, w))
      end
  end.
End TrapCallbacks.

(* ===================================================================== *)
(** ** Notions the properties are stated with *)
(* ===================================================================== *)

(** Induction along the [parentElement] chain. *)
Fixpoint Element_chain_ind (P : Element -> Prop)
    (Hroot : forall d, P (mkElement d None))
    (Hstep : forall d p, P p -> P (mkElement d (Some p)))
    (e : Element) : P e :=
  match e with
  | mkElement d None => Hroot d
  | mkElement d (Some p) => Hstep d p (Element_chain_ind P Hroot Hstep p)
  end.

(** The ancestors of an element, nearest first. *)
Fixpoint ancestors (e : Element) : list Element :=
  match parentElement e with
  | Some p => p :: ancestors p
  | None => []
  end.

(** An element carrying one of the four hidden markers. *)
Definition HiddenMarker (a : Element) : Prop :=
  hasAttribute a "hidden" = true
  \/ styleDisplayIs a "none" = true
  \/ styleVisibilityIs a "hidden" = true
  \/ getAttribute a "aria-hidden" = Some "true".

(** Style sheets are the page's, not the package's: the sources read
    [element.style], the declarations of the element's own [style]
    attribute, and never ask for a computed style.  To speak of an element
    that a style sheet hides, a sheet is a list of class rules, and the
    value a property takes on an element is its inline declaration when
    there is one, else the declaration of the first rule for the element's
    [class], else empty. *)
Record StyleRule := mkStyleRule { ruleClass : string; declarations : Style }.
Definition StyleSheet := list StyleRule.

Definition ruleFor (sheet : StyleSheet) (a : Element) : option Style :=
  match getAttribute a "class" with
  | Some c => option_map declarations (find (fun r => String.eqb (ruleClass r) c) sheet)
  | None => None
  end.

Definition cascade (inline fromRule : option string) : string :=
  match inline with
  | Some (String c v) => String c v
  | _ => withDefault "" fromRule
  end.

Definition computedDisplay (sheet : StyleSheet) (a : Element) : string :=
  cascade (option_map display (style (node a))) (option_map display (ruleFor sheet a)).

Definition computedVisibility (sheet : StyleSheet) (a : Element) : string :=
  cascade (option_map visibility (style (node a)))
          (option_map visibility (ruleFor sheet a)).

(** An element hidden on a page styled by [sheet]: the [hidden] attribute,
    a [display: none] or [visibility: hidden] that applies to it from
    either origin, or [aria-hidden="true"]. *)
Definition HiddenOnPage (sheet : StyleSheet) (a : Element) : Prop :=
  hasAttribute a "hidden" = true
  \/ computedDisplay sheet a = "none"
  \/ computedVisibility sheet a = "hidden"
  \/ getAttribute a "aria-hidden" = Some "true".

(** Induction on subtrees (children only). *)
Fixpoint Node_tree_ind (P : Node -> Prop)
    (H : forall d sr kids, Forall P kids -> P (mkNode d sr kids))
    (n : Node) : P n :=
  match n with
  | mkNode d sr kids =>
      H d sr kids
        ((fix each (l : list Node) : Forall P l :=
            match l with
            | [] => Forall_nil P
            | k :: r => Forall_cons k (Node_tree_ind P H k) (each r)
            end) kids)
  end.

(** [getFocusableElements(elementWithShadow.shadowRoot, options)] for one
    element of [elementsWithShadowRoots] (nothing when the node is no host
    of an open root). *)
Definition shadowCall (options : GetFocusableElementsOptions) (n : Node)
  : list Element * Console :=
  match shadowRoot n with
  | ShadowRoot mode content =>
      if String.eqb mode "open"
      then getFocusableElements options true (Some (DomContainer None content))
      else ([], [])
  | _ => ([], [])
  end.

(** What the source's loop over [elementsWithShadowRoots] pushes when it
    runs over [nodes]: the results of the recursive calls, in order. *)
Definition pushedByShadowLoop (options : GetFocusableElementsOptions)
    (nodes : list Node) : list Element * Console :=
  fold_right (fun n acc => appendResults (shadowCall options n) acc) ([], []) nodes.

(** The list handed to [filter(isElementFocusable)] by a call on a DOM
    container (empty when the shadow-root probing throws). *)
Definition candidateElements (options : GetFocusableElementsOptions)
    (self : option Element) (content : list Node) : list Element :=
  let potentially :=
    filter matchesPotentiallyFocusable (map fst (allDescendants self content)) in
  if withDefault true (includeShadowDOM options) then
    match filterShadowHosts (allDescendants self content) with
    | inl _ => []
    | inr _ => potentially ++ fst (recurseIntoAll options content)
    end
  else potentially.

(** The number the comparator derives from an element, and the bucket
    [aTabIndex > 0]. *)
Definition sortKey (e : Element) : Js.number := Js.Number (tabindexOrZero e).
Definition positiveTabIndex (e : Element) : bool := Js.gt0 (sortKey e).

(** [x <= y] on numbers, as the comparator sees two positive keys:
    [x - y] is not positive. *)
Definition keyLe (a b : Element) : Prop := Js.gt0 (Js.sub (sortKey a) (sortKey b)) = false.

(** The error a console line reports, whatever its message text. *)
Definition thrownBy (entry : LogEntry) : option Exn :=
  match entry with
  | ConsoleError _ error => Some error
  | ConsoleWarn _ => None
  end.

(** World [wm], seen through focus manager [m], shows what world [wd] shows
    through the default instance: the same document, the same saved element
    in the respective slot, the same errors on the console. *)
Definition Mirrors {Doc : Type} (m : nat) (wd wm : World Doc) : Prop :=
  document wd = document wm
  /\ savedFocusElement wd = savedElement m wm
  /\ map thrownBy (console wd) = map thrownBy (console wm).

(** A step of manager [m] from [w] to [w'] touches no slot but its own. *)
Definition OnlyOwnSlot {Doc : Type} (m : nat) (w w' : World Doc) : Prop :=
  savedFocusElement w' = savedFocusElement w
  /\ List.length (managers w') = List.length (managers w)
  /\ forall k, k <> m -> savedElement k w' = savedElement k w.

(** From [wd], [wm] the default instance and manager [m] stepped to [wd'],
    [wm']: they still mirror each other, the manager stayed in its own slot
    and the default instance touched no manager. *)
Definition StepsAgree {Doc : Type} (m : nat) (wd wm wd' wm' : World Doc) : Prop :=
  Mirrors m wd' wm'
  /\ OnlyOwnSlot m wm wm'
  /\ managers wd' = managers wd.

(** Two runs, of the default instance from [wd] and of manager [m] from
    [wm], end the same way: same completion (value returned or exception
    thrown), and worlds that agree as above. *)
Definition RunsAgree {Doc A : Type} (m : nat) (wd wm : World Doc)
    (rd rm : Completion A * World Doc) : Prop :=
  fst rd = fst rm /\ StepsAgree m wd wm (snd rd) (snd rm).

(** The two kinds of element on which [isTabbable] is stricter than
    [isFocusable]: a link or area without [href], an input of type hidden. *)
Definition linkWithoutHref (e : Element) : bool :=
  let tag := Js.toLowerCase (tagName (node e)) in
  (String.eqb tag "a" || String.eqb tag "area") && negb (hasAttribute e "href").

Definition hiddenInput (e : Element) : bool :=
  String.eqb (Js.toLowerCase (tagName (node e))) "input"
  && String.eqb (type (node e)) "hidden".

(** Induction on subtrees, through children and shadow-root content. *)
Fixpoint Node_shadow_ind (P : Node -> Prop)
    (H : forall d sr kids,
        Forall P kids ->
        match sr with ShadowRoot _ content => Forall P content | _ => True end ->
        P (mkNode d sr kids))
    (n : Node) : P n :=
  match n with
  | mkNode d sr kids =>
      let each :=
        fix each (l : list Node) : Forall P l :=
          match l with
          | [] => Forall_nil P
          | k :: r => Forall_cons k (Node_shadow_ind P H k) (each r)
          end in
      H d sr kids (each kids)
        match sr as s
          return match s with ShadowRoot _ content => Forall P content | _ => True end
        with
        | ShadowRoot _ content => each content
        | _ => I
        end
  end.

(* ===================================================================== *)
(** ** A concrete document, and the repository's test fixtures *)
(* ===================================================================== *)

Module Fixture.

(** A document in which [focus()] throws for the nodes listed in
    [throwing], silently does nothing for those in [refusing], and makes
    any other element the active one. *)
Record SimpleDoc := mkSimpleDoc {
  sdActive : option Element;
  sdBody : option Element;
  throwing : list nat;
  refusing : list nat
}.

Definition simpleFocus (e : Element) (opts : option bool) (d : SimpleDoc)
  : Completion unit * SimpleDoc :=
  if existsb (Nat.eqb (eid (node e))) (throwing d)
  then (Throw "focus failed", d)
  else if existsb (Nat.eqb (eid (node e))) (refusing d)
  then (Normal tt, d)
  else (Normal tt, mkSimpleDoc (Some e) (sdBody d) (throwing d) (refusing d)).

#[global] Instance simpleModel : FocusModel SimpleDoc :=
  {| activeElement := sdActive; body := sdBody; focus := simpleFocus |}.

(** Selector engine of the fixtures: a selector is a tag name. *)
#[global] Instance tagSelectors : SelectorModel :=
  {| querySelectorAll c selector :=
       match c with
       | ThrowingContainer err => inl err
       | DomContainer self content =>
           inr (filter (fun e => String.eqb (Js.toLowerCase (tagName (node e))) selector)
                       (map fst (allDescendants self content)))
       end |}.

Definition plain (id : nat) (tag : string) (attrs : list (string * string)) : NodeData :=
  mkNodeData id tag attrs (Some (mkStyle "" "")) false "" true.

Definition textInput (id : nat) (attrs : list (string * string)) (off : bool) : NodeData :=
  mkNodeData id "INPUT" attrs (Some (mkStyle "" "")) off "text" true.

Definition styled (id : nat) (tag : string) (disp vis : string) : NodeData :=
  mkNodeData id tag [] (Some (mkStyle disp vis)) false "" true.

Definition leaf (d : NodeData) : Node := mkNode d ShadowNull [].
Definition top (d : NodeData) : Element := mkElement d None.
Definition within (p : NodeData) (d : NodeData) : Element := mkElement d (Some (top p)).

Definition bodyData : NodeData := plain 0 "BODY" [].
Definition bodyEl : Element := top bodyData.

Definition containerData : NodeData := plain 100 "DIV" [("id", "container")].
Definition containerEl : Element := within bodyData containerData.

Definition idsOf (r : list Element * Console) : list nat * nat :=
  (map (fun e => eid (node e)) (fst r), List.length (snd r)).

Definition shadowHost : Node :=
  mkNode (plain 50 "DIV" [])
    (ShadowRoot "open" [ leaf (plain 51 "BUTTON" []); leaf (textInput 52 [] false) ])
    [].

(** A button inside a [div] inside a [section hidden] inside the body. *)
Definition buttonUnderHidden : Element :=
  mkElement (plain 3 "BUTTON" [])
    (Some (mkElement (plain 2 "DIV" [])
       (Some (within bodyData (plain 1 "SECTION" [("hidden", "")]))))).

(** [<button tabindex="-1">], and [<a tabindex="0">] without [href]. *)
Definition minusOneButton : Element := within bodyData (plain 2 "BUTTON" [("tabindex", "-1")]).
Definition anchorNoHref : Element := within bodyData (plain 3 "A" [("tabindex", "0")]).

(** The container of the shadow DOM test, and the button inside its open
    shadow root. *)
Definition shadowTestContainer : Container :=
  DomContainer (Some containerEl) [ leaf (plain 1 "BUTTON" []); shadowHost ].
Definition shadowButton : Element := top (plain 51 "BUTTON" []).


(** A container in which one descendant's [shadowRoot] getter throws. *)
Definition hostileProbeContent : list Node :=
  [ leaf (plain 1 "BUTTON" []);
    mkNode (plain 2 "DIV" []) ShadowNull
      [ mkNode (plain 3 "X-WIDGET" []) (ShadowThrows "probe failed") [] ] ].
Definition hostileProbeElement : Element :=
  mkElement (plain 3 "X-WIDGET" []) (Some (mkElement (plain 2 "DIV" []) (Some containerEl))).
Definition hostileProbeNode : Node :=
  mkNode (plain 3 "X-WIDGET" []) (ShadowThrows "probe failed") [].

(** The page of the keeper scenarios: an opener button in the body. *)
Definition openerButton : Element := within bodyData (plain 7 "BUTTON" [("id", "opener")]).

(** The opener is focused; every [focus()] call works. *)
Definition pageDoc : SimpleDoc := mkSimpleDoc (Some openerButton) (Some bodyEl) [] [].
Definition pageWorld : World SimpleDoc := mkWorld (Some pageDoc) None [] [].

(** The opener was saved, then stopped accepting focus (say it was removed
    from the page): [focus()] on it silently does nothing. *)
Definition staleDoc : SimpleDoc := mkSimpleDoc (Some bodyEl) (Some bodyEl) [] [7].
Definition staleWorld : World SimpleDoc := mkWorld (Some staleDoc) (Some openerButton) [] [].

(** The opener was saved and its [focus()] now throws. *)
Definition throwingDoc : SimpleDoc := mkSimpleDoc (Some bodyEl) (Some bodyEl) [7] [].
Definition throwingWorld : World SimpleDoc :=
  mkWorld (Some throwingDoc) (Some openerButton) [] [].

(** A world with two focus managers, the second holding the opener. *)
Definition managedWorld : World SimpleDoc :=
  mkWorld (Some staleDoc) None [None; Some openerButton] [].

(** The trap scenario of the specification: a container holding exactly two
    tabbable elements, A first and B last. *)
Definition trapContent : list Node :=
  [ leaf (plain 1 "BUTTON" [("id", "A")]); leaf (plain 2 "BUTTON" [("id", "B")]) ].
Definition trapCurrent : Element * list Node := (containerEl, trapContent).
Definition trapA : Element := mkElement (plain 1 "BUTTON" [("id", "A")]) (Some containerEl).
Definition trapB : Element := mkElement (plain 2 "BUTTON" [("id", "B")]) (Some containerEl).
Definition trapWorld (active : Element) : World SimpleDoc :=
  mkWorld (Some (mkSimpleDoc (Some active) (Some bodyEl) [] [])) None [] [].
Definition shiftTab : KeyboardEvent := mkKeyboardEvent "Tab" true false.
Definition plainTab : KeyboardEvent := mkKeyboardEvent "Tab" false false.

(** The same container in a document where A silently refuses focus. *)
Definition refusingWorld : World SimpleDoc :=
  mkWorld (Some (mkSimpleDoc (Some bodyEl) (Some bodyEl) [] [1])) None [] [].

(** [<div tabindex="0">] in the body. *)
Definition tabbableDiv : Element := within bodyData (plain 8 "DIV" [("tabindex", "0")]).

(** A container with a button and a host whose open shadow root holds an
    element with a throwing [shadowRoot] getter and a button. *)
Definition nestedFailureContent : list Node :=
  [ leaf (plain 1 "BUTTON" []);
    mkNode (plain 60 "DIV" []) (ShadowRoot "open" [ hostileProbeNode; leaf (plain 61 "BUTTON" []) ]) [] ].
Definition lightButton : Element := mkElement (plain 1 "BUTTON" []) (Some containerEl).

(** Nothing saved, and [focus()] on the body throws. *)
Definition bodyThrowsWorld : World SimpleDoc :=
  mkWorld (Some (mkSimpleDoc (Some openerButton) (Some bodyEl) [0] [])) None [] [].

(** A page with two focus managers created, nothing saved anywhere. *)
Definition docWith (active : Element) : SimpleDoc :=
  mkSimpleDoc (Some active) (Some bodyEl) [] [].
Definition twoManagersWorld : World SimpleDoc :=
  mkWorld (Some (docWith bodyEl)) None [None; None] [].

(** No document at all (server-side rendering), with something left in the
    slots. *)
Definition serverWorld : World SimpleDoc :=
  mkWorld None (Some openerButton) [Some openerButton] [].

(** A container without any tabbable descendant, in a page whose body is
    focused; and an element outside the trap container. *)
Definition emptyCurrent : Element * list Node := (containerEl, [ leaf (plain 5 "DIV" []) ]).
Definition outsideButton : Element := within bodyData (plain 9 "BUTTON" [("id", "outside")]).

(** A page whose style sheet reads [.closed { display: none }], and a
    button inside [<div class="closed">]. *)
Definition pageSheet : StyleSheet := [mkStyleRule "closed" (mkStyle "none" "")].
Definition closedPanel : Element := within bodyData (plain 1 "DIV" [("class", "closed")]).
Definition buttonInClosedPanel : Element :=
  mkElement (plain 2 "BUTTON" []) (Some closedPanel).

(** [<div class="dialog"><button tabindex="-1"></button></div>] *)
Definition dialogContent : list Node := [leaf (plain 2 "BUTTON" [("tabindex", "-1")])].
Definition dialogEl : Element := within bodyData (plain 1 "DIV" [("class", "dialog")]).

End Fixture.

(* ===================================================================== *)
(** ** The repository's tests, replayed on the embedding *)
(* ===================================================================== *)

Module FixtureTests.
Import Fixture.

Example Number_samples :
  map Js.Number ["2"; "0"; " 12 "; "-1"; ""; "abc"; "1.5"; ".5e1"; "0x1F"; "1e"; "- 1"; "+Infinity"; "5."; "."]
  = [Js.ofZ 2; Js.ofZ 0; Js.ofZ 12; Js.Finite (Qopp (inject_Z 1)); Js.ofZ 0; Js.NaN;
     Js.Finite (Qmake 3 2); Js.Finite (inject_Z 5); Js.ofZ 31; Js.NaN; Js.NaN;
     Js.Infinity false; Js.ofZ 5; Js.NaN].
Proof. vm_compute. reflexivity. Qed.

(** Literals that are not doubles round to the nearest one: underflow to
    zero, ties to even above [2 ^ 53], overflow to [Infinity], the smallest
    subnormal, a hexadecimal literal of 54 bits. *)
Example Number_rounds :
  map Js.Number
    ["1e-400"; "9007199254740993"; "9007199254740995"; "2e400"; "0.1";
     "5e-324"; "2e-324"; "1.7976931348623159e308"; "0x20000000000001"]
  = [Js.Finite 0; Js.Finite (inject_Z 9007199254740992);
     Js.Finite (inject_Z 9007199254740996); Js.Infinity false;
     Js.Finite (Qmake 3602879701896397 36028797018963968);
     Js.Finite (Qmake 1 (Z.to_pos (2 ^ 1074))); Js.Finite 0;
     Js.Infinity false; Js.Finite (inject_Z 9007199254740992)].
Proof. vm_compute. reflexivity. Qed.

(** [0.3 - 0.1] is not [0.2] in doubles. *)
Example sub_rounds :
  Js.sub (Js.Number "0.3") (Js.Number "0.1")
  = Js.Finite (Qmake 7205759403792793 36028797018963968)
  /\ Js.Number "0.2" = Js.Finite (Qmake 3602879701896397 18014398509481984).
Proof. split; vm_compute; reflexivity. Qed.

Example parseInt_samples :
  map Js.parseInt10 ["0"; " 12px"; "-1"; "-0"; ""; "abc"; "+7"; "1.9"; "- 1"]
  = [Some 0; Some 12; Some (-1); Some 0; None; None; Some 7; Some 1; None]%Z.
Proof. reflexivity. Qed.

(** isFocusable.test: 'identifies standard focusable elements correctly' *)
Example isFocusable_standard :
  map (fun d => isFocusable (Some (within bodyData d)))
    [ plain 1 "BUTTON" [];
      plain 2 "A" [("href", "#")];
      plain 3 "A" [];
      textInput 4 [] false;
      mkNodeData 5 "INPUT" [("type", "hidden")] (Some (mkStyle "" "")) false "hidden" true;
      textInput 6 [("disabled", "")] true;
      plain 7 "DIV" [];
      plain 8 "DIV" [("tabindex", "0")];
      plain 9 "DIV" [("tabindex", "-1")];
      plain 10 "SPAN" [("contenteditable", "true")] ]
  = [true; true; false; true; false; false; false; true; false; true].
Proof. reflexivity. Qed.

(** isFocusable.test: 'respects hidden elements', 'respects aria-hidden' *)
Example isFocusable_hidden :
  map isFocusable
    [ Some (within bodyData (plain 1 "BUTTON" [("hidden", "")]));
      Some (mkElement (plain 2 "BUTTON" []) (Some (within bodyData (styled 3 "DIV" "none" ""))));
      Some (mkElement (plain 4 "A" [("href", "#")])
              (Some (within bodyData (styled 5 "DIV" "" "hidden"))));
      Some (within bodyData (plain 6 "BUTTON" [("aria-hidden", "true")]));
      Some (mkElement (plain 7 "BUTTON" [])
              (Some (within bodyData (plain 8 "DIV" [("aria-hidden", "true")]))));
      None ]
  = [false; false; false; false; false; false].
Proof. reflexivity. Qed.

(** isFocusable.test: 'identifies tabbable elements correctly',
    'disabled elements are not tabbable' *)
Example isTabbable_standard :
  map (fun d => isTabbable (Some (within bodyData d)))
    [ plain 1 "BUTTON" [];
      plain 2 "BUTTON" [("tabindex", "-1")];
      plain 3 "A" [("href", "#")];
      plain 4 "A" [];
      textInput 5 [] false;
      plain 6 "DIV" [];
      plain 7 "DIV" [("tabindex", "0")];
      plain 8 "DIV" [("tabindex", "-1")];
      mkNodeData 9 "BUTTON" [("disabled", "")] (Some (mkStyle "" "")) true "submit" true;
      textInput 10 [("disabled", "")] true ]
  = [true; false; true; false; true; false; true; false; false; false].
Proof. reflexivity. Qed.

(** getFocusableElements.test: 'finds all focusable elements within a
    container' *)
Example enumerate_finds_all :
  idsOf (getFocusableElements (mkGetOptions None None) true
           (Some (DomContainer (Some containerEl)
              [ leaf (plain 1 "BUTTON" []);
                leaf (plain 2 "A" [("href", "#")]);
                leaf (textInput 3 [] false);
                leaf (plain 4 "DIV" [("tabindex", "0")]);
                leaf (plain 5 "DIV" []) ])))
  = ([1; 2; 3; 4], 0).
Proof. vm_compute. reflexivity. Qed.

(** getFocusableElements.test: 'correctly sorts by tabindex' *)
Example enumerate_sorts :
  idsOf (getFocusableElements (mkGetOptions None None) true
           (Some (DomContainer (Some containerEl)
              [ leaf (plain 12 "DIV" [("tabindex", "2")]);
                leaf (plain 1 "BUTTON" []);
                leaf (plain 11 "DIV" [("tabindex", "1")]);
                leaf (plain 10 "DIV" [("tabindex", "0")]);
                leaf (plain 2 "A" [("href", "#")]) ])))
  = ([11; 12; 1; 10; 2], 0).
Proof. vm_compute. reflexivity. Qed.

(** Tab indices that round to the same double, to zero or to [Infinity]
    leave their elements in document order. *)
Example enumerate_sorts_rounded_keys :
  map (fun values =>
         idsOf (getFocusableElements (mkGetOptions None None) true
                  (Some (DomContainer (Some containerEl)
                     [ leaf (plain 1 "DIV" [("tabindex", fst values)]);
                       leaf (plain 2 "DIV" [("tabindex", snd values)]) ]))))
    [ ("9007199254740993", "9007199254740992");
      ("2e400", "1e400");
      ("2", "1e-400");
      ("1e-400", "2");
      ("2", "1") ]
  = [([1; 2], 0); ([1; 2], 0); ([1; 2], 0); ([2; 1], 0); ([2; 1], 0)].
Proof. vm_compute. reflexivity. Qed.

(** getFocusableElements.test: the two shadow DOM tests, the hostile
    container, the absent container *)
Example enumerate_shadow :
  map (fun o => idsOf (getFocusableElements o true
                  (Some (DomContainer (Some containerEl)
                     [ leaf (plain 1 "BUTTON" []); shadowHost ]))))
    [ mkGetOptions None (Some true); mkGetOptions None (Some false) ]
  = [ ([1; 51; 52], 0); ([1], 0) ]
  /\ idsOf (getFocusableElements (mkGetOptions None None) true
              (Some (ThrowingContainer "Mock error"))) = ([], 1)
  /\ idsOf (getFocusableElements (mkGetOptions None None) true None) = ([], 0).
Proof. vm_compute. repeat split. Qed.

End FixtureTests.

(* ===================================================================== *)
(** ** Classifier properties *)
(* ===================================================================== *)

Lemma isStr_true (x : option string) (lit : string) :
  isStr x lit = true <-> x = Some lit.
Proof.
  destruct x as [v|]; simpl; split; intro E; try discriminate.
  - apply String.eqb_eq in E. now subst.
  - injection E as ->. apply String.eqb_refl.
Qed.

Lemma HiddenMarker_parentIsHidden (a : Element) :
  HiddenMarker a -> parentIsHidden a = true.
Proof.
  unfold HiddenMarker, parentIsHidden.
  intros [E | [E | [E | E]]].
  - rewrite E. now rewrite !orb_true_r.
  - rewrite E. now rewrite !orb_true_r.
  - rewrite E. now rewrite !orb_true_r.
  - apply isStr_true in E. now rewrite E.
Qed.

(** The ancestor loop stops with [return false] as soon as the element it
    is started on, or anything above it, is hidden. *)
Lemma ancestorLoopRejects_hits (p a : Element) :
  a = p \/ In a (ancestors p) ->
  parentIsHidden a = true ->
  ancestorLoopRejects p = true.
Proof.
  induction p as [d | d q IH] using Element_chain_ind; intros Hin Ha; simpl.
  - destruct Hin as [-> | []]. now rewrite Ha.
  - destruct (parentIsHidden (mkElement d (Some q))) eqn:Hp; [reflexivity|].
    destruct Hin as [-> | [-> | Hin]].
    + congruence.
    + apply IH; auto.
    + apply IH; auto.
Qed.

(** The inline declarations are among those that apply: an element with a
    hidden marker is hidden on every page. *)
Lemma HiddenMarker_HiddenOnPage (sheet : StyleSheet) (a : Element) :
  HiddenMarker a -> HiddenOnPage sheet a.
Proof.
  unfold HiddenMarker, HiddenOnPage, styleDisplayIs, styleVisibilityIs,
    computedDisplay, computedVisibility.
  intros [H | [H | [H | H]]]; auto.
  - right; left. destruct (style (node a)) as [st|]; [|discriminate].
    cbn in *. apply String.eqb_eq in H. now rewrite H.
  - right; right; left. destruct (style (node a)) as [st|]; [|discriminate].
    cbn in *. apply String.eqb_eq in H. now rewrite H.
Qed.

(** C4, as stated: "every element with an ancestor that is hidden, via the
    hidden attribute, a not-displayed style, a not-visible style or
    aria-hidden, is not focusable".  It fails when the style comes from a
    style sheet: on a page with [.closed { display: none }] the button
    inside [<div class="closed">] has a not-displayed ancestor and
    [isFocusable] returns true, the ancestor's [style.display] being
    empty. *)
Lemma C4_counterexample :
  In Fixture.closedPanel (ancestors Fixture.buttonInClosedPanel)
  /\ computedDisplay Fixture.pageSheet Fixture.closedPanel = "none"
  /\ HiddenOnPage Fixture.pageSheet Fixture.closedPanel
  /\ isFocusable (Some Fixture.buttonInClosedPanel) = true.
Proof.
  split; [left; reflexivity|]. split; [reflexivity|].
  split; [right; left; reflexivity | reflexivity].
Qed.

(** C4, amended.  An element with an ancestor that carries a hidden marker
    -- the [hidden] attribute, [display: none] or [visibility: hidden]
    declared in the ancestor's own [style] attribute, or
    [aria-hidden="true"] -- on any element of its [parentElement] chain is
    not focusable, whatever the element itself carries. *)
Theorem C4_hidden_ancestor_not_focusable (E A : Element) :
  In A (ancestors E) ->
  HiddenMarker A ->
  isFocusable (Some E) = false.
Proof.
  intros Hin Hhid.
  apply HiddenMarker_parentIsHidden in Hhid.
  unfold isFocusable.
  destruct E as [d [p|]]; simpl in Hin; [|contradiction].
  assert (Hloop : ancestorLoopRejects p = true).
  { apply ancestorLoopRejects_hits with (a := A); [|assumption].
    destruct Hin as [<- | Hin]; auto. }
  cbn [parentElement]. rewrite Hloop.
  repeat match goal with |- (if ?c then _ else _) = _ => destruct c; try reflexivity end.
Qed.

Lemma C4_witness :
  In (Fixture.within Fixture.bodyData (Fixture.plain 1 "SECTION" [("hidden", "")]))
     (ancestors Fixture.buttonUnderHidden)
  /\ isFocusable (Some Fixture.buttonUnderHidden) = false.
Proof.
  assert (Hin : In (Fixture.within Fixture.bodyData (Fixture.plain 1 "SECTION" [("hidden", "")]))
                   (ancestors Fixture.buttonUnderHidden)).
  { simpl. right. left. reflexivity. }
  split; [exact Hin|].
  apply (C4_hidden_ancestor_not_focusable _ _ Hin).
  left. reflexivity.
Defined.

(** The guard at the top of [isFocusable]: an element whose [tabindex]
    attribute is exactly ["-1"] is rejected. *)
Lemma isFocusable_minus_one (e : Element) :
  getAttribute e "tabindex" = Some "-1" -> isFocusable (Some e) = false.
Proof.
  intro E. unfold isFocusable. rewrite E. simpl.
  now destruct (isConnected (node e)).
Qed.

Lemma isTabbable_isFocusable (e : option Element) :
  isTabbable e = true -> isFocusable e = true.
Proof.
  unfold isTabbable. destruct (isFocusable e); simpl; [reflexivity | discriminate].
Qed.

(** C7.  [<button tabindex="-1">], connected, visible and enabled, in the
    body: [isFocusable] returns false for it, as it does for every element
    with [tabindex="-1"], so no element with that attribute is focusable and
    not tabbable.  Without the attribute the same button is focusable, and
    an enumeration with [onlyTabbable: false] of a dialog holding the button
    comes back empty. *)
Theorem C7_minus_one_button_not_focusable :
  getAttribute Fixture.minusOneButton "tabindex" = Some "-1"
  /\ isTabbable (Some Fixture.minusOneButton) = false
  /\ isFocusable (Some Fixture.minusOneButton) = false
  /\ isFocusable (Some (Fixture.within Fixture.bodyData (Fixture.plain 2 "BUTTON" []))) = true
  /\ fst (getFocusableElements (mkGetOptions (Some false) None) true
            (Some (DomContainer (Some Fixture.dialogEl) Fixture.dialogContent))) = []
  /\ ~ (exists e, getAttribute e "tabindex" = Some "-1" /\ isFocusable (Some e) = true).
Proof.
  assert (E : getAttribute Fixture.minusOneButton "tabindex" = Some "-1") by reflexivity.
  pose proof (isFocusable_minus_one _ E) as F.
  split; [exact E|]. split; [unfold isTabbable; now rewrite F|].
  split; [exact F|]. split; [reflexivity|]. split; [reflexivity|].
  intros [e [He Hf]]. rewrite (isFocusable_minus_one e He) in Hf. discriminate.
Qed.

(* ===================================================================== *)
(** ** Enumerator properties *)
(* ===================================================================== *)

Lemma appendResults_nil_l (r : list Element * Console) : appendResults ([], []) r = r.
Proof. now destruct r. Qed.

Lemma appendResults_assoc (a b c : list Element * Console) :
  appendResults a (appendResults b c) = appendResults (appendResults a b) c.
Proof. unfold appendResults; simpl. now rewrite !app_assoc. Qed.

Lemma pushedByShadowLoop_cons options (n : Node) (l : list Node) :
  pushedByShadowLoop options (n :: l)
  = appendResults (shadowCall options n) (pushedByShadowLoop options l).
Proof. reflexivity. Qed.

Lemma pushedByShadowLoop_app options (l1 l2 : list Node) :
  pushedByShadowLoop options (l1 ++ l2)
  = appendResults (pushedByShadowLoop options l1) (pushedByShadowLoop options l2).
Proof.
  induction l1 as [|n l1 IH].
  - cbn [app]. now rewrite appendResults_nil_l.
  - cbn [app]. rewrite !pushedByShadowLoop_cons, IH. apply appendResults_assoc.
Qed.

Lemma recurseIntoShadowRoots_unfold options (n : Node) :
  recurseIntoShadowRoots options n
  = appendResults (shadowCall options n) (recurseIntoAll options (children n)).
Proof. destruct n as [d sr kids]. reflexivity. Qed.

Lemma recurseIntoAll_cons options (k : Node) (r : list Node) :
  recurseIntoAll options (k :: r)
  = appendResults (recurseIntoShadowRoots options k) (recurseIntoAll options r).
Proof. reflexivity. Qed.

(** The structural recursion of the embedding makes exactly the recursive
    calls of the source: one per descendant with an open shadow root, in
    document order. *)
Lemma recurseIntoShadowRoots_is_loop options (parent : option Element) (n : Node) :
  recurseIntoShadowRoots options n
  = pushedByShadowLoop options (map snd (descendantsOf parent n)).
Proof.
  revert parent.
  induction n as [d sr kids IH] using Node_tree_ind; intro parent.
  rewrite recurseIntoShadowRoots_unfold.
  cbn [descendantsOf map snd here children].
  rewrite pushedByShadowLoop_cons. f_equal.
  generalize (Some (mkElement d parent)) as up.
  induction IH as [|k r Hk _ IHr]; intro up; [reflexivity|].
  cbn [flat_map]. rewrite map_app, pushedByShadowLoop_app, recurseIntoAll_cons.
  now rewrite (Hk up), (IHr up).
Qed.

Lemma recurseIntoAll_is_loop options (self : option Element) (content : list Node) :
  recurseIntoAll options content
  = pushedByShadowLoop options (map snd (allDescendants self content)).
Proof.
  unfold allDescendants.
  induction content as [|k r IH]; [reflexivity|].
  cbn [flat_map]. rewrite map_app, pushedByShadowLoop_app, recurseIntoAll_cons.
  now rewrite (recurseIntoShadowRoots_is_loop options self k), IH.
Qed.

Lemma sortInsert_perm {A} (cmp : A -> A -> Js.number) (x : A) (l : list A) :
  Permutation (sortInsert cmp x l) (x :: l).
Proof.
  induction l as [|y r IH]; simpl; [reflexivity|].
  destruct (Js.gt0 (cmp x y)); [|reflexivity].
  rewrite IH. apply perm_swap.
Qed.

Lemma arraySort_perm {A} (cmp : A -> A -> Js.number) (l : list A) :
  Permutation (arraySort cmp l) l.
Proof.
  induction l as [|x r IH]; simpl; [reflexivity|].
  rewrite sortInsert_perm. now constructor.
Qed.

(** A call on a DOM container returns the sorted, filtered candidates. *)
Lemma getFocusableElements_sorted_filter options self content :
  fst (getFocusableElements options true (Some (DomContainer self content)))
  = arraySort compareTabIndex
      (filter (isElementFocusable options) (candidateElements options self content)).
Proof.
  unfold getFocusableElements, tryBlock, tryEnumerate, candidateElements, catchEnumerate.
  simpl.
  destruct (withDefault true (includeShadowDOM options)); [|reflexivity].
  destruct (filterShadowHosts (allDescendants self content)); reflexivity.
Qed.

(** C3. Every element returned by [getFocusableElements(container, options)]
    satisfies [isTabbable] when [options.onlyTabbable] is true and
    [isFocusable] otherwise; this covers the elements pushed by the recursive
    calls on open shadow roots, which pass through the same filter. *)
Theorem C3_enumerated_elements_pass_classifier
    (options : GetFocusableElementsOptions) (hasDoc : bool)
    (container : option Container) (e : Element) :
  In e (fst (getFocusableElements options hasDoc container)) ->
  (if withDefault false (onlyTabbable options)
   then isTabbable (Some e) else isFocusable (Some e)) = true.
Proof.
  destruct container as [[self content | err]|]; destruct hasDoc;
    try (simpl; contradiction).
  rewrite getFocusableElements_sorted_filter. intro Hin.
  apply (Permutation_in _ (arraySort_perm _ _)) in Hin.
  apply filter_In in Hin. destruct Hin as [_ Hp].
  unfold isElementFocusable in Hp.
  now destruct (withDefault false (onlyTabbable options)).
Qed.

Lemma C3_witness :
  In Fixture.shadowButton
     (fst (getFocusableElements (mkGetOptions None (Some true)) true
             (Some Fixture.shadowTestContainer)))
  /\ isFocusable (Some Fixture.shadowButton) = true.
Proof.
  assert (Hin : In Fixture.shadowButton
                  (fst (getFocusableElements (mkGetOptions None (Some true)) true
                          (Some Fixture.shadowTestContainer)))).
  { vm_compute. right. left. reflexivity. }
  split; [exact Hin|].
  exact (C3_enumerated_elements_pass_classifier _ _ _ _ Hin).
Defined.

(** *** Ordering *)

Lemma compare_nonpositive_left (x y : Element) :
  positiveTabIndex x = false ->
  Js.gt0 (compareTabIndex x y) = positiveTabIndex y.
Proof.
  unfold positiveTabIndex, sortKey, compareTabIndex. intros ->. simpl.
  now destruct (Js.gt0 (Js.Number (tabindexOrZero y))).
Qed.

Lemma compare_positive_nonpositive (x y : Element) :
  positiveTabIndex x = true -> positiveTabIndex y = false ->
  Js.gt0 (compareTabIndex x y) = false.
Proof.
  unfold positiveTabIndex, sortKey, compareTabIndex. now intros -> ->.
Qed.

Lemma compare_positive_positive (x y : Element) :
  positiveTabIndex x = true -> positiveTabIndex y = true ->
  compareTabIndex x y = Js.sub (sortKey x) (sortKey y).
Proof.
  unfold positiveTabIndex, sortKey, compareTabIndex. now intros -> ->.
Qed.

(** A non-positive element, inserted, passes every positive element and
    stops in front of the first non-positive one. *)
Lemma sortInsert_nonpositive (x : Element) (P N : list Element) :
  positiveTabIndex x = false ->
  forallb positiveTabIndex P = true ->
  forallb (fun e => negb (positiveTabIndex e)) N = true ->
  sortInsert compareTabIndex x (P ++ N) = P ++ x :: N.
Proof.
  intros Hx HP HN. induction P as [|y P IH]; cbn [app sortInsert].
  - destruct N as [|z N]; [reflexivity|]. cbn [forallb] in HN.
    apply andb_prop in HN. destruct HN as [Hz _].
    cbn [sortInsert]. rewrite (compare_nonpositive_left x z Hx).
    apply negb_true_iff in Hz. now rewrite Hz.
  - cbn [forallb] in HP. apply andb_prop in HP. destruct HP as [Hy HP].
    rewrite (compare_nonpositive_left x y Hx), Hy. now rewrite IH.
Qed.

(** A positive element, inserted, never enters the non-positive bucket. *)
Lemma sortInsert_positive (x : Element) (P N : list Element) :
  positiveTabIndex x = true ->
  forallb (fun e => negb (positiveTabIndex e)) N = true ->
  sortInsert compareTabIndex x (P ++ N) = sortInsert compareTabIndex x P ++ N.
Proof.
  intros Hx HN. induction P as [|y P IH]; cbn [app sortInsert].
  - destruct N as [|z N]; [reflexivity|]. cbn [forallb] in HN.
    apply andb_prop in HN. destruct HN as [Hz _]. apply negb_true_iff in Hz.
    cbn [sortInsert]. now rewrite (compare_positive_nonpositive x z Hx Hz).
  - destruct (Js.gt0 (compareTabIndex x y)); [|reflexivity].
    cbn [app]. now rewrite IH.
Qed.

Lemma forallb_perm {A} (f : A -> bool) (l l' : list A) :
  Permutation l l' -> forallb f l = true -> forallb f l' = true.
Proof.
  intros Hp Hl. apply forallb_forall. intros x Hx.
  apply (proj1 (forallb_forall f l) Hl). now apply Permutation_in with (l := l'); [symmetry|].
Qed.

Lemma forallb_filter_self {A} (f : A -> bool) (l : list A) :
  forallb f (filter f l) = true.
Proof.
  apply forallb_forall. intros x Hx. now apply filter_In in Hx.
Qed.

(** The sort splits into the two buckets: the positive elements, sorted,
    then all others exactly as they were. *)
Lemma arraySort_buckets (l : list Element) :
  arraySort compareTabIndex l
  = arraySort compareTabIndex (filter positiveTabIndex l)
    ++ filter (fun e => negb (positiveTabIndex e)) l.
Proof.
  induction l as [|x r IH]; [reflexivity|].
  cbn [arraySort filter]. rewrite IH.
  assert (HP : forallb positiveTabIndex
                 (arraySort compareTabIndex (filter positiveTabIndex r)) = true).
  { apply forallb_perm with (l := filter positiveTabIndex r).
    - symmetry. apply arraySort_perm.
    - apply forallb_filter_self. }
  pose proof (forallb_filter_self (fun e => negb (positiveTabIndex e)) r) as HN.
  destruct (positiveTabIndex x) eqn:Hx; cbn [negb arraySort].
  - now apply sortInsert_positive.
  - now apply sortInsert_nonpositive.
Qed.

(** Rounding keeps the sign: a positive real never rounds below zero. *)
Lemma roundMagnitude_not_negative (n d : Z) :
  (0 < n)%Z -> (0 < d)%Z -> Js.gt0 (Js.neg (Js.roundMagnitude n d)) = false.
Proof.
  intros Hn Hd. unfold Js.roundMagnitude.
  set (e := if Js.atLeastPow2 _ _ _ then _ else _).
  set (quantum := (Z.max e (-1022) - 52)%Z).
  set (num := if (0 <=? quantum)%Z then n else _).
  set (den := if (0 <=? quantum)%Z then _ else d).
  set (m := match (2 * (num mod den) ?= den)%Z with Lt => _ | _ => _ end).
  assert (Hnum : (0 <= num)%Z).
  { subst num. destruct (0 <=? quantum)%Z; [lia|].
    apply Z.mul_nonneg_nonneg; [lia|]. apply Z.pow_nonneg; lia. }
  assert (Hden : (0 < den)%Z).
  { subst den. destruct (0 <=? quantum)%Z eqn:E; [|lia].
    apply Z.mul_pos_pos; [lia|]. apply Z.pow_pos_nonneg; lia. }
  assert (Hm0 : (0 <= num / den)%Z) by (apply Z.div_pos; lia).
  assert (Hm : (0 <= m)%Z).
  { subst m. destruct (_ ?= _)%Z; [destruct (Z.even _)|..]; lia. }
  destruct (0 <=? quantum)%Z eqn:Eq.
  - destruct (_ <=? m * _)%Z; [reflexivity|]. cbn [Js.neg Js.gt0].
    destruct (Qcompare _ _) eqn:E; try reflexivity.
    apply Qlt_alt in E. unfold Qlt in E. cbn in E.
    assert (0 <= m * 2 ^ quantum)%Z
      by (apply Z.mul_nonneg_nonneg; [lia | apply Z.pow_nonneg; lia]).
    lia.
  - cbn [Js.neg Js.gt0].
    destruct (Qcompare _ _) eqn:E; try reflexivity.
    apply Qlt_alt in E. rewrite Qred_correct in E.
    unfold Qlt in E. cbn in E. lia.
Qed.

Lemma roundToDouble_positive (q : Q) :
  Js.gt0 (Js.roundToDouble q) = true -> (0 < q)%Q.
Proof.
  destruct q as [[|n|n] d]; unfold Js.roundToDouble; cbn [Qnum Qden].
  - discriminate.
  - intros _. unfold Qlt. cbn. lia.
  - now rewrite roundMagnitude_not_negative by lia.
Qed.

Lemma roundToDouble_negative (q : Q) :
  (q < 0)%Q -> Js.gt0 (Js.roundToDouble q) = false.
Proof.
  destruct q as [[|n|n] d]; unfold Js.roundToDouble; cbn [Qnum Qden].
  - reflexivity.
  - unfold Qlt. cbn. lia.
  - intros _. apply roundMagnitude_not_negative; lia.
Qed.

Lemma gt0_sub_asym (x y : Js.number) :
  Js.gt0 (Js.sub x y) = true -> Js.gt0 (Js.sub y x) = false.
Proof.
  destruct x as [|a|p], y as [|b|q]; cbn [Js.sub Js.gt0];
    try discriminate; try reflexivity.
  - destruct a, b; simpl; try discriminate; reflexivity.
  - destruct a; simpl; [discriminate | reflexivity].
  - destruct b; simpl; [reflexivity | discriminate].
  - intros H. apply roundToDouble_positive in H.
    apply roundToDouble_negative. lra.
Qed.

Lemma HdRel_sortInsert {A} (R : A -> A -> Prop) (cmp : A -> A -> Js.number)
    (y x : A) (l : list A) :
  R y x -> HdRel R y l -> HdRel R y (sortInsert cmp x l).
Proof.
  intros Hyx Hl. destruct l as [|z l]; simpl; [now constructor|].
  destruct (Js.gt0 (cmp x z)); constructor; [now inversion Hl | assumption].
Qed.

(** Among positive elements the sort is ascending in the tab index. *)
Lemma arraySort_ascending (l : list Element) :
  forallb positiveTabIndex l = true ->
  Sorted keyLe (arraySort compareTabIndex l).
Proof.
  induction l as [|x r IH]; intro Hpos; cbn [arraySort]; [constructor|].
  cbn [forallb] in Hpos. apply andb_prop in Hpos. destruct Hpos as [Hx Hr].
  specialize (IH Hr).
  assert (Hall : forallb positiveTabIndex (arraySort compareTabIndex r) = true).
  { apply forallb_perm with (l := r); [symmetry; apply arraySort_perm | assumption]. }
  revert IH Hall. generalize (arraySort compareTabIndex r) as s.
  induction s as [|y s IHs]; intros Hs Hall; cbn [sortInsert].
  - repeat constructor.
  - cbn [forallb] in Hall. apply andb_prop in Hall. destruct Hall as [Hy Hall].
    rewrite (compare_positive_positive x y Hx Hy).
    destruct (Js.gt0 (Js.sub (sortKey x) (sortKey y))) eqn:Hgt.
    + inversion Hs as [|? ? Hs' Hhd]; subst. constructor.
      * now apply IHs.
      * apply HdRel_sortInsert; [|assumption].
        unfold keyLe. now apply gt0_sub_asym.
    + constructor; [assumption|]. constructor. exact Hgt.
Qed.





(** *** Failure absorption *)

Lemma filterShadowHosts_throws (l : list (Element * Node)) (e : Element) (n : Node)
    (err : Exn) :
  In (e, n) l -> shadowRoot n = ShadowThrows err ->
  exists err', filterShadowHosts l = inl err'.
Proof.
  intros Hin Hthrow. induction l as [|[e' n'] r IH]; [contradiction|].
  cbn [filterShadowHosts]. unfold hasOpenShadowRoot at 1.
  destruct Hin as [E | Hin].
  - injection E as -> ->. rewrite Hthrow. now exists err.
  - destruct (shadowRoot n') as [|mode sc|err0]; try (now exists err0);
      destruct (IH Hin) as [err' ->]; now exists err'.
Qed.

(** C9. [getFocusableElements] has no exceptional outcome: an absent
    container or an undefined [document] gives the empty list; whenever the
    [try] block throws, the [catch] logs the error and the empty list is
    returned.  The [try] block throws when the receiver's [querySelectorAll]
    throws and (with [includeShadowDOM] on) when the [shadowRoot] getter of
    some descendant throws. *)
Theorem C9_enumerator_absorbs_failures (options : GetFocusableElementsOptions) :
  (forall hasDoc, getFocusableElements options hasDoc None = ([], []))
  /\ (forall container, getFocusableElements options false container = ([], []))
  /\ (forall c error,
        tryBlock options c = inl error ->
        getFocusableElements options true (Some c)
        = ([], [ConsoleError "Error in getFocusableElements:" error]))
  /\ (forall error, tryBlock options (ThrowingContainer error) = inl error)
  /\ (forall self content e n err,
        withDefault true (includeShadowDOM options) = true ->
        In (e, n) (allDescendants self content) ->
        shadowRoot n = ShadowThrows err ->
        exists error, tryBlock options (DomContainer self content) = inl error).
Proof.
  repeat split.
  - now intros [[|]|].
  - intros c error Htry. unfold getFocusableElements. cbn [negb]. now rewrite Htry.
  - intros self content e n err Hopt Hin Hthrow.
    destruct (filterShadowHosts_throws _ e n err Hin Hthrow) as [error Herr].
    exists error. unfold tryBlock, tryEnumerate. now rewrite Hopt, Herr.
Qed.

Lemma C9_witness :
  getFocusableElements (mkGetOptions None None) true
    (Some (DomContainer (Some Fixture.containerEl) Fixture.hostileProbeContent))
  = ([], [ConsoleError "Error in getFocusableElements:" "probe failed"])
  /\ exists error,
       tryBlock (mkGetOptions None None)
         (DomContainer (Some Fixture.containerEl) Fixture.hostileProbeContent) = inl error.
Proof.
  split.
  - apply (proj1 (proj2 (proj2 (C9_enumerator_absorbs_failures (mkGetOptions None None))))).
    reflexivity.
  - apply (proj2 (proj2 (proj2 (proj2 (C9_enumerator_absorbs_failures (mkGetOptions None None)))))
             (Some Fixture.containerEl) Fixture.hostileProbeContent
             Fixture.hostileProbeElement Fixture.hostileProbeNode "probe failed").
    + reflexivity.
    + simpl. right. right. left. reflexivity.
    + reflexivity.
Defined.

(* ===================================================================== *)
(** ** Focus keeper properties *)
(* ===================================================================== *)

(** C1 (the code departs from it). When the saved element no longer takes
    focus and the fallback is focused instead, [returnFocus] returns through
    [return fallbackElement] and never reaches [savedFocusElement = null]:
    the slot still holds the saved element after the call, both when the
    focus attempt failed silently and when it threw. *)
Theorem C1_slot_survives_fallback :
  (fst (returnFocus noOptions Fixture.staleWorld) = Normal (Some Fixture.bodyEl)
   /\ savedFocusElement (snd (returnFocus noOptions Fixture.staleWorld))
      = Some Fixture.openerButton)
  /\ (fst (returnFocus noOptions Fixture.throwingWorld) = Normal (Some Fixture.bodyEl)
      /\ savedFocusElement (snd (returnFocus noOptions Fixture.throwingWorld))
         = Some Fixture.openerButton).
Proof. repeat split. Qed.

Section KeeperFacts.
Context {Doc : Type} `{FocusModel Doc}.

Lemma focusElement_keeps_slot (e : Element) (opts : option bool) (w : World Doc) :
  savedFocusElement (snd (focusElement e opts w)) = savedFocusElement w.
Proof.
  unfold focusElement. destruct (document w) as [d|]; [|reflexivity].
  now destruct (focus e opts d).
Qed.

(** The slot after [returnFocus] holds nothing, or what it held before
    when the call returned the fallback. *)
Lemma returnFocus_slot_outcome (options : ReturnFocusOptions) (w : World Doc) (d : Doc) :
  document w = Some d ->
  savedFocusElement (snd (returnFocus options w)) = None
  \/ (exists saved fb,
        savedFocusElement w = Some saved
        /\ resolveFallback options d = Some fb
        /\ fst (returnFocus options w) = Normal (Some fb)
        /\ savedFocusElement (snd (returnFocus options w)) = Some saved).
Proof.
  intro Hd. unfold returnFocus. rewrite Hd.
  set (scroll := withDefault true (preventScroll options)).
  destruct (savedFocusElement w) as [saved|] eqn:Hs.
  - pose proof (focusElement_keeps_slot saved (Some scroll) w) as K1.
    destruct (focusElement saved (Some scroll) w) as [[u|error] w1]; cbn [snd] in K1.
    + destruct (documentActiveIs saved w1); [now left|].
      destruct (resolveFallback options d) as [fb|]; [|now left].
      pose proof (focusElement_keeps_slot fb (Some scroll) w1) as K2.
      destruct (focusElement fb (Some scroll) w1) as [[u'|error] w2]; cbn [snd] in K2.
      * right. exists saved, fb. repeat split. cbn [snd]. congruence.
      * unfold returnFocus_catch.
        set (w3 := consoleLog _ w2).
        pose proof (focusElement_keeps_slot fb (Some scroll) w3) as K3.
        destruct (focusElement fb (Some scroll) w3) as [[u''|error'] w4]; cbn [snd] in K3.
        -- right. exists saved, fb. repeat split. cbn [snd].
           rewrite K3. subst w3. cbn [savedFocusElement consoleLog]. congruence.
        -- now left.
    + unfold returnFocus_catch.
      destruct (resolveFallback options d) as [fb|]; [|now left].
      set (w3 := consoleLog _ w1).
      pose proof (focusElement_keeps_slot fb (Some scroll) w3) as K3.
      destruct (focusElement fb (Some scroll) w3) as [[u''|error'] w4]; cbn [snd] in K3.
      * right. exists saved, fb. repeat split. cbn [snd].
        rewrite K3. subst w3. cbn [savedFocusElement consoleLog]. congruence.
      * now left.
  - left. destruct (resolveFallback options d) as [fb|]; [|assumption].
    pose proof (focusElement_keeps_slot fb (Some scroll) w) as K.
    destruct (focusElement fb (Some scroll) w) as [[u|error] w1]; cbn [snd] in *; congruence.
Qed.

Lemma focusElement_run (e : Element) (opts : option bool) (w : World Doc) (d : Doc) :
  document w = Some d ->
  focusElement e opts w = (fst (focus e opts d), setDocument (snd (focus e opts d)) w).
Proof.
  intro Hd. unfold focusElement. rewrite Hd. now destruct (focus e opts d).
Qed.

(** With nothing saved, [returnFocus] is
    [fallbackElement?.focus({ preventScroll }); return fallbackElement]. *)
Lemma returnFocus_nothing_saved (options : ReturnFocusOptions) (w : World Doc) (d : Doc) :
  document w = Some d ->
  savedFocusElement w = None ->
  returnFocus options w
  = match resolveFallback options d with
    | None => (Normal None, w)
    | Some fb =>
        match focus fb (Some (withDefault true (preventScroll options))) d with
        | (Normal _, d') => (Normal (Some fb), setDocument d' w)
        | (Throw error, d') => (Throw error, setDocument d' w)
        end
    end.
Proof.
  intros Hd Hs. unfold returnFocus. rewrite Hd, Hs.
  destruct (resolveFallback options d) as [fb|]; [|reflexivity].
  rewrite (focusElement_run _ _ _ _ Hd).
  now destruct (focus fb _ d) as [[u|e] d'].
Qed.
End KeeperFacts.

(** C2. Round trip.  If [saveFocus()] runs while X is the active element and
    [returnFocus()] follows with no focus change in between, X accepting
    focus (its [focus()] returns and leaves X the active element), then the
    call focuses X, returns X and leaves the slot empty; a second
    [returnFocus()] therefore takes the nothing-saved path: it calls
    [focus()] on the fallback and returns the fallback ([null], with nothing
    focused, when the fallback is [null]; the exception, when that [focus()]
    throws). *)
Theorem C2_save_then_return_round_trip {Doc : Type} `{FocusModel Doc}
    (w : World Doc) (d d' : Doc) (X : Element) (options : ReturnFocusOptions) :
  document w = Some d ->
  activeElement d = Some X ->
  focus X (Some (withDefault true (preventScroll options))) d = (Normal tt, d') ->
  activeIs d' X = true ->
  let saved := saveFocus w in
  let first := returnFocus options (snd saved) in
  fst saved = Normal (Some X)
  /\ document (snd saved) = Some d
  /\ fst first = Normal (Some X)
  /\ document (snd first) = Some d'
  /\ savedFocusElement (snd first) = None
  /\ forall options2,
       let scroll2 := Some (withDefault true (preventScroll options2)) in
       (forall fb d'',
           resolveFallback options2 d' = Some fb ->
           focus fb scroll2 d' = (Normal tt, d'') ->
           returnFocus options2 (snd first)
           = (Normal (Some fb), setDocument d'' (snd first)))
       /\ (resolveFallback options2 d' = None ->
           returnFocus options2 (snd first) = (Normal None, snd first))
       /\ (forall fb error d'',
             resolveFallback options2 d' = Some fb ->
             focus fb scroll2 d' = (Throw error, d'') ->
             returnFocus options2 (snd first)
             = (Throw error, setDocument d'' (snd first))).
Proof.
  intros Hd Hact Hfocus Hverify saved first.
  assert (Hsaved : saved = (Normal (Some X), setSavedFocusElement (Some X) w)).
  { subst saved. unfold saveFocus. rewrite Hd, Hact. reflexivity. }
  assert (Hfirst : first
                   = (Normal (Some X),
                      setSavedFocusElement None
                        (setDocument d' (setSavedFocusElement (Some X) w)))).
  { subst first. rewrite Hsaved. cbn [snd]. unfold returnFocus.
    cbn [document savedFocusElement setSavedFocusElement]. rewrite Hd.
    rewrite (focusElement_run X _ _ d) by exact Hd.
    rewrite Hfocus. cbn [fst snd].
    unfold documentActiveIs. cbn [document setDocument]. now rewrite Hverify. }
  rewrite Hsaved, Hfirst. cbn [fst snd].
  repeat split; try assumption.
  - intros fb d'' Hfb Hf2.
    rewrite (returnFocus_nothing_saved options2 _ d') by reflexivity.
    now rewrite Hfb, Hf2.
  - intros Hfb.
    rewrite (returnFocus_nothing_saved options2 _ d') by reflexivity.
    now rewrite Hfb.
  - intros fb error d'' Hfb Hf2.
    rewrite (returnFocus_nothing_saved options2 _ d') by reflexivity.
    now rewrite Hfb, Hf2.
Qed.

Lemma C2_witness :
  let first := returnFocus noOptions (snd (saveFocus Fixture.pageWorld)) in
  fst first = Normal (Some Fixture.openerButton)
  /\ savedFocusElement (snd first) = None
  /\ fst (returnFocus noOptions (snd first)) = Normal (Some Fixture.bodyEl).
Proof.
  pose proof (C2_save_then_return_round_trip Fixture.pageWorld Fixture.pageDoc
                Fixture.pageDoc Fixture.openerButton noOptions
                eq_refl eq_refl eq_refl eq_refl) as R.
  cbv zeta in R. destruct R as (_ & _ & Hret & _ & Hslot & Hsecond).
  cbv zeta. split; [exact Hret|]. split; [exact Hslot|].
  destruct (Hsecond noOptions) as (Hfb & _ & _).
  rewrite (Hfb Fixture.bodyEl
             (Fixture.mkSimpleDoc (Some Fixture.bodyEl) (Some Fixture.bodyEl) [] [])
             eq_refl eq_refl).
  reflexivity.
Defined.

Section ManagerFacts.
Context {Doc : Type} `{FocusModel Doc}.

Lemma assignNth_length (m : nat) (v : option Element) (l : list (option Element)) :
  List.length (assignNth m v l) = List.length l.
Proof.
  revert m. induction l as [|x r IH]; intros [|m]; simpl; auto.
Qed.

Lemma nth_error_assignNth_same (m : nat) (v : option Element) (l : list (option Element)) :
  (m < List.length l)%nat -> nth_error (assignNth m v l) m = Some v.
Proof.
  revert m. induction l as [|x r IH]; intros [|m] Hlt; simpl in *; try lia; auto.
  apply IH. lia.
Qed.

Lemma nth_error_assignNth_other (m k : nat) (v : option Element)
    (l : list (option Element)) :
  k <> m -> nth_error (assignNth m v l) k = nth_error l k.
Proof.
  revert m k. induction l as [|x r IH]; intros [|m] [|k] Hne; simpl; auto.
  - congruence.
Qed.

Lemma savedElement_set_same (m : FocusManager) (v : option Element) (w : World Doc) :
  (m < List.length (managers w))%nat -> savedElement m (setSavedElement m v w) = v.
Proof.
  intro Hlt. unfold savedElement, setSavedElement. cbn [managers setManagers].
  now rewrite nth_error_assignNth_same.
Qed.

Lemma savedElement_set_other (m k : FocusManager) (v : option Element) (w : World Doc) :
  k <> m -> savedElement k (setSavedElement m v w) = savedElement k w.
Proof.
  intro Hne. unfold savedElement, setSavedElement. cbn [managers setManagers].
  now rewrite nth_error_assignNth_other.
Qed.

(** The handle returned by [createFocusManager()] names a fresh, empty slot
    and leaves every existing slot alone. *)
Lemma createFocusManager_fresh (w : World Doc) :
  let '(m, w') := createFocusManager w in
  (m < List.length (managers w'))%nat
  /\ savedElement m w' = None
  /\ savedFocusElement w' = savedFocusElement w
  /\ forall k, (k < m)%nat -> savedElement k w' = savedElement k w.
Proof.
  unfold createFocusManager, savedElement. cbn [managers setManagers savedFocusElement].
  rewrite length_app. cbn [List.length]. repeat split.
  - lia.
  - rewrite nth_error_app2 by lia. now rewrite Nat.sub_diag.
  - intros k Hk. now rewrite nth_error_app1 by lia.
Qed.
End ManagerFacts.

Section Refinement.
Context {Doc : Type} `{FocusModel Doc}.
Variable m : FocusManager.

Lemma StepsAgree_refl (wd wm : World Doc) : Mirrors m wd wm -> StepsAgree m wd wm wd wm.
Proof. intro Hm. repeat split; auto; apply Hm. Qed.

Lemma StepsAgree_trans (wd wm wd1 wm1 wd2 wm2 : World Doc) :
  StepsAgree m wd wm wd1 wm1 -> StepsAgree m wd1 wm1 wd2 wm2 -> StepsAgree m wd wm wd2 wm2.
Proof.
  intros (_ & (S1 & L1 & O1) & M1) (A2 & (S2 & L2 & O2) & M2).
  repeat split; try apply A2; try congruence.
  intros k Hk. now rewrite O2, O1.
Qed.

Lemma StepsAgree_focus (e : Element) (opts : option bool) (wd wm : World Doc) :
  Mirrors m wd wm ->
  fst (focusElement e opts wd) = fst (focusElement e opts wm)
  /\ StepsAgree m wd wm (snd (focusElement e opts wd)) (snd (focusElement e opts wm)).
Proof.
  intros (Hd & Hs & Hc). unfold focusElement. rewrite <- Hd.
  destruct (document wd) as [d|] eqn:Ed.
  - destruct (focus e opts d) as [c d']. cbn [fst snd].
    split; [reflexivity|].
    unfold StepsAgree, Mirrors, OnlyOwnSlot, savedElement, setDocument.
    cbn [document savedFocusElement managers console]. repeat split; auto.
  - cbn [fst snd]. split; [reflexivity|].
    unfold StepsAgree, Mirrors, OnlyOwnSlot. repeat split; auto; congruence.
Qed.

Lemma StepsAgree_log (ed em : LogEntry) (wd wm : World Doc) :
  thrownBy ed = thrownBy em ->
  Mirrors m wd wm ->
  StepsAgree m wd wm (consoleLog [ed] wd) (consoleLog [em] wm).
Proof.
  intros He (Hd & Hs & Hc). repeat split; auto.
  cbn [console consoleLog]. rewrite !map_app, Hc. cbn [map]. now rewrite He.
Qed.

Lemma StepsAgree_assign (v : option Element) (wd wm : World Doc) :
  (m < List.length (managers wm))%nat ->
  Mirrors m wd wm ->
  StepsAgree m wd wm (setSavedFocusElement v wd) (setSavedElement m v wm).
Proof.
  intros Hlt (Hd & Hs & Hc). repeat split; auto.
  - cbn [savedFocusElement setSavedFocusElement]. now rewrite savedElement_set_same.
  - cbn [managers setSavedElement setManagers]. apply assignNth_length.
  - intros k Hk. now apply savedElement_set_other.
Qed.

Lemma StepsAgree_length (wd wm wd' wm' : World Doc) :
  StepsAgree m wd wm wd' wm' ->
  (m < List.length (managers wm))%nat -> (m < List.length (managers wm'))%nat.
Proof. intros (_ & (_ & L & _) & _) Hlt. now rewrite L. Qed.
Lemma StepsAgree_mirrors (wd wm wd' wm' : World Doc) :
  StepsAgree m wd wm wd' wm' -> Mirrors m wd' wm'.
Proof. now intros (M & _). Qed.

(** Run the same [focus()] call in both worlds; two goals remain, one for
    the normal completion and one for the throw. *)
Ltac both_focus fb scroll wd1 wm1 Hstep :=
  let Hc := fresh "Hc" in
  let Hs := fresh "Hs" in
  let c := fresh "c" in
  let wd2 := fresh "wd" in
  let wm2 := fresh "wm" in
  destruct (StepsAgree_focus fb scroll wd1 wm1 (StepsAgree_mirrors _ _ _ _ Hstep))
    as [Hc Hs];
  destruct (focusElement fb scroll wd1) as [c wd2];
  let c' := fresh "c" in
  destruct (focusElement fb scroll wm1) as [c' wm2];
  cbn [fst snd] in Hc, Hs; subst c';
  pose proof (StepsAgree_trans _ _ _ _ _ _ Hstep Hs);
  destruct c as [?|?error].

Lemma tails_agree (wd wm wd1 wm1 : World Doc) :
  (m < List.length (managers wm))%nat ->
  StepsAgree m wd wm wd1 wm1 ->
  RunsAgree m wd wm (returnFocus_tail wd1) (manager_tail m wm1).
Proof.
  intros Hlt Hstep. split; [reflexivity|]. cbn [snd returnFocus_tail manager_tail].
  apply (StepsAgree_trans _ _ _ _ _ _ Hstep).
  apply StepsAgree_assign.
  - now apply (StepsAgree_length _ _ _ _ Hstep).
  - now apply (StepsAgree_mirrors _ _ _ _ Hstep).
Qed.

Lemma StepsAgree_then_log (ed em : LogEntry) (wd wm wd1 wm1 : World Doc) :
  thrownBy ed = thrownBy em ->
  StepsAgree m wd wm wd1 wm1 ->
  StepsAgree m wd wm (consoleLog [ed] wd1) (consoleLog [em] wm1).
Proof.
  intros He Hstep. apply (StepsAgree_trans _ _ _ _ _ _ Hstep).
  apply StepsAgree_log; [assumption|]. now apply (StepsAgree_mirrors _ _ _ _ Hstep).
Qed.

Lemma catches_agree (error : Exn) (scroll : bool) (fallback : option Element)
    (wd wm wd1 wm1 : World Doc) :
  (m < List.length (managers wm))%nat ->
  StepsAgree m wd wm wd1 wm1 ->
  RunsAgree m wd wm (returnFocus_catch error scroll fallback wd1)
                    (manager_catch m error scroll fallback wm1).
Proof.
  intros Hlt Hstep. unfold returnFocus_catch, manager_catch.
  pose proof (StepsAgree_then_log
                (ConsoleError "Error returning focus:" error)
                (ConsoleError "Error returning focus in focus manager:" error)
                _ _ _ _ eq_refl Hstep) as Hlog.
  destruct fallback as [fb|]; [|now apply tails_agree].
  both_focus fb (Some scroll)
    (consoleLog [ConsoleError "Error returning focus:" error] wd1)
    (consoleLog [ConsoleError "Error returning focus in focus manager:" error] wm1)
    Hlog.
  - split; [reflexivity | assumption].
  - apply tails_agree; [assumption|]. now apply StepsAgree_then_log.
Qed.

Lemma returnFocus_agree (options : ReturnFocusOptions) (wd wm : World Doc) :
  (m < List.length (managers wm))%nat ->
  Mirrors m wd wm ->
  RunsAgree m wd wm (returnFocus options wd) (manager_returnFocus m options wm).
Proof.
  intros Hlt Hm. pose proof (StepsAgree_refl wd wm Hm) as H0.
  destruct Hm as (Hd & Hs & Hc).
  unfold returnFocus, manager_returnFocus. rewrite <- Hd, <- Hs.
  destruct (document wd) as [d|]; [|now split].
  set (scroll := withDefault true (preventScroll options)).
  destruct (savedFocusElement wd) as [saved|].
  - both_focus saved (Some scroll) wd wm H0; [|now apply catches_agree].
    assert (Hact : documentActiveIs saved wd0 = documentActiveIs saved wm0).
    { unfold documentActiveIs.
      now rewrite (proj1 (StepsAgree_mirrors _ _ _ _ H1)). }
    rewrite <- Hact. destruct (documentActiveIs saved wd0).
    + apply (tails_agree wd wm wd0 wm0 Hlt) in H1. destruct H1 as [_ H1].
      split; [reflexivity | exact H1].
    + destruct (resolveFallback options d) as [fb|]; [|now apply tails_agree].
      both_focus fb (Some scroll) wd0 wm0 H1; [now split | now apply catches_agree].
  - destruct (resolveFallback options d) as [fb|]; [|now split].
    both_focus fb (Some scroll) wd wm H0; now split.
Qed.

Lemma saveFocus_agree (wd wm : World Doc) :
  (m < List.length (managers wm))%nat ->
  Mirrors m wd wm ->
  RunsAgree m wd wm (saveFocus wd) (manager_saveFocus m wm).
Proof.
  intros Hlt Hm. pose proof Hm as (Hd & Hs & Hc).
  unfold saveFocus, manager_saveFocus. rewrite <- Hd.
  destruct (document wd) as [d|]; [|split; [reflexivity | now apply StepsAgree_refl]].
  split.
  - cbn [fst savedFocusElement setSavedFocusElement].
    now rewrite savedElement_set_same.
  - cbn [snd]. now apply StepsAgree_assign.
Qed.
End Refinement.

(** C8. The [saveFocus]/[returnFocus] pair of a focus manager does what the
    module-level pair does, on its own slot: started in worlds that show the
    same document and the same saved element (the manager in its slot, the
    default instance in [savedFocusElement]), both calls complete alike --
    same value returned or same exception thrown -- and leave the same
    document, the same saved element in the respective slot and the same
    errors on the console.  The manager writes no slot but its own, the
    default instance no manager's. *)
Theorem C8_manager_pair_matches_default_pair {Doc : Type} `{FocusModel Doc}
    (m : FocusManager) (wd wm : World Doc) (options : ReturnFocusOptions) :
  (m < List.length (managers wm))%nat ->
  Mirrors m wd wm ->
  RunsAgree m wd wm (saveFocus wd) (manager_saveFocus m wm)
  /\ RunsAgree m wd wm (returnFocus options wd) (manager_returnFocus m options wm).
Proof.
  intros Hlt Hm. split.
  - now apply saveFocus_agree.
  - now apply returnFocus_agree.
Qed.

Lemma C8_witness :
  RunsAgree 1 Fixture.staleWorld Fixture.managedWorld
    (returnFocus noOptions Fixture.staleWorld)
    (manager_returnFocus 1 noOptions Fixture.managedWorld).
Proof.
  apply (C8_manager_pair_matches_default_pair 1 Fixture.staleWorld Fixture.managedWorld
           noOptions).
  - apply le_n.
  - repeat split.
Defined.

(* ===================================================================== *)
(** ** Trap controller: Tab handling *)
(* ===================================================================== *)

(** C5. With the trap active and a container bound, the handler treats a Tab
    keydown as follows.  No tabbable element: [preventDefault()] and
    [focus()] on the container.  Shift held and the active element is the
    first tabbable element: [preventDefault()] and [focus()] on the last.
    Shift not held and the active element is the last: [preventDefault()] and
    [focus()] on the first.  Any other Tab: the event is left as it was and
    no [focus()] call is made. *)
Theorem C5_tab_wraps_at_the_ends {Doc : Type} `{FocusModel Doc}
    (current : Element * list Node) (onEscapeKey : option EscapeCallback)
    (event : KeyboardEvent) (w : World Doc) :
  key event = "Tab" ->
  let enumerated :=
    callGetFocusableElements (Some (containerOf current)) (mkGetOptions (Some true) None) w in
  let tabbableElements := fst enumerated in
  let w1 := snd enumerated in
  let outcome := handleKeyDown true (Some current) onEscapeKey event w in
  let preventAndFocus (target : Element) :=
    (fst (focusElement target None w1),
     (preventDefault event, snd (focusElement target None w1))) in
  let leftAlone := (Normal tt, (event, w1)) in
  document w1 = document w
  /\ (tabbableElements = [] -> outcome = preventAndFocus (fst current))
  /\ (forall firstElement rest,
        tabbableElements = firstElement :: rest ->
        let lastElement := last tabbableElements firstElement in
        (shiftKey event = true -> documentActiveIs firstElement w1 = true ->
         outcome = preventAndFocus lastElement)
        /\ (shiftKey event = false -> documentActiveIs lastElement w1 = true ->
            outcome = preventAndFocus firstElement)
        /\ (shiftKey event = true -> documentActiveIs firstElement w1 = false ->
            outcome = leftAlone)
        /\ (shiftKey event = false -> documentActiveIs lastElement w1 = false ->
            outcome = leftAlone)).
Proof.
  intros Hkey enumerated tabbableElements w1 outcome preventAndFocus leftAlone.
  assert (Hout : outcome
                 = match tabbableElements with
                   | [] => preventAndFocus (fst current)
                   | firstElement :: _ =>
                       let lastElement := last tabbableElements firstElement in
                       if shiftKey event then
                         if documentActiveIs firstElement w1
                         then preventAndFocus lastElement else leftAlone
                       else
                         if documentActiveIs lastElement w1
                         then preventAndFocus firstElement else leftAlone
                   end).
  { subst outcome preventAndFocus leftAlone tabbableElements w1.
    unfold handleKeyDown. cbn [negb]. rewrite Hkey. cbn [String.eqb Ascii.eqb Bool.eqb negb].
    fold enumerated. destruct enumerated as [[|firstElement rest] w1]; cbn [fst snd].
    - now destruct (focusElement (fst current) None w1).
    - cbv zeta. destruct (shiftKey event).
      + destruct (documentActiveIs firstElement w1); [|reflexivity].
        now destruct (focusElement (last (firstElement :: rest) firstElement) None w1).
      + destruct (documentActiveIs (last (firstElement :: rest) firstElement) w1);
          [|reflexivity].
        now destruct (focusElement firstElement None w1). }
  split.
  { subst w1 enumerated. unfold callGetFocusableElements.
    now destruct (getFocusableElements _ _ _). }
  split.
  - intro Hnone. now rewrite Hout, Hnone.
  - intros firstElement rest Hsome lastElement. subst lastElement.
    rewrite Hout, Hsome. cbv zeta.
    repeat split; intros Hshift Hactive; now rewrite Hshift, Hactive.
Qed.

Lemma C5_witness :
  handleKeyDown true (Some Fixture.trapCurrent) None Fixture.shiftTab
    (Fixture.trapWorld Fixture.trapA)
  = (Normal tt, (preventDefault Fixture.shiftTab, Fixture.trapWorld Fixture.trapB))
  /\ handleKeyDown true (Some Fixture.trapCurrent) None Fixture.plainTab
       (Fixture.trapWorld Fixture.trapB)
     = (Normal tt, (preventDefault Fixture.plainTab, Fixture.trapWorld Fixture.trapA)).
Proof.
  split.
  - pose proof (C5_tab_wraps_at_the_ends Fixture.trapCurrent None Fixture.shiftTab
                  (Fixture.trapWorld Fixture.trapA) eq_refl) as R.
    cbv zeta in R. destruct R as (_ & _ & R).
    destruct (R Fixture.trapA [Fixture.trapB] eq_refl) as (Hwrap & _).
    exact (Hwrap eq_refl eq_refl).
  - pose proof (C5_tab_wraps_at_the_ends Fixture.trapCurrent None Fixture.plainTab
                  (Fixture.trapWorld Fixture.trapB) eq_refl) as R.
    cbv zeta in R. destruct R as (_ & _ & R).
    destruct (R Fixture.trapA [Fixture.trapB] eq_refl) as (_ & Hwrap & _).
    exact (Hwrap eq_refl eq_refl).
Defined.

(* ===================================================================== *)
(** ** First-focus director properties *)
(* ===================================================================== *)

Section DirectorFacts.
Context {Doc : Type} `{FocusModel Doc}.

(** The selector loop only ever answers with an element it has just seen
    become the active element. *)
Lemma focusEachUntilActive_verified (elements : list Element) (scroll : bool)
    (w w' : World Doc) (e : Element) :
  focusEachUntilActive elements scroll w = (Some e, w') ->
  In e elements /\ documentActiveIs e w' = true.
Proof.
  revert w. induction elements as [|x rest IH]; intros w Hrun; cbn [focusEachUntilActive] in Hrun.
  - discriminate.
  - destruct (focusElement x (Some scroll) w) as [[u|err] w1].
    + destruct (documentActiveIs x w1) eqn:Hact.
      * injection Hrun as <- <-. split; [now left | assumption].
      * destruct (IH _ Hrun) as [Hin Hv]. split; [now right | assumption].
    + destruct (IH _ Hrun) as [Hin Hv]. split; [now right | assumption].
Qed.
End DirectorFacts.

(** C10. [focusFirstElement] returns the first enumerated element as soon as
    its [focus()] call returns, whatever the document looks like afterwards:
    it does not consult [document.activeElement], so an attempt that silently
    failed is still reported as a success.  [focusFirstElementBySelector]
    returns an element only when [document.activeElement] is that element
    after its [focus()] call, and goes on to the next candidate otherwise:
    with a non-empty selector, a document and a query that returns, its
    result is that of the loop over the matches; the loop returns its first
    candidate, in the world [focus()] left, when the call returned and the
    candidate is the active element afterwards; it continues with the
    remaining candidates when the call threw or the candidate is not the
    active element; and it returns null when no candidate is left. *)
Theorem C10_first_unverified_selector_verified :
  (forall (Doc : Type) (FM : FocusModel Doc) (container : Container)
          (options : FocusFirstElementOptions) (w : World Doc) (d d' : Doc)
          (first : Element) (rest : list Element) (lines : Console),
      document w = Some d ->
      getFocusableElements
        (mkGetOptions (Some (withDefault true (ffOnlyTabbable options)))
                      (Some (withDefault true (ffIncludeShadowDOM options))))
        true (Some container) = (first :: rest, lines) ->
      focus first (Some (withDefault true (ffPreventScroll options))) d = (Normal tt, d') ->
      focusFirstElement (Some container) options w
      = (Normal (Some first), setDocument d' (consoleLog lines w)))
  /\ (exists w',
        focusFirstElement (Some (containerOf Fixture.trapCurrent)) noFirstOptions
          Fixture.refusingWorld = (Normal (Some Fixture.trapA), w')
        /\ documentActiveIs Fixture.trapA w' = false)
  /\ (forall (Doc : Type) (FM : FocusModel Doc) (SM : SelectorModel)
             (container : option Container) (selector : string)
             (options : FocusFirstElementOptions) (w w' : World Doc) (e : Element),
        focusFirstElementBySelector container selector options w = (Normal (Some e), w') ->
        documentActiveIs e w' = true)
  /\ (forall (Doc : Type) (FM : FocusModel Doc) (e : Element) (rest : list Element)
             (scroll : bool) (w w1 : World Doc) (c : Completion unit),
        focusElement e (Some scroll) w = (c, w1) ->
        documentActiveIs e w1 = false \/ (exists error, c = Throw error) ->
        focusEachUntilActive (e :: rest) scroll w = focusEachUntilActive rest scroll w1)
  /\ (forall (Doc : Type) (FM : FocusModel Doc) (SM : SelectorModel)
             (c : Container) (selector : string) (options : FocusFirstElementOptions)
             (w : World Doc) (d : Doc) (elements : list Element),
        selector <> "" ->
        document w = Some d ->
        querySelectorAll c selector = inr elements ->
        focusFirstElementBySelector (Some c) selector options w
        = (Normal (fst (focusEachUntilActive elements
                          (withDefault true (ffPreventScroll options)) w)),
           snd (focusEachUntilActive elements
                  (withDefault true (ffPreventScroll options)) w)))
  /\ (forall (Doc : Type) (FM : FocusModel Doc) (e : Element) (rest : list Element)
             (scroll : bool) (w w1 : World Doc) (u : unit),
        focusElement e (Some scroll) w = (Normal u, w1) ->
        documentActiveIs e w1 = true ->
        focusEachUntilActive (e :: rest) scroll w = (Some e, w1))
  /\ (forall (Doc : Type) (FM : FocusModel Doc) (scroll : bool) (w : World Doc),
        focusEachUntilActive [] scroll w = (None, w)).
Proof.
  split; [|split; [|split; [|split; [|split; [|split]]]]].
  - intros Doc FM container options w d d' first rest lines Hd Henum Hfocus.
    unfold focusFirstElement, callGetFocusableElements, hasDocument.
    rewrite Hd, Henum. cbn [consoleLog].
    rewrite (focusElement_run first _ _ d) by exact Hd.
    now rewrite Hfocus.
  - eexists. split; reflexivity.
  - intros Doc FM SM container selector options w w' e Hrun.
    unfold focusFirstElementBySelector in Hrun.
    destruct container as [c|]; [|discriminate].
    destruct (String.eqb selector ""); [discriminate|].
    destruct (document w); [|discriminate].
    destruct (querySelectorAll c selector) as [err|elements]; [discriminate|].
    destruct (focusEachUntilActive elements _ w) as [found w2] eqn:Hloop.
    injection Hrun as -> ->.
    now apply (focusEachUntilActive_verified _ _ _ _ _ Hloop).
  - intros Doc FM e rest scroll w w1 c Hfocus Hfail.
    cbn [focusEachUntilActive]. rewrite Hfocus.
    destruct c as [u|error]; [|reflexivity].
    destruct Hfail as [-> | [error Habs]]; [reflexivity | discriminate].
  - intros Doc FM SM c selector options w d elements Hsel Hd Hquery.
    unfold focusFirstElementBySelector.
    apply String.eqb_neq in Hsel. rewrite Hsel, Hd, Hquery.
    now destruct (focusEachUntilActive elements _ w).
  - intros Doc FM e rest scroll w w1 u Hfocus Hactive.
    cbn [focusEachUntilActive]. now rewrite Hfocus, Hactive.
  - reflexivity.
Qed.

Lemma C10_witness :
  fst (focusFirstElement (Some (containerOf Fixture.trapCurrent)) noFirstOptions
         Fixture.refusingWorld) = Normal (Some Fixture.trapA)
  /\ focusFirstElementBySelector (Some (containerOf Fixture.trapCurrent)) "button"
       noFirstOptions Fixture.refusingWorld
     = (Normal (Some Fixture.trapB),
        setDocument
          (Fixture.mkSimpleDoc (Some Fixture.trapB) (Some Fixture.bodyEl) [] [1])
          Fixture.refusingWorld)
  /\ documentActiveIs Fixture.trapA
       (snd (focusFirstElementBySelector (Some (containerOf Fixture.trapCurrent)) "button"
               noFirstOptions Fixture.refusingWorld)) = false
  /\ documentActiveIs Fixture.trapB
       (snd (focusFirstElementBySelector (Some (containerOf Fixture.trapCurrent)) "button"
               noFirstOptions Fixture.refusingWorld)) = true.
Proof.
  destruct C10_first_unverified_selector_verified
    as (Hfirst & _ & Hverified & Hnext & Hloop & Hfound & _).
  split; [|split; [|split]].
  - rewrite (Hfirst Fixture.SimpleDoc Fixture.simpleModel
               (containerOf Fixture.trapCurrent) noFirstOptions Fixture.refusingWorld
               (Fixture.mkSimpleDoc (Some Fixture.bodyEl) (Some Fixture.bodyEl) [] [1])
               (Fixture.mkSimpleDoc (Some Fixture.bodyEl) (Some Fixture.bodyEl) [] [1])
               Fixture.trapA [Fixture.trapB] [] eq_refl eq_refl eq_refl).
    reflexivity.
  - rewrite (Hloop Fixture.SimpleDoc Fixture.simpleModel Fixture.tagSelectors
               (containerOf Fixture.trapCurrent) "button" noFirstOptions
               Fixture.refusingWorld
               (Fixture.mkSimpleDoc (Some Fixture.bodyEl) (Some Fixture.bodyEl) [] [1])
               [Fixture.trapA; Fixture.trapB]
               ltac:(discriminate) eq_refl eq_refl).
    change (withDefault true (ffPreventScroll noFirstOptions)) with true.
    rewrite (Hnext Fixture.SimpleDoc Fixture.simpleModel Fixture.trapA [Fixture.trapB]
               true Fixture.refusingWorld Fixture.refusingWorld (Normal tt)
               eq_refl (or_introl eq_refl)).
    rewrite (Hfound Fixture.SimpleDoc Fixture.simpleModel Fixture.trapB [] true
               Fixture.refusingWorld
               (setDocument
                  (Fixture.mkSimpleDoc (Some Fixture.trapB) (Some Fixture.bodyEl) [] [1])
                  Fixture.refusingWorld)
               tt eq_refl eq_refl).
    reflexivity.
  - reflexivity.
  - apply (Hverified Fixture.SimpleDoc Fixture.simpleModel Fixture.tagSelectors
             (Some (containerOf Fixture.trapCurrent)) "button"
             noFirstOptions Fixture.refusingWorld).
    reflexivity.
Defined.

(* ===================================================================== *)
(** ** Further properties of the classifier *)
(* ===================================================================== *)

Lemma isStr_false (x : option string) (lit : string) :
  isStr x lit = false <-> x <> Some lit.
Proof.
  split.
  - intros E F. apply isStr_true in F. congruence.
  - intro N. destruct (isStr x lit) eqn:E; [|reflexivity].
    apply isStr_true in E. contradiction.
Qed.

Lemma parentIsHidden_iff (a : Element) : parentIsHidden a = true <-> HiddenMarker a.
Proof.
  split; [|apply HiddenMarker_parentIsHidden].
  unfold parentIsHidden, HiddenMarker. intro E.
  apply orb_prop in E. destruct E as [E | E]; [|now right; right; left].
  apply orb_prop in E. destruct E as [E | E]; [|now right; left].
  apply orb_prop in E. destruct E as [E | E]; [|now left].
  right; right; right. now apply isStr_true.
Qed.

(** The ancestor loop rejects only when some element of the chain carries a
    hidden marker. *)
Lemma ancestorLoopRejects_found (p : Element) :
  ancestorLoopRejects p = true ->
  exists a, (a = p \/ In a (ancestors p)) /\ HiddenMarker a.
Proof.
  induction p as [d | d q IH] using Element_chain_ind; simpl; intro E.
  - destruct (parentIsHidden (mkElement d None)) eqn:Hp; [|discriminate].
    exists (mkElement d None). split; [now left | now apply parentIsHidden_iff].
  - destruct (parentIsHidden (mkElement d (Some q))) eqn:Hp.
    + exists (mkElement d (Some q)). split; [now left | now apply parentIsHidden_iff].
    + destruct (IH E) as [a [Hin Ha]]. exists a. split; [|assumption].
      right. destruct Hin as [-> | Hin]; [now left | now right].
Qed.

Lemma selfHidden_iff (e : Element) :
  (hasAttribute e "hidden" || styleDisplayIs e "none" || styleVisibilityIs e "hidden"
   || isStr (getAttribute e "aria-hidden") "true") = true
  <-> HiddenMarker e.
Proof.
  rewrite <- parentIsHidden_iff. unfold parentIsHidden.
  destruct (hasAttribute e "hidden"), (styleDisplayIs e "none"),
    (styleVisibilityIs e "hidden"), (isStr (getAttribute e "aria-hidden") "true");
    simpl; tauto.
Qed.

(** X1. [isFocusable] answers [true] exactly for an element that is connected,
    does not carry [tabindex="-1"], carries no hidden marker, is not
    disabled, has no ancestor with a hidden marker, and either has a
    [tabindex] that [parseInt] reads as a non-negative integer or is
    focusable by its tag. *)
Theorem isFocusable_iff (e : Element) :
  isFocusable (Some e) = true
  <-> isConnected (node e) = true
      /\ getAttribute e "tabindex" <> Some "-1"
      /\ ~ HiddenMarker e
      /\ disabled (node e) = false
      /\ (forall a, In a (ancestors e) -> ~ HiddenMarker a)
      /\ ((exists t n, getAttribute e "tabindex" = Some t
                       /\ Js.parseInt10 t = Some n /\ (0 <= n)%Z)
          \/ focusableByTag e (Js.toLowerCase (tagName (node e))) = true).
Proof.
  unfold isFocusable.
  destruct (isConnected (node e)); cbn [negb]; [|split; [discriminate | intros [E _]; discriminate]].
  destruct (isStr (getAttribute e "tabindex") "-1") eqn:Hm1.
  { apply isStr_true in Hm1. split; [discriminate | intros (_ & N & _); contradiction]. }
  apply isStr_false in Hm1.
  destruct (hasAttribute e "hidden" || styleDisplayIs e "none" || styleVisibilityIs e "hidden")
    eqn:Hvis.
  { split; [discriminate|]. intros (_ & _ & N & _). exfalso. apply N.
    apply selfHidden_iff. now rewrite Hvis. }
  destruct (isStr (getAttribute e "aria-hidden") "true") eqn:Haria.
  { split; [discriminate|]. intros (_ & _ & N & _). exfalso. apply N.
    apply selfHidden_iff. rewrite Haria. apply orb_true_r. }
  assert (Hself : ~ HiddenMarker e).
  { intro M. apply selfHidden_iff in M. rewrite Hvis, Haria in M. discriminate. }
  destruct (disabled (node e)); [split; [discriminate | intros (_ & _ & _ & E & _); discriminate]|].
  assert (Hanc : match parentElement e with
                 | Some parent => ancestorLoopRejects parent
                 | None => false
                 end = false
                 <-> forall a, In a (ancestors e) -> ~ HiddenMarker a).
  { destruct e as [d [p|]]; cbn [parentElement ancestors].
    - split.
      + intros Hloop a Hin M.
        rewrite (ancestorLoopRejects_hits p a) in Hloop; [discriminate | | ].
        * destruct Hin as [<- | Hin]; auto.
        * now apply parentIsHidden_iff.
      + intro Hall. destruct (ancestorLoopRejects p) eqn:Hloop; [|reflexivity].
        destruct (ancestorLoopRejects_found p Hloop) as [a [Hin M]].
        exfalso. apply (Hall a); [|assumption].
        destruct Hin as [-> | Hin]; [now left | now right].
    - split; [intros _ a [] | reflexivity]. }
  destruct (match parentElement e with
            | Some parent => ancestorLoopRejects parent
            | None => false
            end).
  { split; [discriminate|]. intros (_ & _ & _ & _ & Hall & _).
    apply Hanc in Hall. discriminate. }
  assert (Hall : forall a, In a (ancestors e) -> ~ HiddenMarker a) by now apply Hanc.
  cbv zeta.
  destruct (getAttribute e "tabindex") as [t|] eqn:Ht.
  - assert (Hne : String.eqb t "-1" = false).
    { apply String.eqb_neq. congruence. }
    rewrite Hne. cbn [negb andb].
    destruct (Js.parseInt10 t) as [n|] eqn:Hp.
    + destruct (0 <=? n)%Z eqn:Hn.
      * split; [|reflexivity]. intros _. repeat split; auto.
        left. exists t, n. repeat split; auto. now apply Z.leb_le.
      * split.
        -- intro F. repeat split; auto.
        -- intros (_ & _ & _ & _ & _ & [(t' & n' & Ht' & Hp' & Hn') | F]); [|exact F].
           injection Ht' as <-. rewrite Hp in Hp'. injection Hp' as <-.
           apply Z.leb_le in Hn'. congruence.
    + split.
      * intro F. repeat split; auto.
      * intros (_ & _ & _ & _ & _ & [(t' & n' & Ht' & Hp' & _) | F]); [|exact F].
        injection Ht' as <-. congruence.
  - split.
    + intro F. repeat split; auto.
    + intros (_ & _ & _ & _ & _ & [(t' & n' & Ht' & _) | F]); [discriminate | exact F].
Qed.

Lemma isFocusable_iff_witness : isFocusable (Some Fixture.tabbableDiv) = true.
Proof.
  apply (proj2 (isFocusable_iff Fixture.tabbableDiv)).
  split; [reflexivity|]. split; [discriminate|].
  split; [intros [M | [M | [M | M]]]; discriminate|].
  split; [reflexivity|]. split.
  - intros a [<- | []]. intros [M | [M | [M | M]]]; discriminate.
  - left. exists "0", 0%Z. repeat split. discriminate.
Defined.

(** What [isFocusable] has already excluded when it answers [true]. *)
Lemma isFocusable_true_guards (e : Element) :
  isFocusable (Some e) = true ->
  isStr (getAttribute e "tabindex") "-1" = false /\ disabled (node e) = false.
Proof.
  unfold isFocusable. intro F.
  destruct (isConnected (node e)); [|discriminate]. cbn [negb] in F.
  destruct (isStr (getAttribute e "tabindex") "-1"); [discriminate|].
  destruct (hasAttribute e "hidden" || styleDisplayIs e "none" || styleVisibilityIs e "hidden");
    [discriminate|].
  destruct (isStr (getAttribute e "aria-hidden") "true"); [discriminate|].
  destruct (disabled (node e)); [discriminate|]. now split.
Qed.

(** What lets [isFocusable] answer [true]: a [tabindex] attribute, or the
    tag rule. *)
Lemma isFocusable_true_grant (e : Element) :
  isFocusable (Some e) = true ->
  hasAttribute e "tabindex" = true
  \/ focusableByTag e (Js.toLowerCase (tagName (node e))) = true.
Proof.
  unfold isFocusable. intro F.
  repeat match type of F with
         | (if ?c then false else _) = true => destruct c; [discriminate|]
         end.
  cbv zeta in F. unfold hasAttribute.
  destruct (getAttribute e "tabindex") as [t|]; [now left|]. now right.
Qed.

(** X2. [isTabbable] is [isFocusable] minus two kinds of element: links and
    areas without [href], and inputs of type hidden (both focusable only
    through a non-negative [tabindex]).  Its own [tabindex="-1"] and
    [disabled] tests never decide: [isFocusable] has rejected those
    elements before. *)
Theorem isTabbable_decomposition (e : Element) :
  isTabbable (Some e)
  = isFocusable (Some e) && negb (linkWithoutHref e) && negb (hiddenInput e).
Proof.
  unfold isTabbable, linkWithoutHref, hiddenInput.
  destruct (isFocusable (Some e)) eqn:F; [|reflexivity].
  destruct (isFocusable_true_guards e F) as [-> ->]. cbn [negb andb].
  set (tag := Js.toLowerCase (tagName (node e))).
  destruct (String.eqb tag "a") eqn:Ea.
  { apply String.eqb_eq in Ea. rewrite Ea. cbn.
    now destruct (hasAttribute e "href"). }
  destruct (String.eqb tag "area") eqn:Eb.
  { apply String.eqb_eq in Eb. rewrite Eb. cbn.
    now destruct (hasAttribute e "href"). }
  cbn [orb andb negb].
  destruct (String.eqb tag "input") eqn:Ei; [reflexivity|].
  cbn [andb negb].
  now destruct (String.eqb tag "button" || String.eqb tag "select" || String.eqb tag "textarea").
Qed.

Lemma tabindex_matches_allow_list (e : Element) :
  hasAttribute e "tabindex" = true -> matchesPotentiallyFocusable e = true.
Proof.
  intro Ht. unfold matchesPotentiallyFocusable, POTENTIALLY_FOCUSABLE_SELECTORS.
  cbn [existsb matchesSelector]. rewrite Ht. cbn [orb]. now rewrite !orb_true_r.
Qed.

Lemma focusableByTag_matches_allow_list (e : Element) :
  focusableByTag e (Js.toLowerCase (tagName (node e))) = true ->
  matchesPotentiallyFocusable e = true.
Proof.
  intro Htag. unfold focusableByTag in Htag.
  unfold matchesPotentiallyFocusable, POTENTIALLY_FOCUSABLE_SELECTORS.
  cbn [existsb matchesSelector].
  set (tag := Js.toLowerCase (tagName (node e))) in *.
  repeat match type of Htag with
         | (if ?c then _ else _) = true =>
             let E := fresh "E" in
             destruct c eqn:E;
             [ repeat match type of E with
                      | (_ || _) = true =>
                          apply orb_prop in E; destruct E as [E | E]
                      end;
               rewrite ?E, ?Htag; cbn [orb andb]; now rewrite ?orb_true_r
             | repeat match type of E with
                      | (_ || _) = false =>
                          apply orb_false_elim in E; destruct E as [? E]
                      end ]
         end.
  rewrite Htag. cbn [orb]. now rewrite !orb_true_r.
Qed.

(** X3. The allow-list is complete for the classifier: every element
    [isFocusable] accepts matches POTENTIALLY_FOCUSABLE_SELECTORS, so the
    pre-filter of the enumerator never hides a focusable element. *)
Theorem focusable_matches_allow_list (e : Element) :
  isFocusable (Some e) = true -> matchesPotentiallyFocusable e = true.
Proof.
  intro F. destruct (isFocusable_true_grant e F) as [Ht | Htag].
  - now apply tabindex_matches_allow_list.
  - now apply focusableByTag_matches_allow_list.
Qed.

Lemma focusable_matches_allow_list_witness :
  matchesPotentiallyFocusable Fixture.tabbableDiv = true.
Proof. apply focusable_matches_allow_list. reflexivity. Defined.

(* ===================================================================== *)
(** ** Further properties of the enumerator *)
(* ===================================================================== *)

Lemma isElementFocusable_matches options (e : Element) :
  isElementFocusable options e = true -> matchesPotentiallyFocusable e = true.
Proof.
  unfold isElementFocusable. intro Hp.
  assert (F : isFocusable (Some e) = true).
  { destruct (withDefault false (onlyTabbable options)); [|assumption].
    now apply isTabbable_isFocusable. }
  destruct (isFocusable_true_grant e F) as [Ht | Htag].
  - now apply tabindex_matches_allow_list.
  - now apply focusableByTag_matches_allow_list.
Qed.

Lemma In_enumerated_iff options self content (e : Element) :
  In e (fst (getFocusableElements options true (Some (DomContainer self content))))
  <-> In e (candidateElements options self content) /\ isElementFocusable options e = true.
Proof.
  rewrite getFocusableElements_sorted_filter, <- filter_In.
  split; apply Permutation_in; [|symmetry]; apply arraySort_perm.
Qed.

(** X4. With [includeShadowDOM: false] a DOM container yields exactly its
    descendants that pass the classifier -- the allow-list hides none of
    them -- and nothing is written to the console: no [shadowRoot] getter is
    read, so a throwing one does no harm. *)
Theorem light_dom_enumeration_exact (options : GetFocusableElementsOptions)
    (self : option Element) (content : list Node) :
  includeShadowDOM options = Some false ->
  snd (getFocusableElements options true (Some (DomContainer self content))) = []
  /\ forall e,
       In e (fst (getFocusableElements options true (Some (DomContainer self content))))
       <-> In e (map fst (allDescendants self content))
           /\ isElementFocusable options e = true.
Proof.
  intro Hoff. split.
  - unfold getFocusableElements, tryBlock, tryEnumerate. now rewrite Hoff.
  - intro e. rewrite In_enumerated_iff. unfold candidateElements. rewrite Hoff.
    cbn [withDefault]. rewrite filter_In. split.
    + now intros [[Hin _] Hp].
    + intros [Hin Hp]. repeat split; auto. now apply isElementFocusable_matches with options.
Qed.

Lemma light_dom_enumeration_exact_witness :
  snd (getFocusableElements (mkGetOptions None (Some false)) true
         (Some (DomContainer (Some Fixture.containerEl) Fixture.hostileProbeContent))) = []
  /\ In (mkElement (Fixture.plain 1 "BUTTON" []) (Some Fixture.containerEl))
        (fst (getFocusableElements (mkGetOptions None (Some false)) true
                (Some (DomContainer (Some Fixture.containerEl) Fixture.hostileProbeContent)))).
Proof.
  destruct (light_dom_enumeration_exact (mkGetOptions None (Some false))
              (Some Fixture.containerEl) Fixture.hostileProbeContent eq_refl) as [Hlog Hin].
  split; [exact Hlog|]. apply Hin. split; [now left | reflexivity].
Defined.

(** X5. Whenever the [try] block of a call on a DOM container does not throw,
    every descendant of the container that passes the classifier is
    returned: neither the allow-list nor a failure inside a nested shadow root
    loses a light-DOM element. *)
Theorem light_dom_elements_all_returned (options : GetFocusableElementsOptions)
    (self : option Element) (content : list Node) (e : Element)
    (result : list Element * Console) :
  tryBlock options (DomContainer self content) = inr result ->
  In e (map fst (allDescendants self content)) ->
  isElementFocusable options e = true ->
  In e (fst (getFocusableElements options true (Some (DomContainer self content)))).
Proof.
  intros Htry Hin Hp. apply In_enumerated_iff. split; [|assumption].
  assert (Hpot : In e (filter matchesPotentiallyFocusable
                         (map fst (allDescendants self content)))).
  { apply filter_In. split; [assumption|]. now apply isElementFocusable_matches with options. }
  unfold candidateElements.
  unfold tryBlock, tryEnumerate in Htry.
  destruct (withDefault true (includeShadowDOM options)); [|assumption].
  destruct (filterShadowHosts (allDescendants self content)); [discriminate|].
  apply in_or_app. now left.
Qed.

Lemma light_dom_elements_all_returned_witness :
  In Fixture.lightButton
     (fst (getFocusableElements (mkGetOptions None None) true
             (Some (DomContainer (Some Fixture.containerEl) Fixture.nestedFailureContent))))
  /\ snd (getFocusableElements (mkGetOptions None None) true
            (Some (DomContainer (Some Fixture.containerEl) Fixture.nestedFailureContent)))
     = [ConsoleError "Error in getFocusableElements:" "probe failed"].
Proof.
  split; [|reflexivity].
  apply (light_dom_elements_all_returned (mkGetOptions None None)
           (Some Fixture.containerEl) Fixture.nestedFailureContent Fixture.lightButton
           _ eq_refl).
  - now left.
  - reflexivity.
Defined.

Lemma In_recurseIntoAll options (content : list Node) (e : Element) :
  In e (fst (recurseIntoAll options content))
  <-> exists k, In k content /\ In e (fst (recurseIntoShadowRoots options k)).
Proof.
  induction content as [|k r IH].
  - split; [intros [] | intros [k [[] _]]].
  - rewrite recurseIntoAll_cons. cbn [fst appendResults]. rewrite in_app_iff, IH. split.
    + intros [Hk | [k' [Hin Hk']]]; [exists k | exists k']; split; auto; now (left + right).
    + intros [k' [[<- | Hin] Hk']]; [now left | right; now exists k'].
Qed.

(** X6. On the same container and with the same [includeShadowDOM], whatever
    a call with [onlyTabbable] on returns is also returned by a call with
    [onlyTabbable] off, at every level of shadow-root nesting. *)
Theorem tabbable_enumeration_subset (tabbable focusable : GetFocusableElementsOptions)
    (hasDoc : bool) (container : option Container) (e : Element) :
  withDefault false (onlyTabbable tabbable) = true ->
  withDefault false (onlyTabbable focusable) = false ->
  includeShadowDOM tabbable = includeShadowDOM focusable ->
  In e (fst (getFocusableElements tabbable hasDoc container)) ->
  In e (fst (getFocusableElements focusable hasDoc container)).
Proof.
  intros Ht Hf Hincl.
  assert (Hpred : forall x, isElementFocusable tabbable x = true ->
                            isElementFocusable focusable x = true).
  { intro x. unfold isElementFocusable. rewrite Ht, Hf. apply isTabbable_isFocusable. }
  assert (Hlevel : forall self content,
             (forall x, In x (fst (recurseIntoAll tabbable content)) ->
                        In x (fst (recurseIntoAll focusable content))) ->
             forall x,
               In x (fst (catchEnumerate
                            (tryEnumerate tabbable self content
                               (recurseIntoAll tabbable content)))) ->
               In x (fst (catchEnumerate
                            (tryEnumerate focusable self content
                               (recurseIntoAll focusable content))))).
  { intros self content Hrec x. unfold tryEnumerate. rewrite Hincl.
    destruct (withDefault true (includeShadowDOM focusable)).
    - destruct (filterShadowHosts (allDescendants self content)); [intros []|].
      cbn [catchEnumerate fst]. intro Hin.
      apply (Permutation_in _ (arraySort_perm _ _)) in Hin.
      apply (Permutation_in _ (Permutation_sym (arraySort_perm _ _))).
      apply filter_In in Hin. destruct Hin as [Hin Hp]. apply filter_In.
      split; [|now apply Hpred].
      apply in_app_or in Hin. apply in_or_app.
      destruct Hin as [Hin | Hin]; [now left | right; now apply Hrec].
    - cbn [catchEnumerate fst]. intro Hin.
      apply (Permutation_in _ (arraySort_perm _ _)) in Hin.
      apply (Permutation_in _ (Permutation_sym (arraySort_perm _ _))).
      apply filter_In in Hin. destruct Hin as [Hin Hp]. apply filter_In.
      split; [assumption | now apply Hpred]. }
  assert (Hnode : forall n x,
             In x (fst (recurseIntoShadowRoots tabbable n)) ->
             In x (fst (recurseIntoShadowRoots focusable n))).
  { induction n as [d sr kids IHkids IHroot] using Node_shadow_ind. intro x.
    assert (Hall : forall l, Forall (fun n => forall x,
                       In x (fst (recurseIntoShadowRoots tabbable n)) ->
                       In x (fst (recurseIntoShadowRoots focusable n))) l ->
                     forall y, In y (fst (recurseIntoAll tabbable l)) ->
                               In y (fst (recurseIntoAll focusable l))).
    { intros l Hl y Hy. apply In_recurseIntoAll in Hy. destruct Hy as [k [Hk Hy]].
      apply In_recurseIntoAll. exists k. split; [assumption|].
      now apply (proj1 (Forall_forall _ l) Hl k Hk). }
    rewrite !recurseIntoShadowRoots_unfold. cbn [fst appendResults children].
    rewrite !in_app_iff. intros [Hown | Hkids].
    - left. unfold shadowCall in *. cbn [shadowRoot] in *.
      destruct sr as [|mode sc|err]; try contradiction.
      destruct (String.eqb mode "open"); [|contradiction].
      unfold getFocusableElements, tryBlock in *. cbn [negb] in *.
      apply Hlevel; [|assumption]. now apply Hall.
    - right. now apply Hall. }
  destruct container as [[self content | err]|]; destruct hasDoc; try (intros []).
  unfold getFocusableElements, tryBlock. cbn [negb].
  apply Hlevel. intros x Hx.
  apply In_recurseIntoAll in Hx. destruct Hx as [k [Hk Hx]].
  apply In_recurseIntoAll. exists k. split; [assumption | now apply Hnode].
Qed.

Lemma tabbable_enumeration_subset_witness :
  In Fixture.shadowButton
     (fst (getFocusableElements (mkGetOptions None (Some true)) true
             (Some Fixture.shadowTestContainer))).
Proof.
  apply (tabbable_enumeration_subset (mkGetOptions (Some true) (Some true))
           (mkGetOptions None (Some true)) true (Some Fixture.shadowTestContainer)
           Fixture.shadowButton eq_refl eq_refl eq_refl).
  vm_compute. right. left. reflexivity.
Defined.

(** Sorting loses and duplicates nothing: the returned list is a
    permutation of the candidates that passed the classifier. *)
Theorem enumeration_is_permutation_of_filtered (options : GetFocusableElementsOptions)
    (self : option Element) (content : list Node) :
  Permutation
    (fst (getFocusableElements options true (Some (DomContainer self content))))
    (filter (isElementFocusable options) (candidateElements options self content)).
Proof.
  rewrite getFocusableElements_sorted_filter. apply arraySort_perm.
Qed.

Lemma filter_all {A} (f : A -> bool) (l : list A) :
  forallb f l = true -> filter f l = l.
Proof.
  induction l as [|x r IH]; [reflexivity|]. cbn [forallb filter]. intro Hall.
  apply andb_prop in Hall. destruct Hall as [-> Hr]. now rewrite IH.
Qed.

Lemma filter_none {A} (f : A -> bool) (l : list A) :
  forallb (fun x => negb (f x)) l = true -> filter f l = [].
Proof.
  induction l as [|x r IH]; [reflexivity|]. cbn [forallb filter]. intro Hall.
  apply andb_prop in Hall. destruct Hall as [Hx Hr].
  apply negb_true_iff in Hx. rewrite Hx. now apply IH.
Qed.

(** X7. When no candidate that passed the classifier has a positive tab
    index, the sort changes nothing: the result is those candidates in the
    order they were collected (document order, then shadow-root results). *)
Theorem enumeration_keeps_order_without_positive_tabindex
    (options : GetFocusableElementsOptions) (self : option Element) (content : list Node) :
  let filtered :=
    filter (isElementFocusable options) (candidateElements options self content) in
  forallb (fun e => negb (positiveTabIndex e)) filtered = true ->
  fst (getFocusableElements options true (Some (DomContainer self content))) = filtered.
Proof.
  intros filtered Hnone.
  rewrite getFocusableElements_sorted_filter. fold filtered.
  rewrite arraySort_buckets, (filter_none _ _ Hnone). cbn [arraySort app].
  now apply filter_all.
Qed.

Lemma enumeration_keeps_order_without_positive_tabindex_witness :
  map (fun e => eid (node e))
    (fst (getFocusableElements (mkGetOptions None None) true
            (Some Fixture.shadowTestContainer)))
  = [1; 51; 52].
Proof.
  unfold Fixture.shadowTestContainer.
  rewrite (enumeration_keeps_order_without_positive_tabindex (mkGetOptions None None)
             (Some Fixture.containerEl)
             [ Fixture.leaf (Fixture.plain 1 "BUTTON" []); Fixture.shadowHost ]).
  - reflexivity.
  - reflexivity.
Defined.

(** A list of positive-tabindex elements that is already ascending is left
    as it is. *)
Lemma arraySort_sorted_fixed (l : list Element) :
  forallb positiveTabIndex l = true ->
  Sorted keyLe l ->
  arraySort compareTabIndex l = l.
Proof.
  induction l as [|x r IH]; intros Hpos Hs; [reflexivity|].
  cbn [forallb] in Hpos. apply andb_prop in Hpos. destruct Hpos as [Hx Hr].
  inversion Hs as [|? ? Hs' Hhd]; subst.
  cbn [arraySort]. rewrite (IH Hr Hs').
  destruct r as [|y r']; [reflexivity|].
  cbn [forallb] in Hr. apply andb_prop in Hr. destruct Hr as [Hy _].
  inversion Hhd as [|? ? Hle]; subst. unfold keyLe in Hle.
  cbn [sortInsert]. now rewrite (compare_positive_positive x y Hx Hy), Hle.
Qed.

Lemma filter_app_buckets (P N : list Element) :
  forallb positiveTabIndex P = true ->
  forallb (fun e => negb (positiveTabIndex e)) N = true ->
  filter positiveTabIndex (P ++ N) = P
  /\ filter (fun e => negb (positiveTabIndex e)) (P ++ N) = N.
Proof.
  intros HP HN. rewrite !filter_app.
  rewrite (filter_all _ _ HP), (filter_all _ _ HN).
  rewrite (filter_none positiveTabIndex N HN).
  rewrite (filter_none (fun e => negb (positiveTabIndex e)) P).
  - now rewrite app_nil_r.
  - clear -HP. induction P as [|x r IH]; [reflexivity|]. cbn [forallb] in *.
    apply andb_prop in HP. destruct HP as [-> Hr]. now rewrite IH.
Qed.

(** X8. The order produced is a fixed point of the sort: sorting any list a
    second time with the tab-index comparator changes nothing.  (The outer
    call sorts again what a recursive call on a shadow root has sorted.) *)
Theorem tabindex_sort_idempotent (l : list Element) :
  arraySort compareTabIndex (arraySort compareTabIndex l) = arraySort compareTabIndex l.
Proof.
  rewrite (arraySort_buckets l).
  set (P := arraySort compareTabIndex (filter positiveTabIndex l)).
  set (N := filter (fun e => negb (positiveTabIndex e)) l).
  assert (HP : forallb positiveTabIndex P = true).
  { apply forallb_perm with (l := filter positiveTabIndex l).
    - symmetry. apply arraySort_perm.
    - apply forallb_filter_self. }
  assert (HN : forallb (fun e => negb (positiveTabIndex e)) N = true)
    by apply forallb_filter_self.
  rewrite (arraySort_buckets (P ++ N)).
  destruct (filter_app_buckets P N HP HN) as [-> ->].
  f_equal. apply arraySort_sorted_fixed; [assumption|].
  apply arraySort_ascending, forallb_filter_self.
Qed.

Lemma In_pushedByShadowLoop options (nodes : list Node) (e : Element) :
  In e (fst (pushedByShadowLoop options nodes))
  <-> exists n, In n nodes /\ In e (fst (shadowCall options n)).
Proof.
  induction nodes as [|k r IH].
  - split; [intros [] | intros [n [[] _]]].
  - rewrite pushedByShadowLoop_cons. cbn [fst appendResults]. rewrite in_app_iff, IH. split.
    + intros [Hk | [n [Hin Hn]]]; [exists k | exists n]; split; auto; now (left + right).
    + intros [n [[<- | Hin] Hn]]; [now left | right; now exists n].
Qed.

(** X9. What a recursive call on an open shadow root returns is never dropped
    by the outer call: when the outer [try] block does not throw, every
    element returned for the shadow root of any descendant is in the outer
    result. *)
Theorem shadow_root_results_all_returned (options : GetFocusableElementsOptions)
    (self : option Element) (content : list Node) (host : Element) (n : Node)
    (e : Element) (result : list Element * Console) :
  withDefault true (includeShadowDOM options) = true ->
  tryBlock options (DomContainer self content) = inr result ->
  In (host, n) (allDescendants self content) ->
  In e (fst (shadowCall options n)) ->
  In e (fst (getFocusableElements options true (Some (DomContainer self content)))).
Proof.
  intros Hon Htry Hhost He. apply In_enumerated_iff. split.
  - unfold candidateElements. rewrite Hon.
    unfold tryBlock, tryEnumerate in Htry. rewrite Hon in Htry.
    destruct (filterShadowHosts (allDescendants self content)); [discriminate|].
    apply in_or_app. right.
    rewrite (recurseIntoAll_is_loop options self content).
    apply In_pushedByShadowLoop. exists n. split; [|assumption].
    apply in_map_iff. now exists (host, n).
  - unfold shadowCall in He. destruct (shadowRoot n) as [|mode sc|err]; try contradiction.
    destruct (String.eqb mode "open"); [|contradiction].
    now apply In_enumerated_iff in He.
Qed.

Lemma shadow_root_results_all_returned_witness :
  In Fixture.shadowButton
     (fst (getFocusableElements (mkGetOptions None None) true
             (Some Fixture.shadowTestContainer))).
Proof.
  apply (shadow_root_results_all_returned (mkGetOptions None None)
           (Some Fixture.containerEl)
           [ Fixture.leaf (Fixture.plain 1 "BUTTON" []); Fixture.shadowHost ]
           (mkElement (Fixture.plain 50 "DIV" []) (Some Fixture.containerEl))
           Fixture.shadowHost Fixture.shadowButton _ eq_refl eq_refl).
  - right. left. reflexivity.
  - vm_compute. left. reflexivity.
Defined.

(* ===================================================================== *)
(** ** Further properties of the focus keeper *)
(* ===================================================================== *)

Section KeeperOutcomes.
Context {Doc : Type} `{FocusModel Doc}.

(** X10. [returnFocus] lets an exception out in one situation, and always
    then: nothing is saved and [focus()] on the fallback throws.  With a
    saved element in the slot every exception is caught and the call
    returns. *)
Theorem returnFocus_throws_only_without_saved (options : ReturnFocusOptions)
    (w : World Doc) :
  (forall saved, savedFocusElement w = Some saved ->
                 exists r, fst (returnFocus options w) = Normal r)
  /\ (forall error,
        fst (returnFocus options w) = Throw error ->
        savedFocusElement w = None
        /\ exists d fb,
             document w = Some d
             /\ resolveFallback options d = Some fb
             /\ fst (focus fb (Some (withDefault true (preventScroll options))) d)
                = Throw error)
  /\ (forall d fb error,
        document w = Some d ->
        savedFocusElement w = None ->
        resolveFallback options d = Some fb ->
        fst (focus fb (Some (withDefault true (preventScroll options))) d) = Throw error ->
        fst (returnFocus options w) = Throw error).
Proof.
  assert (Hsaved : forall saved, savedFocusElement w = Some saved ->
                                 exists r, fst (returnFocus options w) = Normal r).
  { intros saved Hs. unfold returnFocus, returnFocus_catch, returnFocus_tail. rewrite Hs.
    destruct (document w) as [d|]; [|now eexists].
    repeat match goal with
           | |- context [match focusElement ?e ?o ?x with _ => _ end] =>
               destruct (focusElement e o x) as [[?|?] ?]
           | |- context [if ?c then _ else _] => destruct c
           | |- context [match resolveFallback ?o ?d with _ => _ end] =>
               destruct (resolveFallback o d)
           end; now eexists. }
  split; [exact Hsaved|]. split.
  - intros error Hthrow.
    destruct (savedFocusElement w) as [saved|] eqn:Hs.
    { destruct (Hsaved saved eq_refl) as [r Hr]. congruence. }
    split; [reflexivity|].
    destruct (document w) as [d|] eqn:Hd.
    + rewrite (returnFocus_nothing_saved options w d Hd Hs) in Hthrow.
      exists d. destruct (resolveFallback options d) as [fb|]; [|discriminate].
      exists fb. repeat split.
      destruct (focus fb _ d) as [[u|e] d']; cbn [fst] in *; congruence.
    + unfold returnFocus in Hthrow. rewrite Hd in Hthrow. discriminate.
  - intros d fb error Hd Hs Hfb Hthrow.
    rewrite (returnFocus_nothing_saved options w d Hd Hs), Hfb.
    destruct (focus fb _ d) as [[u|e] d']; cbn [fst] in *; congruence.
Qed.
End KeeperOutcomes.

Lemma returnFocus_throws_only_without_saved_witness :
  fst (returnFocus noOptions Fixture.bodyThrowsWorld) = Throw "focus failed"
  /\ savedFocusElement Fixture.bodyThrowsWorld = None
  /\ exists r, fst (returnFocus noOptions Fixture.throwingWorld) = Normal r.
Proof.
  assert (Hthrow : fst (returnFocus noOptions Fixture.bodyThrowsWorld) = Throw "focus failed")
    by reflexivity.
  split; [exact Hthrow|]. split.
  - exact (proj1 (proj1 (proj2 (returnFocus_throws_only_without_saved noOptions
                                  Fixture.bodyThrowsWorld)) "focus failed" Hthrow)).
  - exact (proj1 (returnFocus_throws_only_without_saved noOptions Fixture.throwingWorld)
             Fixture.openerButton eq_refl).
Defined.

Section KeeperProvenance.
Context {Doc : Type} `{FocusModel Doc}.

Ltac split_run Hrun :=
  repeat match type of Hrun with
         | context [match focusElement ?e ?o ?x with _ => _ end] =>
             let c := fresh "c" in
             let w1 := fresh "w" in
             let E := fresh "Efocus" in
             destruct (focusElement e o x) as [c w1] eqn:E; destruct c
         | context [if documentActiveIs ?e ?x then _ else _] =>
             let E := fresh "Eactive" in destruct (documentActiveIs e x) eqn:E
         | context [match ?o with Some _ => _ | None => _ end] =>
             let E := fresh "Eopt" in destruct o eqn:E
         end.

(** X11. What [returnFocus] hands back is never an arbitrary element: a
    returned element is either the saved one -- and then it is the active
    element and the slot has been emptied -- or the fallback. *)
Theorem returnFocus_result_provenance (options : ReturnFocusOptions)
    (w w' : World Doc) (e : Element) :
  returnFocus options w = (Normal (Some e), w') ->
  (savedFocusElement w = Some e
   /\ documentActiveIs e w' = true
   /\ savedFocusElement w' = None)
  \/ (exists d, document w = Some d /\ resolveFallback options d = Some e).
Proof.
  intro Hrun.
  unfold returnFocus, returnFocus_catch, returnFocus_tail in Hrun.
  split_run Hrun; try discriminate;
    injection Hrun as <- <-;
    try (right; eexists; split; [reflexivity | assumption]).
  left. repeat split. assumption.
Qed.
End KeeperProvenance.

Lemma returnFocus_result_provenance_witness :
  exists d, document Fixture.staleWorld = Some d
            /\ resolveFallback noOptions d = Some Fixture.bodyEl.
Proof.
  assert (Hrun : returnFocus noOptions Fixture.staleWorld
                 = (Normal (Some Fixture.bodyEl),
                    snd (returnFocus noOptions Fixture.staleWorld))) by reflexivity.
  destruct (returnFocus_result_provenance noOptions Fixture.staleWorld _ _ Hrun)
    as [(Hsaved & _) | Hfb].
  - discriminate Hsaved.
  - exact Hfb.
Defined.

Section KeeperSlot.
Context {Doc : Type} `{FocusModel Doc}.

(** X12. Where the slot stands after [returnFocus]: it is empty, unless a
    saved element was present, did not take focus, and the call returned the
    fallback -- then the slot still holds the saved element.  With a saved
    element: a verified restore returns it and empties the slot; when its
    [focus()] returned without making it the active element, or threw, and
    the fallback's [focus()] returns, the call returns the fallback and the
    slot still holds the saved element; a call that returns [null] has
    emptied the slot. *)
Theorem returnFocus_slot_after_call (options : ReturnFocusOptions)
    (w : World Doc) (d : Doc) :
  document w = Some d ->
  let scroll := Some (withDefault true (preventScroll options)) in
  let after := returnFocus options w in
  (savedFocusElement (snd after) = None
   \/ (exists saved fb,
         savedFocusElement w = Some saved
         /\ resolveFallback options d = Some fb
         /\ fst after = Normal (Some fb)
         /\ savedFocusElement (snd after) = Some saved))
  /\ (forall saved,
        savedFocusElement w = Some saved ->
        (forall u w1,
            focusElement saved scroll w = (Normal u, w1) ->
            documentActiveIs saved w1 = true ->
            after = (Normal (Some saved), setSavedFocusElement None w1))
        /\ (forall u u' w1 w2 fb,
              focusElement saved scroll w = (Normal u, w1) ->
              documentActiveIs saved w1 = false ->
              resolveFallback options d = Some fb ->
              focusElement fb scroll w1 = (Normal u', w2) ->
              after = (Normal (Some fb), w2)
              /\ savedFocusElement (snd after) = Some saved)
        /\ (forall error u' w1 w2 fb,
              focusElement saved scroll w = (Throw error, w1) ->
              resolveFallback options d = Some fb ->
              focusElement fb scroll
                (consoleLog [ConsoleError "Error returning focus:" error] w1)
              = (Normal u', w2) ->
              after = (Normal (Some fb), w2)
              /\ savedFocusElement (snd after) = Some saved)
        /\ (fst after = Normal None -> savedFocusElement (snd after) = None)).
Proof.
  intros Hd scroll after. split; [exact (returnFocus_slot_outcome options w d Hd)|].
  intros saved Hs. subst after scroll. unfold returnFocus. rewrite Hd, Hs.
  cbv beta zeta.
  split; [|split; [|split]].
  - intros u w1 Hfocus Hact. now rewrite Hfocus, Hact.
  - intros u u' w1 w2 fb Hfocus Hact Hfb Hfbfocus.
    rewrite Hfocus, Hact, Hfb, Hfbfocus. split; [reflexivity|]. cbn [snd].
    pose proof (focusElement_keeps_slot saved
                  (Some (withDefault true (preventScroll options))) w) as K1.
    pose proof (focusElement_keeps_slot fb
                  (Some (withDefault true (preventScroll options))) w1) as K2.
    rewrite Hfocus in K1. rewrite Hfbfocus in K2. cbn [snd] in K1, K2. congruence.
  - intros error u' w1 w2 fb Hfocus Hfb Hfbfocus.
    rewrite Hfocus, Hfb. unfold returnFocus_catch. cbv beta zeta. rewrite Hfbfocus.
    split; [reflexivity|]. cbn [snd].
    pose proof (focusElement_keeps_slot saved
                  (Some (withDefault true (preventScroll options))) w) as K1.
    pose proof (focusElement_keeps_slot fb
                  (Some (withDefault true (preventScroll options)))
                  (consoleLog [ConsoleError "Error returning focus:" error] w1)) as K2.
    rewrite Hfocus in K1. rewrite Hfbfocus in K2. cbn [snd] in K1, K2.
    rewrite K2. cbn [savedFocusElement consoleLog]. exact (eq_trans K1 Hs).
  - unfold returnFocus_catch, returnFocus_tail.
    repeat match goal with
           | |- context [match ?x with _ => _ end] =>
               lazymatch x with
               | focusElement _ _ _ => destruct x as [[?|?] ?]
               | resolveFallback _ _ => destruct x
               end
           | |- context [if ?c then _ else _] => destruct c
           end; cbn [fst snd]; intro E; try discriminate E; reflexivity.
Qed.
End KeeperSlot.

Lemma returnFocus_slot_after_call_witness :
  returnFocus noOptions Fixture.staleWorld
  = (Normal (Some Fixture.bodyEl), Fixture.staleWorld)
  /\ savedFocusElement (snd (returnFocus noOptions Fixture.staleWorld))
     = Some Fixture.openerButton
  /\ returnFocus noOptions Fixture.throwingWorld
     = (Normal (Some Fixture.bodyEl),
        consoleLog [ConsoleError "Error returning focus:" "focus failed"]
          Fixture.throwingWorld)
  /\ savedFocusElement (snd (returnFocus noOptions Fixture.throwingWorld))
     = Some Fixture.openerButton.
Proof.
  pose proof (proj2 (returnFocus_slot_after_call noOptions Fixture.staleWorld
                       Fixture.staleDoc eq_refl)
                Fixture.openerButton eq_refl) as (_ & Hsilent & _ & _).
  pose proof (proj2 (returnFocus_slot_after_call noOptions Fixture.throwingWorld
                       Fixture.throwingDoc eq_refl)
                Fixture.openerButton eq_refl) as (_ & _ & Hthrew & _).
  destruct (Hsilent tt tt Fixture.staleWorld Fixture.staleWorld Fixture.bodyEl
              eq_refl eq_refl eq_refl eq_refl) as [R1 S1].
  destruct (Hthrew "focus failed" tt Fixture.throwingWorld
              (consoleLog [ConsoleError "Error returning focus:" "focus failed"]
                 Fixture.throwingWorld)
              Fixture.bodyEl eq_refl eq_refl eq_refl) as [R2 S2].
  split; [exact R1|]. split; [exact S1|]. split; [exact R2 | exact S2].
Defined.

Section Isolation.
Context {Doc : Type} `{FocusModel Doc}.
Variable m : FocusManager.

Lemma OnlyOwnSlot_refl (w : World Doc) : OnlyOwnSlot m w w.
Proof. repeat split. Qed.

Lemma OnlyOwnSlot_trans (w w1 w2 : World Doc) :
  OnlyOwnSlot m w w1 -> OnlyOwnSlot m w1 w2 -> OnlyOwnSlot m w w2.
Proof.
  intros (S1 & L1 & O1) (S2 & L2 & O2). repeat split; try congruence.
  intros k Hk. now rewrite O2, O1.
Qed.

Lemma OnlyOwnSlot_focus (e : Element) (opts : option bool) (w : World Doc) :
  OnlyOwnSlot m w (snd (focusElement e opts w)).
Proof.
  unfold focusElement. destruct (document w) as [d|]; [|apply OnlyOwnSlot_refl].
  destruct (focus e opts d). repeat split.
Qed.

Lemma OnlyOwnSlot_log (entries : Console) (w : World Doc) :
  OnlyOwnSlot m w (consoleLog entries w).
Proof. repeat split. Qed.

Lemma OnlyOwnSlot_assign (v : option Element) (w : World Doc) :
  OnlyOwnSlot m w (setSavedElement m v w).
Proof.
  repeat split.
  - cbn [managers setSavedElement setManagers]. apply assignNth_length.
  - intros k Hk. now apply savedElement_set_other.
Qed.

Lemma focusElement_keeps_managers (e : Element) (opts : option bool) (w : World Doc) :
  managers (snd (focusElement e opts w)) = managers w.
Proof.
  unfold focusElement. destruct (document w) as [d|]; [|reflexivity].
  now destruct (focus e opts d).
Qed.

Ltac manager_focus_step :=
  match goal with
  | |- context [match focusElement ?e ?o ?x with _ => _ end] =>
      let K := fresh "K" in
      pose proof (OnlyOwnSlot_focus e o x) as K;
      destruct (focusElement e o x) as [[?|?] ?]; cbn [snd] in K
  end.

Ltac default_focus_step :=
  match goal with
  | |- context [match focusElement ?e ?o ?x with _ => _ end] =>
      let K := fresh "K" in
      pose proof (focusElement_keeps_managers e o x) as K;
      destruct (focusElement e o x) as [[?|?] ?]; cbn [snd] in K
  end.

Ltac own_slot_leaf :=
  cbn [snd manager_tail];
  repeat first
    [ assumption
    | apply OnlyOwnSlot_refl
    | eapply OnlyOwnSlot_trans; [| apply OnlyOwnSlot_assign ]
    | eapply OnlyOwnSlot_trans; [| eassumption ]
    | eapply OnlyOwnSlot_trans; [| apply OnlyOwnSlot_log ] ].

(** X13. Scoped instances are isolated: [saveFocus] and [returnFocus] of one
    focus manager never change the slot of another manager or the default
    slot, and the module-level pair never changes any manager's slot. *)
Theorem focus_managers_are_isolated (options : ReturnFocusOptions) (w : World Doc) :
  OnlyOwnSlot m w (snd (manager_saveFocus m w))
  /\ OnlyOwnSlot m w (snd (manager_returnFocus m options w))
  /\ managers (snd (saveFocus w)) = managers w
  /\ managers (snd (returnFocus options w)) = managers w.
Proof.
  split; [|split; [|split]].
  - unfold manager_saveFocus. destruct (document w); [|apply OnlyOwnSlot_refl].
    apply OnlyOwnSlot_assign.
  - unfold manager_returnFocus, manager_catch.
    destruct (document w) as [d|]; [|apply OnlyOwnSlot_refl].
    destruct (savedElement m w) as [saved|].
    + manager_focus_step.
      * destruct (documentActiveIs saved w0); [own_slot_leaf|].
        destruct (resolveFallback options d) as [fb|]; [|own_slot_leaf].
        manager_focus_step; [own_slot_leaf|].
        manager_focus_step; own_slot_leaf.
      * destruct (resolveFallback options d) as [fb|]; [|own_slot_leaf].
        manager_focus_step; own_slot_leaf.
    + destruct (resolveFallback options d) as [fb|]; [|apply OnlyOwnSlot_refl].
      manager_focus_step; own_slot_leaf.
  - unfold saveFocus. now destruct (document w).
  - unfold returnFocus, returnFocus_catch, returnFocus_tail.
    destruct (document w) as [d|]; [|reflexivity].
    destruct (savedFocusElement w) as [saved|].
    + default_focus_step.
      * destruct (documentActiveIs saved w0); [exact K|].
        destruct (resolveFallback options d) as [fb|]; [|exact K].
        default_focus_step; [cbn [snd]; congruence|].
        default_focus_step; cbn [snd managers setSavedFocusElement consoleLog] in *; congruence.
      * destruct (resolveFallback options d) as [fb|]; [|exact K].
        default_focus_step; cbn [snd managers setSavedFocusElement consoleLog] in *; congruence.
    + destruct (resolveFallback options d) as [fb|]; [|reflexivity].
      default_focus_step; exact K.
Qed.
End Isolation.

Section ManagerScenarios.
Context {Doc : Type} `{FocusModel Doc}.

(** X14. Two calls of [createFocusManager()] give two different managers,
    each with an empty slot of its own; the default slot and the slots of
    the managers that existed before are left as they were. *)
Theorem createFocusManager_twice_distinct (w : World Doc) :
  let created1 := createFocusManager w in
  let created2 := createFocusManager (snd created1) in
  let m1 := fst created1 in
  let m2 := fst created2 in
  let w2 := snd created2 in
  m1 <> m2
  /\ (m1 < List.length (managers w2))%nat
  /\ (m2 < List.length (managers w2))%nat
  /\ savedElement m1 w2 = None
  /\ savedElement m2 w2 = None
  /\ savedFocusElement w2 = savedFocusElement w
  /\ forall k, (k < m1)%nat -> savedElement k w2 = savedElement k w.
Proof.
  unfold createFocusManager, savedElement.
  cbn [fst snd managers setManagers savedFocusElement].
  rewrite !length_app. cbn [List.length]. repeat split; try lia.
  - rewrite nth_error_app1 by (rewrite length_app; cbn [List.length]; lia).
    rewrite nth_error_app2 by lia. now rewrite Nat.sub_diag.
  - rewrite nth_error_app2 by (rewrite length_app; cbn [List.length]; lia).
    rewrite length_app. cbn [List.length].
    now replace (List.length (managers w) + 1 - (List.length (managers w) + 1))%nat
      with 0%nat by lia.
  - intros k Hk.
    rewrite nth_error_app1 by (rewrite length_app; cbn [List.length]; lia).
    now rewrite nth_error_app1 by lia.
Qed.

Lemma manager_saveFocus_run (m : FocusManager) (w : World Doc) (d : Doc) :
  document w = Some d ->
  (m < List.length (managers w))%nat ->
  manager_saveFocus m w
  = (Normal (activeElement d), setSavedElement m (activeElement d) w).
Proof.
  intros Hd Hlt. unfold manager_saveFocus. rewrite Hd.
  now rewrite savedElement_set_same.
Qed.

Lemma manager_returnFocus_restores (m : FocusManager) (options : ReturnFocusOptions)
    (w : World Doc) (d d' : Doc) (X : Element) :
  document w = Some d ->
  savedElement m w = Some X ->
  focus X (Some (withDefault true (preventScroll options))) d = (Normal tt, d') ->
  activeIs d' X = true ->
  manager_returnFocus m options w
  = (Normal (Some X), setSavedElement m None (setDocument d' w)).
Proof.
  intros Hd Hs Hfocus Hverify. unfold manager_returnFocus. rewrite Hd, Hs.
  rewrite (focusElement_run X _ _ d) by exact Hd. rewrite Hfocus. cbn [fst snd].
  unfold documentActiveIs. cbn [document setDocument]. now rewrite Hverify.
Qed.

(** X15. Nested overlays, each with its own focus manager.  The outer manager
    saves while A is active, the inner one while B is active; whatever
    happens to the document in between, the inner [returnFocus] restores B
    and leaves the outer slot holding A, and the outer [returnFocus] then
    restores A.  Both slots end empty and the default slot is never
    touched. *)
Theorem nested_managers_restore_their_own (outer inner : FocusManager)
    (options : ReturnFocusOptions) (w : World Doc)
    (dA dB dInner dInner' dOuter dOuter' : Doc) (A B : Element) :
  let scroll := Some (withDefault true (preventScroll options)) in
  outer <> inner ->
  (outer < List.length (managers w))%nat ->
  (inner < List.length (managers w))%nat ->
  activeElement dA = Some A ->
  activeElement dB = Some B ->
  focus B scroll dInner = (Normal tt, dInner') -> activeIs dInner' B = true ->
  focus A scroll dOuter = (Normal tt, dOuter') -> activeIs dOuter' A = true ->
  let w1 := snd (manager_saveFocus outer (setDocument dA w)) in
  let w2 := snd (manager_saveFocus inner (setDocument dB w1)) in
  let innerRun := manager_returnFocus inner options (setDocument dInner w2) in
  let outerRun := manager_returnFocus outer options (setDocument dOuter (snd innerRun)) in
  fst innerRun = Normal (Some B)
  /\ savedElement outer (snd innerRun) = Some A
  /\ fst outerRun = Normal (Some A)
  /\ document (snd outerRun) = Some dOuter'
  /\ savedElement outer (snd outerRun) = None
  /\ savedElement inner (snd outerRun) = None
  /\ savedFocusElement (snd outerRun) = savedFocusElement w.
Proof.
  intros scroll Hne Ho Hi HA HB HfB HvB HfA HvA w1 w2 innerRun outerRun.
  assert (E1 : w1 = setSavedElement outer (Some A) (setDocument dA w)).
  { subst w1. rewrite (manager_saveFocus_run outer _ dA) by (auto; exact Ho).
    now rewrite HA. }
  assert (L1 : List.length (managers w1) = List.length (managers w)).
  { rewrite E1. cbn [managers setSavedElement setManagers setDocument].
    apply assignNth_length. }
  assert (E2 : w2 = setSavedElement inner (Some B) (setDocument dB w1)).
  { subst w2. rewrite (manager_saveFocus_run inner _ dB); [now rewrite HB | reflexivity |].
    cbn [managers setDocument]. now rewrite L1. }
  assert (L2 : List.length (managers w2) = List.length (managers w)).
  { rewrite E2. cbn [managers setSavedElement setManagers setDocument].
    now rewrite assignNth_length. }
  assert (S2o : savedElement outer w2 = Some A).
  { rewrite E2, savedElement_set_other by exact Hne.
    unfold savedElement. cbn [managers setDocument]. fold (savedElement outer w1).
    rewrite E1. apply savedElement_set_same. exact Ho. }
  assert (S2i : savedElement inner w2 = Some B).
  { rewrite E2. apply savedElement_set_same. cbn [managers setDocument]. now rewrite L1. }
  assert (Ei : innerRun
               = (Normal (Some B),
                  setSavedElement inner None (setDocument dInner' (setDocument dInner w2)))).
  { subst innerRun.
    now apply (manager_returnFocus_restores inner options _ dInner dInner' B). }
  assert (S3o : savedElement outer (snd innerRun) = Some A).
  { rewrite Ei. cbn [snd]. now rewrite savedElement_set_other by exact Hne. }
  assert (Eo : outerRun
               = (Normal (Some A),
                  setSavedElement outer None
                    (setDocument dOuter' (setDocument dOuter (snd innerRun))))).
  { subst outerRun.
    now apply (manager_returnFocus_restores outer options _ dOuter dOuter' A). }
  rewrite Eo. cbn [fst snd]. repeat split; try assumption.
  - now rewrite Ei.
  - apply savedElement_set_same. cbn [managers setDocument]. rewrite Ei. cbn [snd].
    cbn [managers setSavedElement setManagers setDocument].
    rewrite assignNth_length. now rewrite L2.
  - rewrite savedElement_set_other by (intro E; apply Hne; now symmetry).
    unfold savedElement. cbn [managers setDocument].
    fold (savedElement inner (snd innerRun)). rewrite Ei. cbn [snd].
    apply savedElement_set_same. cbn [managers setDocument]. now rewrite L2.
  - cbn [savedFocusElement setSavedElement setManagers setDocument].
    rewrite Ei. cbn [snd savedFocusElement setSavedElement setManagers setDocument].
    rewrite E2. cbn [savedFocusElement setSavedElement setManagers setDocument].
    rewrite E1. reflexivity.
Qed.
End ManagerScenarios.

Lemma nested_managers_restore_their_own_witness :
  let w1 := snd (manager_saveFocus 0 (setDocument (Fixture.docWith Fixture.openerButton)
                                        Fixture.twoManagersWorld)) in
  let w2 := snd (manager_saveFocus 1 (setDocument (Fixture.docWith Fixture.trapA) w1)) in
  let innerRun :=
    manager_returnFocus 1 noOptions (setDocument (Fixture.docWith Fixture.bodyEl) w2) in
  let outerRun :=
    manager_returnFocus 0 noOptions
      (setDocument (Fixture.docWith Fixture.trapA) (snd innerRun)) in
  fst innerRun = Normal (Some Fixture.trapA)
  /\ fst outerRun = Normal (Some Fixture.openerButton).
Proof.
  pose proof (nested_managers_restore_their_own 0 1 noOptions Fixture.twoManagersWorld
                (Fixture.docWith Fixture.openerButton) (Fixture.docWith Fixture.trapA)
                (Fixture.docWith Fixture.bodyEl) (Fixture.docWith Fixture.trapA)
                (Fixture.docWith Fixture.trapA) (Fixture.docWith Fixture.openerButton)
                Fixture.openerButton Fixture.trapA
                (fun E => O_S 0 E) (le_S 1 1 (le_n 1)) (le_n 2)
                eq_refl eq_refl eq_refl eq_refl eq_refl eq_refl) as R.
  cbv zeta in R. destruct R as (Hinner & _ & Houter & _).
  cbv zeta. split; [exact Hinner | exact Houter].
Defined.

Section SharedSlot.
Context {Doc : Type} `{FocusModel Doc}.

(** X16. Two nested save/restore pairs on the default instance share one
    slot: the second [saveFocus] overwrites the first.  The inner
    [returnFocus] restores B and empties the slot, so the outer
    [returnFocus] can only ever return the fallback: A is lost. *)
Theorem shared_default_slot_forgets_outer_save (options : ReturnFocusOptions)
    (w : World Doc) (dA dB dInner dInner' : Doc) (A B : Element) :
  activeElement dA = Some A ->
  activeElement dB = Some B ->
  focus B (Some (withDefault true (preventScroll options))) dInner = (Normal tt, dInner') ->
  activeIs dInner' B = true ->
  let w1 := snd (saveFocus (setDocument dA w)) in
  let w2 := snd (saveFocus (setDocument dB w1)) in
  let innerRun := returnFocus options (setDocument dInner w2) in
  savedFocusElement w1 = Some A
  /\ savedFocusElement w2 = Some B
  /\ fst innerRun = Normal (Some B)
  /\ savedFocusElement (snd innerRun) = None
  /\ forall options' dOuter e w',
       returnFocus options' (setDocument dOuter (snd innerRun)) = (Normal (Some e), w') ->
       resolveFallback options' dOuter = Some e.
Proof.
  intros HA HB HfB HvB w1 w2 innerRun.
  assert (E1 : w1 = setSavedFocusElement (Some A) (setDocument dA w)).
  { subst w1. unfold saveFocus. cbn [document setDocument]. now rewrite HA. }
  assert (E2 : w2 = setSavedFocusElement (Some B) (setDocument dB w1)).
  { subst w2. unfold saveFocus. cbn [document setDocument]. now rewrite HB. }
  assert (Ei : innerRun
               = (Normal (Some B),
                  setSavedFocusElement None (setDocument dInner' (setDocument dInner w2)))).
  { subst innerRun. rewrite E2. unfold returnFocus.
    cbn [document savedFocusElement setSavedFocusElement setDocument].
    rewrite (focusElement_run B _ _ dInner) by reflexivity.
    rewrite HfB. cbn [fst snd]. unfold documentActiveIs.
    cbn [document setDocument]. now rewrite HvB. }
  rewrite Ei. cbn [fst snd]. repeat split.
  - now rewrite E1.
  - now rewrite E2.
  - intros options' dOuter e w' Hrun.
    rewrite (returnFocus_nothing_saved options' _ dOuter) in Hrun by reflexivity.
    destruct (resolveFallback options' dOuter) as [fb|]; [|discriminate].
    destruct (focus fb _ dOuter) as [[u|err] d']; [|discriminate].
    now injection Hrun as <- _.
Qed.

(** X17. Without a document (server-side rendering) every operation is a
    no-op: the keeper's and the managers' [saveFocus]/[returnFocus] and both
    first-focus functions return [null] and leave the world exactly as it
    was -- slots included -- and the enumerator returns the empty list and
    writes nothing. *)
Theorem without_document_nothing_happens `{SelectorModel}
    (w : World Doc) (m : FocusManager) (options : ReturnFocusOptions)
    (container : option Container) (selector : string)
    (first : FocusFirstElementOptions) (enum : GetFocusableElementsOptions) :
  document w = None ->
  saveFocus w = (Normal None, w)
  /\ returnFocus options w = (Normal None, w)
  /\ manager_saveFocus m w = (Normal None, w)
  /\ manager_returnFocus m options w = (Normal None, w)
  /\ focusFirstElement container first w = (Normal None, w)
  /\ focusFirstElementBySelector container selector first w = (Normal None, w)
  /\ getFocusableElements enum (hasDocument w) container = ([], []).
Proof.
  intro Hd.
  unfold saveFocus, returnFocus, manager_saveFocus, manager_returnFocus,
    focusFirstElement, focusFirstElementBySelector, getFocusableElements, hasDocument.
  rewrite Hd. cbn [negb]. repeat split.
  - now destruct container.
  - destruct container; [|reflexivity]. now destruct (String.eqb selector "").
  - now destruct container.
Qed.
End SharedSlot.

Lemma shared_default_slot_forgets_outer_save_witness :
  let w1 := snd (saveFocus (setDocument (Fixture.docWith Fixture.openerButton)
                              Fixture.pageWorld)) in
  let w2 := snd (saveFocus (setDocument (Fixture.docWith Fixture.trapA) w1)) in
  let innerRun := returnFocus noOptions (setDocument (Fixture.docWith Fixture.bodyEl) w2) in
  fst innerRun = Normal (Some Fixture.trapA)
  /\ savedFocusElement (snd innerRun) = None.
Proof.
  pose proof (shared_default_slot_forgets_outer_save noOptions Fixture.pageWorld
                (Fixture.docWith Fixture.openerButton) (Fixture.docWith Fixture.trapA)
                (Fixture.docWith Fixture.bodyEl) (Fixture.docWith Fixture.trapA)
                Fixture.openerButton Fixture.trapA eq_refl eq_refl eq_refl eq_refl) as R.
  cbv zeta in R. destruct R as (_ & _ & Hinner & Hslot & _).
  cbv zeta. split; [exact Hinner | exact Hslot].
Defined.

Lemma without_document_nothing_happens_witness :
  returnFocus noOptions Fixture.serverWorld = (Normal None, Fixture.serverWorld)
  /\ focusFirstElement (Some Fixture.shadowTestContainer) noFirstOptions Fixture.serverWorld
     = (Normal None, Fixture.serverWorld).
Proof.
  pose proof (without_document_nothing_happens (H0 := Fixture.tagSelectors)
                Fixture.serverWorld 0 noOptions
                (Some Fixture.shadowTestContainer) "button" noFirstOptions
                (mkGetOptions None None) eq_refl) as R.
  destruct R as (_ & Hret & _ & _ & Hfirst & _).
  split; [exact Hret | exact Hfirst].
Defined.

(* ===================================================================== *)
(** ** Further properties of the first-focus director *)
(* ===================================================================== *)

Lemma enumerated_pass_classifier options (hasDoc : bool) (container : option Container)
    (e : Element) :
  In e (fst (getFocusableElements options hasDoc container)) ->
  isElementFocusable options e = true.
Proof.
  destruct container as [[self content | err]|]; destruct hasDoc;
    try (simpl; contradiction).
  intro Hin. now apply In_enumerated_iff in Hin.
Qed.

Section DirectorOutcomes.
Context {Doc : Type} `{FocusModel Doc} `{SelectorModel}.

Lemma focusElement_keeps_slots (e : Element) (opts : option bool) (w : World Doc) :
  savedFocusElement (snd (focusElement e opts w)) = savedFocusElement w
  /\ managers (snd (focusElement e opts w)) = managers w.
Proof.
  unfold focusElement. destruct (document w) as [d|]; [|now split].
  destruct (focus e opts d). now split.
Qed.

(** X18. [focusFirstElement] never throws -- a throwing [focus()] is caught
    and answered with [null] -- and it never writes a saved-focus slot. *)
Theorem focusFirstElement_never_throws (container : option Container)
    (options : FocusFirstElementOptions) (w : World Doc) :
  exists r,
    fst (focusFirstElement container options w) = Normal r
    /\ savedFocusElement (snd (focusFirstElement container options w)) = savedFocusElement w
    /\ managers (snd (focusFirstElement container options w)) = managers w.
Proof.
  unfold focusFirstElement, callGetFocusableElements.
  destruct container as [c|]; [|now eexists].
  destruct (document w) as [d|]; [|now eexists].
  destruct (getFocusableElements _ _ _) as [[|first rest] lines]; [now eexists|].
  pose proof (focusElement_keeps_slots first
                (Some (withDefault true (ffPreventScroll options)))
                (consoleLog lines w)) as [Ks Km].
  destruct (focusElement first _ (consoleLog lines w)) as [[u|error] w1];
    cbn [snd] in Ks, Km; eexists; repeat split; cbn [snd]; assumption.
Qed.

(** X19. An element returned by [focusFirstElement] is the first element of
    the enumerator's list for the same container and options, and it passes
    the classifier those options select ([isTabbable] by default). *)
Theorem focusFirstElement_returns_enumerated_head (container : option Container)
    (options : FocusFirstElementOptions) (w w' : World Doc) (e : Element) :
  focusFirstElement container options w = (Normal (Some e), w') ->
  let enum :=
    mkGetOptions (Some (withDefault true (ffOnlyTabbable options)))
                 (Some (withDefault true (ffIncludeShadowDOM options))) in
  (exists rest, fst (getFocusableElements enum true container) = e :: rest)
  /\ (if withDefault true (ffOnlyTabbable options)
      then isTabbable (Some e) else isFocusable (Some e)) = true.
Proof.
  intros Hrun enum.
  assert (Hhead : exists rest, fst (getFocusableElements enum true container) = e :: rest).
  { unfold focusFirstElement, callGetFocusableElements, hasDocument in Hrun.
    destruct container as [c|]; [|discriminate].
    destruct (document w) as [d|]; [|discriminate]. fold enum in Hrun.
    destruct (getFocusableElements enum true (Some c)) as [[|first rest] lines];
      [discriminate|].
    destruct (focusElement first _ (consoleLog lines w)) as [[u|error] w1];
      [|discriminate].
    injection Hrun as <- _. now exists rest. }
  split; [exact Hhead|].
  destruct Hhead as [rest Hhead].
  assert (Hin : In e (fst (getFocusableElements enum true container)))
    by (rewrite Hhead; now left).
  apply enumerated_pass_classifier in Hin.
  unfold isElementFocusable, enum in Hin. cbn [onlyTabbable withDefault] in Hin.
  now destruct (withDefault true (ffOnlyTabbable options)).
Qed.

Lemma focusEachUntilActive_keeps_slots (elements : list Element) (scroll : bool)
    (w : World Doc) :
  savedFocusElement (snd (focusEachUntilActive elements scroll w)) = savedFocusElement w
  /\ managers (snd (focusEachUntilActive elements scroll w)) = managers w.
Proof.
  revert w. induction elements as [|x rest IH]; intro w; cbn [focusEachUntilActive];
    [now split|].
  pose proof (focusElement_keeps_slots x (Some scroll) w) as [Ks Km].
  destruct (focusElement x (Some scroll) w) as [[u|error] w1]; cbn [snd] in Ks, Km.
  - destruct (documentActiveIs x w1); [now split|].
    destruct (IH w1) as [Is Im]. split; congruence.
  - destruct (IH w1) as [Is Im]. split; congruence.
Qed.

(** X20. [focusFirstElementBySelector] never throws -- neither a selector the
    engine rejects nor a throwing [focus()] gets out -- and it never writes a
    saved-focus slot.  A rejected selector is logged and answered with
    [null] without any [focus()] call. *)
Theorem focusFirstElementBySelector_never_throws (container : option Container)
    (selector : string) (options : FocusFirstElementOptions) (w : World Doc) :
  (exists r,
      fst (focusFirstElementBySelector container selector options w) = Normal r
      /\ savedFocusElement (snd (focusFirstElementBySelector container selector options w))
         = savedFocusElement w
      /\ managers (snd (focusFirstElementBySelector container selector options w))
         = managers w)
  /\ (forall c d error,
        container = Some c -> selector <> "" -> document w = Some d ->
        querySelectorAll c selector = inl error ->
        focusFirstElementBySelector container selector options w
        = (Normal None,
           consoleLog [ConsoleError "Error in focusFirstElementBySelector:" error] w)).
Proof.
  split.
  - unfold focusFirstElementBySelector.
    destruct container as [c|]; [|now eexists].
    destruct (String.eqb selector ""); [now eexists|].
    destruct (document w) as [d|]; [|now eexists].
    destruct (querySelectorAll c selector) as [error|elements]; [now eexists|].
    pose proof (focusEachUntilActive_keeps_slots elements
                  (withDefault true (ffPreventScroll options)) w) as [Ks Km].
    destruct (focusEachUntilActive elements _ w) as [found w1]. cbn [snd] in Ks, Km.
    now eexists.
  - intros c d error -> Hsel Hd Herr. unfold focusFirstElementBySelector.
    apply String.eqb_neq in Hsel. now rewrite Hsel, Hd, Herr.
Qed.

(** X21. [focusFirstElementBySelector] stops at the first candidate that
    takes focus: if the first match becomes the active element, it is
    returned after that single [focus()] call and no later candidate is
    touched. *)
Theorem focusFirstElementBySelector_stops_at_first_success (c : Container)
    (selector : string) (options : FocusFirstElementOptions) (w : World Doc)
    (d d' : Doc) (e : Element) (rest : list Element) :
  selector <> "" ->
  document w = Some d ->
  querySelectorAll c selector = inr (e :: rest) ->
  focus e (Some (withDefault true (ffPreventScroll options))) d = (Normal tt, d') ->
  activeIs d' e = true ->
  focusFirstElementBySelector (Some c) selector options w
  = (Normal (Some e), setDocument d' w).
Proof.
  intros Hsel Hd Hq Hfocus Hverify. unfold focusFirstElementBySelector.
  apply String.eqb_neq in Hsel. rewrite Hsel, Hd, Hq. cbn [focusEachUntilActive].
  rewrite (focusElement_run e _ _ d) by exact Hd. rewrite Hfocus. cbn [fst snd].
  unfold documentActiveIs. cbn [document setDocument]. now rewrite Hverify.
Qed.
End DirectorOutcomes.

Lemma focusFirstElement_returns_enumerated_head_witness :
  (exists rest,
      fst (getFocusableElements (mkGetOptions (Some true) (Some true)) true
             (Some (containerOf Fixture.trapCurrent))) = Fixture.trapA :: rest)
  /\ isTabbable (Some Fixture.trapA) = true.
Proof.
  assert (Hrun : focusFirstElement (Some (containerOf Fixture.trapCurrent)) noFirstOptions
                   (Fixture.trapWorld Fixture.bodyEl)
                 = (Normal (Some Fixture.trapA), Fixture.trapWorld Fixture.trapA))
    by reflexivity.
  exact (focusFirstElement_returns_enumerated_head _ _ _ _ _ Hrun).
Defined.

Lemma focusFirstElementBySelector_stops_at_first_success_witness :
  focusFirstElementBySelector (Some (containerOf Fixture.trapCurrent)) "button"
    noFirstOptions (Fixture.trapWorld Fixture.bodyEl)
  = (Normal (Some Fixture.trapA), Fixture.trapWorld Fixture.trapA).
Proof.
  apply (focusFirstElementBySelector_stops_at_first_success (H0 := Fixture.tagSelectors)
           (containerOf Fixture.trapCurrent) "button" noFirstOptions
           (Fixture.trapWorld Fixture.bodyEl)
           (Fixture.docWith Fixture.bodyEl) (Fixture.docWith Fixture.trapA)
           Fixture.trapA [Fixture.trapB]).
  - discriminate.
  - reflexivity.
  - reflexivity.
  - reflexivity.
  - reflexivity.
Defined.

(* ===================================================================== *)
(** ** Further properties of the trap controller *)
(* ===================================================================== *)

Lemma last_In {A} (l : list A) (x d : A) : In (last (x :: l) d) (x :: l).
Proof.
  revert x. induction l as [|y r IH]; intro x; [now left|].
  right. exact (IH y).
Qed.

Section TrapOutcomes.
Context {Doc : Type} `{FocusModel Doc}.

(** X22. A trap that is inactive or has no container bound reacts to no key
    at all, and does not even call [onEscapeKey].  An active trap ignores
    every key but Tab and Escape; on Escape it does nothing itself: it hands
    the event to [onEscapeKey] when one was supplied, and that is all. *)
Theorem handleKeyDown_inert_cases (containerRef : ContainerRef)
    (onEscapeKey : option EscapeCallback) (event : KeyboardEvent) (w : World Doc) :
  handleKeyDown false containerRef onEscapeKey event w = (Normal tt, (event, w))
  /\ (forall active, handleKeyDown active None onEscapeKey event w = (Normal tt, (event, w)))
  /\ (key event <> "Tab" -> key event <> "Escape" ->
      forall active, handleKeyDown active containerRef onEscapeKey event w
                     = (Normal tt, (event, w)))
  /\ (key event = "Escape" ->
      forall current,
        handleKeyDown true (Some current) onEscapeKey event w
        = match onEscapeKey with
          | Some callback => callback event w
          | None => (Normal tt, (event, w))
          end).
Proof.
  unfold handleKeyDown. repeat split.
  - now intros [|].
  - intros Htab Hesc active.
    apply String.eqb_neq in Htab. apply String.eqb_neq in Hesc.
    destruct (if negb active then None else containerRef); [|reflexivity].
    now rewrite Hesc, Htab.
  - intros Hesc current. cbn [negb]. rewrite Hesc. cbn.
    now destruct onEscapeKey.
Qed.

(** X23. Handling Tab never sends focus outside the trap: the handler either
    leaves the event alone, or prevents the default action and calls
    [focus()] on the container itself (when nothing is tabbable) or on an
    element of the tabbable list, which [isTabbable] accepts. *)
Theorem tab_focus_stays_in_container (current : Element * list Node)
    (onEscapeKey : option EscapeCallback) (event : KeyboardEvent) (w : World Doc) :
  key event = "Tab" ->
  let enumerated :=
    callGetFocusableElements (Some (containerOf current)) (mkGetOptions (Some true) None) w in
  let tabbableElements := fst enumerated in
  let w1 := snd enumerated in
  let outcome := handleKeyDown true (Some current) onEscapeKey event w in
  outcome = (Normal tt, (event, w1))
  \/ exists t,
       ((t = fst current /\ tabbableElements = [])
        \/ (In t tabbableElements /\ isTabbable (Some t) = true))
       /\ outcome = (fst (focusElement t None w1),
                     (preventDefault event, snd (focusElement t None w1))).
Proof.
  intros Hkey enumerated tabbableElements w1 outcome.
  assert (Hpass : forall t, In t tabbableElements -> isTabbable (Some t) = true).
  { intros t Hin. subst tabbableElements enumerated.
    unfold callGetFocusableElements in Hin.
    destruct (getFocusableElements _ _ _) as [l lines] eqn:Hl. cbn [fst] in Hin.
    assert (Hin' : In t (fst (getFocusableElements (mkGetOptions (Some true) None)
                                (hasDocument w) (Some (containerOf current)))))
      by now rewrite Hl.
    now apply enumerated_pass_classifier in Hin'. }
  subst outcome. unfold handleKeyDown. cbn [negb]. rewrite Hkey.
  cbn [String.eqb Ascii.eqb Bool.eqb negb]. fold enumerated.
  subst tabbableElements w1.
  destruct enumerated as [[|firstElement rest] wE]; cbn [fst snd] in *.
  - right. exists (fst current). split; [now left|].
    now destruct (focusElement (fst current) None wE).
  - cbv zeta. destruct (shiftKey event).
    + destruct (documentActiveIs firstElement wE); [|now left].
      right. exists (last (firstElement :: rest) firstElement). split.
      * right. split; [apply last_In | apply Hpass, last_In].
      * now destruct (focusElement _ None wE).
    + destruct (documentActiveIs (last (firstElement :: rest) firstElement) wE);
        [|now left].
      right. exists firstElement. split.
      * right. split; [now left | apply Hpass; now left].
      * now destruct (focusElement firstElement None wE).
Qed.

(** X24. A trap around a single tabbable element keeps focus on it: with that
    element active, Tab and Shift+Tab are both prevented and answered with
    [focus()] on the same element. *)
Theorem single_tabbable_element_wraps_to_itself (current : Element * list Node)
    (onEscapeKey : option EscapeCallback) (event : KeyboardEvent) (w : World Doc)
    (only : Element) :
  key event = "Tab" ->
  let enumerated :=
    callGetFocusableElements (Some (containerOf current)) (mkGetOptions (Some true) None) w in
  fst enumerated = [only] ->
  documentActiveIs only (snd enumerated) = true ->
  handleKeyDown true (Some current) onEscapeKey event w
  = (fst (focusElement only None (snd enumerated)),
     (preventDefault event, snd (focusElement only None (snd enumerated)))).
Proof.
  intros Hkey enumerated Hone Hactive.
  unfold handleKeyDown. cbn [negb]. rewrite Hkey.
  cbn [String.eqb Ascii.eqb Bool.eqb negb]. fold enumerated.
  destruct enumerated as [l wE]. cbn [fst snd] in *. subst l. cbv zeta. cbn [last].
  rewrite Hactive.
  destruct (shiftKey event); now destruct (focusElement only None wE).
Qed.
End TrapOutcomes.

Lemma tab_focus_stays_in_container_witness :
  handleKeyDown true (Some Fixture.trapCurrent) None Fixture.plainTab
    (Fixture.trapWorld Fixture.trapA)
  = (Normal tt, (Fixture.plainTab, Fixture.trapWorld Fixture.trapA))
  \/ exists t,
       ((t = Fixture.containerEl
         /\ fst (callGetFocusableElements (Some (containerOf Fixture.trapCurrent))
                   (mkGetOptions (Some true) None) (Fixture.trapWorld Fixture.trapA)) = [])
        \/ (In t [Fixture.trapA; Fixture.trapB] /\ isTabbable (Some t) = true))
       /\ handleKeyDown true (Some Fixture.trapCurrent) None Fixture.plainTab
            (Fixture.trapWorld Fixture.trapA)
          = (fst (focusElement t None (Fixture.trapWorld Fixture.trapA)),
             (preventDefault Fixture.plainTab,
              snd (focusElement t None (Fixture.trapWorld Fixture.trapA)))).
Proof.
  exact (tab_focus_stays_in_container Fixture.trapCurrent None Fixture.plainTab
           (Fixture.trapWorld Fixture.trapA) eq_refl).
Defined.

Lemma single_tabbable_element_wraps_to_itself_witness :
  handleKeyDown true (Some (Fixture.containerEl, [Fixture.leaf (Fixture.plain 1 "BUTTON" [])]))
    None Fixture.plainTab (Fixture.trapWorld Fixture.lightButton)
  = (Normal tt, (preventDefault Fixture.plainTab, Fixture.trapWorld Fixture.lightButton)).
Proof.
  exact (single_tabbable_element_wraps_to_itself
           (Fixture.containerEl, [Fixture.leaf (Fixture.plain 1 "BUTTON" [])])
           None Fixture.plainTab (Fixture.trapWorld Fixture.lightButton)
           Fixture.lightButton eq_refl eq_refl eq_refl).
Defined.

Section TrapCallbackFacts.
Context {Doc : Type} `{FocusModel Doc}.

Lemma focusFirstElement_completes (container : option Container)
    (options : FocusFirstElementOptions) (w : World Doc) :
  exists r, fst (focusFirstElement container options w) = Normal r.
Proof.
  unfold focusFirstElement, callGetFocusableElements.
  destruct container as [c|]; [|now eexists].
  destruct (document w) as [d|]; [|now eexists].
  destruct (getFocusableElements _ _ _) as [[|first rest] lines]; [now eexists|].
  destruct (focusElement first _ (consoleLog lines w)) as [[u|error] w1]; now eexists.
Qed.

Lemma focusFirstElement_keeps_slot (container : option Container)
    (options : FocusFirstElementOptions) (w : World Doc) :
  savedFocusElement (snd (focusFirstElement container options w)) = savedFocusElement w.
Proof.
  unfold focusFirstElement, callGetFocusableElements.
  destruct container as [c|]; [|reflexivity].
  destruct (document w) as [d|]; [|reflexivity].
  destruct (getFocusableElements _ _ _) as [[|first rest] lines]; [reflexivity|].
  pose proof (focusElement_keeps_slot first
                (Some (withDefault true (ffPreventScroll options)))
                (consoleLog lines w)) as K.
  destruct (focusElement first _ (consoleLog lines w)) as [[u|error] w1];
    cbn [snd] in *; exact K.
Qed.

(** X25. The [focusin] listener pulls focus back only when it arrives
    outside: a target inside the container (or the container itself), a
    missing target and an inactive trap leave event and world untouched.
    For a target outside it prevents the default action and hands over to
    [focusFirstElement]; it never throws and never writes the saved-focus
    slot. *)
Theorem handleFocusOut_pulls_back_only_from_outside (active : bool)
    (containerRef : ContainerRef) (event : FocusEvent) (w : World Doc) :
  (exists out,
      handleFocusOut active containerRef event w = (Normal tt, out)
      /\ savedFocusElement (snd out) = savedFocusElement w)
  /\ (forall current tgt,
        containerRef = Some current -> target event = Some tgt ->
        contains current tgt = true ->
        handleFocusOut active containerRef event w = (Normal tt, (event, w)))
  /\ (target event = None \/ active = false ->
      handleFocusOut active containerRef event w = (Normal tt, (event, w)))
  /\ (forall current tgt,
        active = true -> containerRef = Some current -> target event = Some tgt ->
        contains current tgt = false ->
        handleFocusOut active containerRef event w
        = (Normal tt,
           (mkFocusEvent (Some tgt) true,
            snd (focusFirstElement (Some (containerOf current)) noFirstOptions w)))).
Proof.
  split; [|split; [|split]].
  - unfold handleFocusOut.
    destruct (if active then containerRef else None) as [current|]; [|now eexists].
    destruct (target event) as [tgt|]; [|now eexists].
    destruct (contains current tgt); cbn [negb]; [now eexists|].
    destruct (focusFirstElement_completes (Some (containerOf current)) noFirstOptions w)
      as [r Hr].
    pose proof (focusFirstElement_keeps_slot (Some (containerOf current)) noFirstOptions w)
      as Hs.
    destruct (focusFirstElement _ _ w) as [c w1]. cbn [fst snd] in Hr, Hs. subst c.
    eexists. split; [reflexivity | exact Hs].
  - intros current tgt -> Ht Hin. unfold handleFocusOut.
    destruct active; [|reflexivity]. now rewrite Ht, Hin.
  - intros [Ht | ->]; unfold handleFocusOut.
    + rewrite Ht. now destruct (if active then containerRef else None).
    + reflexivity.
  - intros current tgt -> -> Ht Hout. unfold handleFocusOut. rewrite Ht, Hout. cbn [negb].
    destruct (focusFirstElement_completes (Some (containerOf current)) noFirstOptions w)
      as [r Hr].
    destruct (focusFirstElement _ _ w) as [c w1]. cbn [fst snd] in *. now subst c.
Qed.

(** X26. The auto-focus effect saves focus only while the [hasSavedFocus]
    guard is clear.  With the guard clear, an active, bound session with
    [restoreFocus] saves the element that is active at that moment,
    replacing whatever the slot held, and sets the guard.  With the guard
    set, a run of the effect changes nothing, whatever its arguments and the
    world.  Without [restoreFocus] nothing is saved and the guard stays as
    it is.  The guard does not stay set: the restore task clears it whenever
    its [returnFocus()] returns (and leaves it alone when that call throws),
    so the next run of the effect saves again. *)
Theorem autoFocus_effect_saves_while_guard_clear (current : Element * list Node)
    (autoFocus : bool) (w : World Doc) (d : Doc) :
  document w = Some d ->
  autoFocusEffect true true (Some current) true autoFocus false w
  = ((true, autoFocus), setSavedFocusElement (activeElement d) w)
  /\ (forall hasWindow active containerRef restoreFocus autoFocus' (w' : World Doc),
        autoFocusEffect hasWindow active containerRef restoreFocus autoFocus' true w'
        = ((true, if hasWindow
                  then match (if active then containerRef else None) with
                       | Some _ => autoFocus'
                       | None => false
                       end
                  else false),
           w'))
  /\ (forall hasWindow active containerRef autoFocus' guard,
        snd (autoFocusEffect hasWindow active containerRef false autoFocus' guard w) = w
        /\ fst (fst (autoFocusEffect hasWindow active containerRef false autoFocus' guard w))
           = guard)
  /\ (forall (onFocusRestore : option RestoreCallback) (guard : bool)
             (before : World Doc) (r : option Element) (w1 : World Doc),
        returnFocus noOptions before = (Normal r, w1) ->
        snd (restoreTask onFocusRestore guard before)
        = (false, match onFocusRestore with
                  | Some callback => snd (callback w1)
                  | None => w1
                  end))
  /\ (forall (onFocusRestore : option RestoreCallback) (guard : bool)
             (before : World Doc) (error : Exn) (w1 : World Doc),
        returnFocus noOptions before = (Throw error, w1) ->
        restoreTask onFocusRestore guard before = (Throw error, (guard, w1)))
  /\ (forall (guard : bool) (before : World Doc) (r : option Element),
        returnFocus noOptions before = (Normal r, w) ->
        autoFocusEffect true true (Some current) true autoFocus
          (fst (snd (restoreTask None guard before)))
          (snd (snd (restoreTask None guard before)))
        = ((true, autoFocus), setSavedFocusElement (activeElement d) w)).
Proof.
  intros Hd.
  assert (E : autoFocusEffect true true (Some current) true autoFocus false w
              = ((true, autoFocus), setSavedFocusElement (activeElement d) w)).
  { unfold autoFocusEffect, saveFocus. cbn [negb andb]. now rewrite Hd. }
  assert (T : forall (onFocusRestore : option RestoreCallback) (guard : bool)
                     (before : World Doc) (r : option Element) (w1 : World Doc),
             returnFocus noOptions before = (Normal r, w1) ->
             snd (restoreTask onFocusRestore guard before)
             = (false, match onFocusRestore with
                       | Some callback => snd (callback w1)
                       | None => w1
                       end)).
  { intros onFocusRestore guard before r w1 Hr. unfold restoreTask. rewrite Hr.
    destruct onFocusRestore as [callback|]; [|reflexivity].
    now destruct (callback w1). }
  split; [exact E|]. split; [|split; [|split; [exact T|split]]].
  - intros hasWindow active containerRef restoreFocus autoFocus' w'.
    unfold autoFocusEffect.
    destruct hasWindow; cbn [negb]; [|reflexivity].
    destruct (if active then containerRef else None); [|reflexivity].
    now rewrite andb_false_r.
  - intros hasWindow active containerRef autoFocus' guard. unfold autoFocusEffect.
    destruct hasWindow; cbn [negb]; [|now split].
    destruct (if active then containerRef else None); now split.
  - intros onFocusRestore guard before error w1 Hr. unfold restoreTask. now rewrite Hr.
  - intros guard before r Hr.
    rewrite (T None guard before r w Hr). cbn [fst snd]. exact E.
Qed.
End TrapCallbackFacts.

Lemma handleFocusOut_pulls_back_only_from_outside_witness :
  handleFocusOut true (Some Fixture.trapCurrent)
    (mkFocusEvent (Some Fixture.outsideButton) false)
    (Fixture.trapWorld Fixture.outsideButton)
  = (Normal tt,
     (mkFocusEvent (Some Fixture.outsideButton) true, Fixture.trapWorld Fixture.trapA))
  /\ handleFocusOut true (Some Fixture.trapCurrent)
       (mkFocusEvent (Some Fixture.trapB) false) (Fixture.trapWorld Fixture.trapB)
     = (Normal tt, (mkFocusEvent (Some Fixture.trapB) false, Fixture.trapWorld Fixture.trapB)).
Proof.
  split.
  - exact (proj2 (proj2 (proj2 (handleFocusOut_pulls_back_only_from_outside true
                                  (Some Fixture.trapCurrent)
                                  (mkFocusEvent (Some Fixture.outsideButton) false)
                                  (Fixture.trapWorld Fixture.outsideButton))))
             Fixture.trapCurrent Fixture.outsideButton eq_refl eq_refl eq_refl eq_refl).
  - exact (proj1 (proj2 (handleFocusOut_pulls_back_only_from_outside true
                           (Some Fixture.trapCurrent)
                           (mkFocusEvent (Some Fixture.trapB) false)
                           (Fixture.trapWorld Fixture.trapB)))
             Fixture.trapCurrent Fixture.trapB eq_refl eq_refl eq_refl).
Defined.

(** A session saves the opener; its restore task finds the opener gone,
    focuses the body and clears the guard; the session is activated again
    while B is focused, and the saved element is now B. *)
Lemma autoFocus_effect_saves_while_guard_clear_witness :
  autoFocusEffect true true (Some Fixture.trapCurrent) true true false Fixture.pageWorld
  = ((true, true), setSavedFocusElement (Some Fixture.openerButton) Fixture.pageWorld)
  /\ snd (restoreTask None true Fixture.staleWorld) = (false, Fixture.staleWorld)
  /\ savedFocusElement Fixture.staleWorld = Some Fixture.openerButton
  /\ autoFocusEffect true true (Some Fixture.trapCurrent) true true false
       (setDocument (Fixture.mkSimpleDoc (Some Fixture.trapB) (Some Fixture.bodyEl) [] [7])
          Fixture.staleWorld)
     = ((true, true),
        setSavedFocusElement (Some Fixture.trapB)
          (setDocument (Fixture.mkSimpleDoc (Some Fixture.trapB) (Some Fixture.bodyEl) [] [7])
             Fixture.staleWorld)).
Proof.
  split; [|split; [|split]].
  - exact (proj1 (autoFocus_effect_saves_while_guard_clear Fixture.trapCurrent true
                    Fixture.pageWorld Fixture.pageDoc eq_refl)).
  - exact (proj1 (proj2 (proj2 (proj2
             (autoFocus_effect_saves_while_guard_clear Fixture.trapCurrent true
                Fixture.pageWorld Fixture.pageDoc eq_refl))))
             None true Fixture.staleWorld (Some Fixture.bodyEl) Fixture.staleWorld eq_refl).
  - reflexivity.
  - exact (proj1 (autoFocus_effect_saves_while_guard_clear Fixture.trapCurrent true
                    (setDocument
                       (Fixture.mkSimpleDoc (Some Fixture.trapB) (Some Fixture.bodyEl) [] [7])
                       Fixture.staleWorld)
                    (Fixture.mkSimpleDoc (Some Fixture.trapB) (Some Fixture.bodyEl) [] [7])
                    eq_refl)).
Defined.

Lemma lookupAttr_assignAttr_same (name value : string) (l : list (string * string)) :
  lookupAttr name l = None -> lookupAttr name (assignAttr name value l) = Some value.
Proof.
  induction l as [|[k v] r IH]; cbn [lookupAttr assignAttr].
  - intros _. now rewrite String.eqb_refl.
  - destruct (String.eqb k name) eqn:E; [discriminate|].
    intro Hr. cbn [lookupAttr]. rewrite E. now apply IH.
Qed.

Lemma lookupAttr_assignAttr_other (name other value : string) (l : list (string * string)) :
  other <> name -> lookupAttr other (assignAttr name value l) = lookupAttr other l.
Proof.
  intro Hne. induction l as [|[k v] r IH]; cbn [lookupAttr assignAttr].
  - assert (E : String.eqb name other = false) by (apply String.eqb_neq; congruence).
    now rewrite E.
  - destruct (String.eqb k name) eqn:E; cbn [lookupAttr].
    + apply String.eqb_eq in E. subst k.
      assert (E' : String.eqb name other = false) by (apply String.eqb_neq; congruence).
      now rewrite E'.
    + destruct (String.eqb k other); [reflexivity | exact IH].
Qed.

Section AutoFocusFallback.
Context {Doc : Type} `{FocusModel Doc}.

(** X27. The deferred auto-focus.  When [focusFirstElement] finds an element
    the container is left as it is and nothing is logged.  When it finds
    none, a warning is logged and [focus({ preventScroll: true })] is called
    on the container, which by then carries a [tabindex]: ["-1"] if it had
    none, its own value otherwise -- an existing [tabindex] is never
    overwritten, no other attribute changes, and the container stays the
    same node. *)
Theorem autoFocus_timeout_falls_back_to_container (current : Element * list Node)
    (w : World Doc) :
  let attempt := focusFirstElement (Some (containerOf current)) noFirstOptions w in
  let out := autoFocusTimeout (Some current) w in
  (forall focused,
      fst attempt = Normal (Some focused) ->
      out = (Normal tt, (Some current, snd attempt)))
  /\ (fst attempt = Normal None ->
      exists container,
        fst (snd out) = Some (container, snd current)
        /\ same_node container (fst current) = true
        /\ parentElement container = parentElement (fst current)
        /\ getAttribute container "tabindex"
           = match getAttribute (fst current) "tabindex" with
             | Some v => Some v
             | None => Some "-1"
             end
        /\ (forall name, name <> "tabindex" ->
                         getAttribute container name = getAttribute (fst current) name)
        /\ let warned :=
             consoleLog [ConsoleWarn "[a11ytools] No tabbable elements found inside container."]
               (snd attempt) in
           fst out = fst (focusElement container (Some true) warned)
           /\ snd (snd out) = snd (focusElement container (Some true) warned)).
Proof.
  intros attempt out. subst out. unfold autoFocusTimeout. fold attempt.
  destruct attempt as [c w1]. cbn [fst snd]. split.
  - intros focused ->. reflexivity.
  - intros ->.
    set (warned := consoleLog _ w1).
    destruct (hasAttribute (fst current) "tabindex") eqn:Hhas; cbn [negb].
    + exists (fst current).
      destruct (focusElement (fst current) (Some true) warned) as [c' w2] eqn:Ef.
      cbn [fst snd]. repeat split.
      * apply Nat.eqb_refl.
      * unfold hasAttribute in Hhas.
        now destruct (getAttribute (fst current) "tabindex").
    + exists (setAttribute (fst current) "tabindex" "-1").
      destruct (focusElement (setAttribute (fst current) "tabindex" "-1") (Some true) warned)
        as [c' w2] eqn:Ef.
      cbn [fst snd]. repeat split.
      * apply Nat.eqb_refl.
      * unfold hasAttribute in Hhas. unfold getAttribute in *. cbn [setAttribute node attributes].
        destruct (lookupAttr "tabindex" (attributes (node (fst current)))) eqn:El;
          [discriminate|].
        now apply lookupAttr_assignAttr_same.
      * intros name Hne. unfold getAttribute. cbn [setAttribute node attributes].
        now apply lookupAttr_assignAttr_other.
Qed.
End AutoFocusFallback.

Lemma autoFocus_timeout_falls_back_to_container_witness :
  exists container,
    fst (snd (autoFocusTimeout (Some Fixture.emptyCurrent) Fixture.pageWorld))
    = Some (container, snd Fixture.emptyCurrent)
    /\ getAttribute container "tabindex" = Some "-1"
    /\ documentActiveIs container
         (snd (snd (autoFocusTimeout (Some Fixture.emptyCurrent) Fixture.pageWorld))) = true.
Proof.
  destruct (proj2 (autoFocus_timeout_falls_back_to_container Fixture.emptyCurrent
                     Fixture.pageWorld) eq_refl)
    as (container & Href & Hsame & _ & Htab & _ & _ & Hworld).
  exists container. split; [exact Href|]. split; [exact Htab|].
  rewrite Hworld. injection Href as <-. reflexivity.
Defined.

Section TrapSession.
Context {Doc : Type} `{FocusModel Doc}.

(** X28. A trap session restores what it saved.  If the auto-focus effect of
    a fresh session saved the active element X and the default slot is not
    written in between, then on teardown the cleanup queues the restore
    task, and the task -- X accepting focus -- makes X the active element
    again, empties the slot, clears the guard and then runs
    [onFocusRestore].  If [returnFocus] throws instead, the guard stays set
    and [onFocusRestore] is not called. *)
Theorem trap_session_restores_saved_focus (current : Element * list Node)
    (autoFocus : bool) (onFocusRestore : option RestoreCallback)
    (w : World Doc) (d dLater dRestored : Doc) (X : Element) :
  document w = Some d ->
  activeElement d = Some X ->
  focus X (Some true) dLater = (Normal tt, dRestored) ->
  activeIs dRestored X = true ->
  let activation := autoFocusEffect true true (Some current) true autoFocus false w in
  let guard := fst (fst activation) in
  let atTeardown := setDocument dLater (snd activation) in
  let restored := setSavedFocusElement None (setDocument dRestored atTeardown) in
  restoreCleanup true true guard = true
  /\ savedFocusElement restored = None
  /\ document restored = Some dRestored
  /\ restoreTask onFocusRestore guard atTeardown
     = match onFocusRestore with
       | Some callback => (fst (callback restored), (false, snd (callback restored)))
       | None => (Normal tt, (false, restored))
       end
  /\ (forall w' error guard',
        fst (returnFocus noOptions w') = Throw error ->
        restoreTask onFocusRestore guard' w'
        = (Throw error, (guard', snd (returnFocus noOptions w')))).
Proof.
  intros Hd Hact Hfocus Hverify activation guard atTeardown restored.
  assert (E : activation = ((true, autoFocus), setSavedFocusElement (Some X) w)).
  { subst activation. unfold autoFocusEffect, saveFocus. cbn [negb andb].
    now rewrite Hd, Hact. }
  assert (Hrun : returnFocus noOptions atTeardown = (Normal (Some X), restored)).
  { subst restored atTeardown. rewrite E. cbn [snd]. unfold returnFocus.
    cbn [document savedFocusElement setSavedFocusElement setDocument
         withDefault preventScroll noOptions].
    rewrite (focusElement_run X _ _ dLater) by reflexivity.
    rewrite Hfocus. cbn [fst snd]. unfold documentActiveIs.
    cbn [document setDocument]. now rewrite Hverify. }
  split; [subst guard; now rewrite E|].
  split; [reflexivity|]. split; [reflexivity|]. split.
  - unfold restoreTask. rewrite Hrun.
    assert (Hguard : guard = true) by (subst guard; now rewrite E).
    destruct onFocusRestore as [callback|]; [|reflexivity].
    now destruct (callback restored).
  - intros w' error guard' Hthrow. unfold restoreTask.
    destruct (returnFocus noOptions w') as [c w'']. cbn [fst snd] in *. now subst c.
Qed.
End TrapSession.

Lemma trap_session_restores_saved_focus_witness :
  restoreTask None true
    (setDocument (Fixture.docWith Fixture.trapB)
       (snd (autoFocusEffect true true (Some Fixture.trapCurrent) true true false
               Fixture.pageWorld)))
  = (Normal tt, (false, Fixture.pageWorld)).
Proof.
  pose proof (trap_session_restores_saved_focus Fixture.trapCurrent true None
                Fixture.pageWorld Fixture.pageDoc (Fixture.docWith Fixture.trapB)
                Fixture.pageDoc Fixture.openerButton eq_refl eq_refl eq_refl eq_refl) as R.
  cbv zeta in R. destruct R as (_ & _ & _ & Htask & _).
  exact Htask.
Defined.
